(** * Design Decision Logger: the persistence-and-synchronisation layer

    A shallow embedding of the plugin backend ([code.js], and its current
    TypeScript source with the visual log) and of the properties its
    specification states about it.

    Conventions of the embedding.
    - A JavaScript string is a [string]; its length is the number of its
      characters.
    - [Date.now()] readings are integers ([Z]); every command is handled
      under an [Env] that fixes what the host answers while the handler
      runs (clock readings, whether the storage write succeeds, the result
      of a node lookup).
    - The module-level variables ([decisions], [resources],
      [currentDocumentId]) and the host ([figma]) are the fields of
      [World]; a handler is a function from a [World] to a [World] and the
      list of effects it issues, in the order of the program text.
    - [JSON.stringify] and [JSON.parse] are host primitives; module [Json]
      gives them an executable model on the fragment the plugin writes,
      and a recogniser of the whole grammar, which tells when
      [JSON.parse] throws.
    - Of the host the embedding follows the identity of the document, the
      user and the shared plugin data. The canvas and the view are left
      to the host: what a handler asks of them is in its list of
      effects. *)

From Stdlib Require Import ZArith QArith Ascii String List Sorted.
From Stdlib Require Import Decimal DecimalFacts DecimalPos DecimalN DecimalZ.
From stdpp Require Import base option list gmap strings.

Close Scope Q_scope.
Local Open Scope Z_scope.

(* ===================================================================== *)
(** * JSON values, [JSON.stringify] and [JSON.parse] *)
(* ===================================================================== *)

(** The model covers the texts [JSON.stringify] writes for the plugin's
    collections: no insignificant white space, integer numbers, characters
    below 256. On these [parse] reads what [JSON.parse] reads. A text
    outside the fragment (white space between tokens, a fraction or an
    exponent, a [\u] escape above 255) is not read by [parse], though
    [JSON.parse] may read it; the plugin never writes one. Which texts
    [JSON.parse] throws on is a separate matter, settled by
    [well_formed]. *)

Module Json.

(** A JSON value. Numbers are the integers: the only numbers the plugin
    stores are [Date.now()] readings. *)
Unset Elimination Schemes.
Inductive value : Type :=
| JNull
| JBool (b : bool)
| JNum (z : Z)
| JStr (s : string)
| JArr (l : list value)
| JObj (l : list (string * value)).
Set Elimination Schemes.

Definition chars (s : string) : list ascii := list_ascii_of_string s.

(** The quotation mark, character 34. *)
Abbreviation dquote := (Ascii false true false false false true false false).

(** ** Printing *)

Fixpoint digits (u : Decimal.uint) : list ascii :=
  match u with
  | Nil => []
  | D0 u => "0"%char :: digits u
  | D1 u => "1"%char :: digits u
  | D2 u => "2"%char :: digits u
  | D3 u => "3"%char :: digits u
  | D4 u => "4"%char :: digits u
  | D5 u => "5"%char :: digits u
  | D6 u => "6"%char :: digits u
  | D7 u => "7"%char :: digits u
  | D8 u => "8"%char :: digits u
  | D9 u => "9"%char :: digits u
  end.

(** [Number.prototype.toString] on an integer: decimal, no leading
    zeros, a minus sign for negatives. *)
Definition print_int (z : Z) : list ascii :=
  match Z.to_int z with
  | Pos u => digits u
  | Neg u => "-"%char :: digits u
  end.

Definition hex_digit (n : N) : ascii :=
  match n with
  | 0 => "0" | 1 => "1" | 2 => "2" | 3 => "3" | 4 => "4" | 5 => "5"
  | 6 => "6" | 7 => "7" | 8 => "8" | 9 => "9" | 10 => "a" | 11 => "b"
  | 12 => "c" | 13 => "d" | 14 => "e" | _ => "f"
  end%N%char.

(** How [JSON.stringify] writes one character of a string. *)
Definition escape (c : ascii) : list ascii :=
  let n := N_of_ascii c in
  if (n =? 34)%N then ["\"%char; dquote]
  else if (n =? 92)%N then ["\"; "\"]%char
  else if (n =? 8)%N then ["\"; "b"]%char
  else if (n =? 9)%N then ["\"; "t"]%char
  else if (n =? 10)%N then ["\"; "n"]%char
  else if (n =? 12)%N then ["\"; "f"]%char
  else if (n =? 13)%N then ["\"; "r"]%char
  else if (n <? 32)%N then
    ["\"; "u"; "0"; "0"; hex_digit (n / 16); hex_digit (n mod 16)]%char
  else [c].

Fixpoint escape_all (s : list ascii) : list ascii :=
  match s with
  | [] => []
  | c :: r => escape c ++ escape_all r
  end.

Definition quote (s : string) : list ascii :=
  dquote :: escape_all (chars s) ++ [dquote].

Fixpoint sep_by (sep : ascii) (parts : list (list ascii)) : list ascii :=
  match parts with
  | [] => []
  | [p] => p
  | p :: ps => p ++ sep :: sep_by sep ps
  end.

Fixpoint print (j : value) : list ascii :=
  match j with
  | JNull => chars "null"
  | JBool true => chars "true"
  | JBool false => chars "false"
  | JNum z => print_int z
  | JStr s => quote s
  | JArr l => "["%char :: sep_by ","%char (List.map print l) ++ ["]"%char]
  | JObj l =>
      "{"%char ::
      sep_by ","%char
        (List.map (fun kv => quote (fst kv) ++ ":"%char :: print (snd kv)) l)
      ++ ["}"%char]
  end.

Definition stringify (j : value) : string := string_of_list_ascii (print j).

(** ** Parsing *)

Definition digit_of (c : ascii) : option (Decimal.uint -> Decimal.uint) :=
  match c with
  | "0" => Some D0 | "1" => Some D1 | "2" => Some D2 | "3" => Some D3
  | "4" => Some D4 | "5" => Some D5 | "6" => Some D6 | "7" => Some D7
  | "8" => Some D8 | "9" => Some D9 | _ => None
  end%char.

(** The longest run of decimal digits at the head of the input. *)
Fixpoint read_digits (s : list ascii) : Decimal.uint * list ascii :=
  match s with
  | [] => (Nil, [])
  | c :: r =>
      match digit_of c with
      | Some d => let (u, r') := read_digits r in (d u, r')
      | None => (Nil, s)
      end
  end.

(** JSON's integer literals: at least one digit, no superfluous leading
    zero. *)
Definition literal_ok (u : Decimal.uint) : bool := Decimal.uint_beq (unorm u) u.

Definition parse_number (s : list ascii) : option (value * list ascii) :=
  match s with
  | "-"%char :: r =>
      let (u, r') := read_digits r in
      if literal_ok u then Some (JNum (Z.of_int (Neg u)), r') else None
  | _ =>
      let (u, r') := read_digits s in
      if literal_ok u then Some (JNum (Z.of_int (Pos u)), r') else None
  end.

Definition hex_value (c : ascii) : option N :=
  let n := N_of_ascii c in
  if ((48 <=? n) && (n <=? 57))%N then Some (n - 48)%N          (* 0-9 *)
  else if ((97 <=? n) && (n <=? 102))%N then Some (n - 87)%N    (* a-f *)
  else if ((65 <=? n) && (n <=? 70))%N then Some (n - 55)%N     (* A-F *)
  else None.

(** The character a four-digit [\u] escape denotes, when it is one of the
    256 characters of the embedding. *)
Definition unicode_escape (h1 h2 h3 h4 : ascii) : option ascii :=
  match hex_value h1, hex_value h2, hex_value h3, hex_value h4 with
  | Some a, Some b, Some c, Some d =>
      if ((a =? 0) && (b =? 0))%N then Some (ascii_of_N (16 * c + d)) else None
  | _, _, _, _ => None
  end.

Definition simple_escape (e : ascii) : option ascii :=
  match e with
  | dquote => Some dquote
  | "\" => Some "\"
  | "/" => Some "/"
  | "b" => Some (ascii_of_N 8)
  | "f" => Some (ascii_of_N 12)
  | "n" => Some (ascii_of_N 10)
  | "r" => Some (ascii_of_N 13)
  | "t" => Some (ascii_of_N 9)
  | _ => None
  end%char.

Definition push (c : ascii) (p : option (list ascii * list ascii)) :
    option (list ascii * list ascii) :=
  match p with
  | Some (cs, rest) => Some (c :: cs, rest)
  | None => None
  end.

(** The body of a string literal, after its opening quote, up to and
    including the closing quote. *)
Fixpoint parse_chars (s : list ascii) : option (list ascii * list ascii) :=
  match s with
  | [] => None
  | c :: r =>
      if Ascii.eqb c dquote then Some ([], r)
      else if Ascii.eqb c "\" then
        match r with
        | [] => None
        | e :: r' =>
            if Ascii.eqb e "u" then
              match r' with
              | h1 :: h2 :: h3 :: h4 :: r'' =>
                  match unicode_escape h1 h2 h3 h4 with
                  | Some x => push x (parse_chars r'')
                  | None => None
                  end
              | _ => None
              end
            else
              match simple_escape e with
              | Some x => push x (parse_chars r')
              | None => None
              end
        end
      else if (N_of_ascii c <? 32)%N then None
      else push c (parse_chars r)
  end.

Definition parse_string (s : list ascii) : option (string * list ascii) :=
  match parse_chars s with
  | Some (cs, rest) => Some (string_of_list_ascii cs, rest)
  | None => None
  end.

(** Recursive descent, bounded by [fuel]; [parse] supplies more fuel than
    any input can use. *)
Fixpoint parse_value (fuel : nat) (s : list ascii) : option (value * list ascii) :=
  match fuel with
  | O => None
  | S fuel =>
      match s with
      | "n" :: "u" :: "l" :: "l" :: r => Some (JNull, r)
      | "t" :: "r" :: "u" :: "e" :: r => Some (JBool true, r)
      | "f" :: "a" :: "l" :: "s" :: "e" :: r => Some (JBool false, r)
      | dquote :: r =>
          match parse_string r with
          | Some (str, r') => Some (JStr str, r')
          | None => None
          end
      | "[" :: "]" :: r => Some (JArr [], r)
      | "[" :: r =>
          match parse_elements fuel r with
          | Some (l, r') => Some (JArr l, r')
          | None => None
          end
      | "{" :: "}" :: r => Some (JObj [], r)
      | "{" :: r =>
          match parse_members fuel r with
          | Some (l, r') => Some (JObj l, r')
          | None => None
          end
      | _ => parse_number s
      end%char
  end
with parse_elements (fuel : nat) (s : list ascii) : option (list value * list ascii) :=
  match fuel with
  | O => None
  | S fuel =>
      match parse_value fuel s with
      | Some (v, ("," :: r)%char) =>
          match parse_elements fuel r with
          | Some (l, r') => Some (v :: l, r')
          | None => None
          end
      | Some (v, ("]" :: r)%char) => Some ([v], r)
      | _ => None
      end
  end
with parse_members (fuel : nat) (s : list ascii) :
    option (list (string * value) * list ascii) :=
  match fuel with
  | O => None
  | S fuel =>
      match s with
      | (dquote :: r) =>
          match parse_string r with
          | Some (k, (":" :: r1)%char) =>
              match parse_value fuel r1 with
              | Some (v, ("," :: r2)%char) =>
                  match parse_members fuel r2 with
                  | Some (l, r') => Some ((k, v) :: l, r')
                  | None => None
                  end
              | Some (v, ("}" :: r2)%char) => Some ([(k, v)], r2)
              | _ => None
              end
          | _ => None
          end
      | _ => None
      end
  end.

(** A measure of a value that bounds the fuel its text needs. *)
Fixpoint size (j : value) : nat :=
  match j with
  | JArr l => S (list_sum (List.map (fun v => S (size v)) l))
  | JObj l => S (list_sum (List.map (fun kv => S (size (snd kv))) l))
  | _ => 1
  end.

(** The text that follows a number must not continue it. *)
Definition no_digit (rest : list ascii) : Prop :=
  match rest with
  | [] => True
  | c :: _ => digit_of c = None
  end.

(** A value reads back: with fuel for its measure, the parser reads the
    text of the value off the front of any input and returns the rest. *)
Definition reads_back (j : value) : Prop :=
  forall fuel rest,
    (size j <= fuel)%nat -> no_digit rest ->
    parse_value fuel (print j ++ rest) = Some (j, rest).

(** [JSON.parse] on the fragment: the whole text must be one value.
    [None]: the text is outside the fragment. That includes every text
    on which [JSON.parse] throws its [SyntaxError] ([well_formed] below
    tells which these are), and also JSON that the fragment leaves out. *)
Definition parse (s : string) : option value :=
  let cs := chars s in
  match parse_value (S (List.length cs)) cs with
  | Some (v, []) => Some v
  | _ => None
  end.

(** ** Well-formed texts

    The grammar of JSON in full, on texts of the 256 characters of the
    embedding: white space around the tokens, fractions and exponents,
    every [\u] escape. [JSON.parse] throws exactly on the texts that are
    not well formed. The recogniser follows [parse_value] case by case and
    returns the text left after the value. *)

Definition is_ws (c : ascii) : bool :=
  let n := N_of_ascii c in
  ((n =? 32) || (n =? 9) || (n =? 10) || (n =? 13))%N.

Fixpoint skip_ws (s : list ascii) : list ascii :=
  match s with
  | [] => []
  | c :: r => if is_ws c then skip_ws r else s
  end.

Definition starts_with (c : ascii) (s : list ascii) : bool :=
  match s with
  | [] => false
  | c' :: _ => Ascii.eqb c' c
  end.

(** One digit or more. *)
Definition skip_digits (s : list ascii) : option (list ascii) :=
  match read_digits s with
  | (Nil, _) => None
  | (_, r) => Some r
  end.

(** [frac]: nothing, or a point and digits. *)
Definition skip_fraction (s : list ascii) : option (list ascii) :=
  if starts_with "." s then skip_digits (tl s) else Some s.

(** [exp]: nothing, or [e] or [E], a sign or none, and digits. *)
Definition skip_exponent (s : list ascii) : option (list ascii) :=
  if starts_with "e" s || starts_with "E" s then
    if starts_with "+" (tl s) || starts_with "-" (tl s)
    then skip_digits (tl (tl s)) else skip_digits (tl s)
  else Some s.

(** [number]: a minus sign or none, an integer literal, [frac], [exp]. *)
Definition skip_number (s : list ascii) : option (list ascii) :=
  let (u, r) := read_digits (if starts_with "-" s then tl s else s) in
  if literal_ok u then
    match skip_fraction r with
    | Some r' => skip_exponent r'
    | None => None
    end
  else None.

Definition is_hex (c : ascii) : bool :=
  match hex_value c with
  | Some _ => true
  | None => false
  end.

(** The body of a string literal, after its opening quote, up to and
    including the closing quote: any four hexadecimal digits after
    [\u]. *)
Fixpoint skip_chars (s : list ascii) : option (list ascii) :=
  match s with
  | [] => None
  | c :: r =>
      if Ascii.eqb c dquote then Some r
      else if Ascii.eqb c "\" then
        match r with
        | [] => None
        | e :: r' =>
            if Ascii.eqb e "u" then
              match r' with
              | h1 :: h2 :: h3 :: h4 :: r'' =>
                  if is_hex h1 && is_hex h2 && is_hex h3 && is_hex h4
                  then skip_chars r'' else None
              | _ => None
              end
            else
              match simple_escape e with
              | Some _ => skip_chars r'
              | None => None
              end
        end
      else if (N_of_ascii c <? 32)%N then None
      else skip_chars r
  end.

(** A value, after white space; the elements of an array after its
    bracket, up to and including the closing bracket ([first]: none read
    yet, so the array may end here); the members of an object
    likewise. *)
Fixpoint skip_value (fuel : nat) (s : list ascii) : option (list ascii) :=
  match fuel with
  | O => None
  | S fuel =>
      match skip_ws s with
      | "n" :: "u" :: "l" :: "l" :: r => Some r
      | "t" :: "r" :: "u" :: "e" :: r => Some r
      | "f" :: "a" :: "l" :: "s" :: "e" :: r => Some r
      | dquote :: r => skip_chars r
      | "[" :: "]" :: r => Some r
      | "[" :: r => skip_elements fuel true r
      | "{" :: "}" :: r => Some r
      | "{" :: r => skip_members fuel true r
      | s' => skip_number s'
      end%char
  end
with skip_elements (fuel : nat) (first : bool) (s : list ascii) : option (list ascii) :=
  match fuel with
  | O => None
  | S fuel =>
      if first && starts_with "]" (skip_ws s) then Some (tl (skip_ws s))
      else
        match skip_value fuel s with
        | Some r =>
            if starts_with "," (skip_ws r) then skip_elements fuel false (tl (skip_ws r))
            else if starts_with "]" (skip_ws r) then Some (tl (skip_ws r))
            else None
        | None => None
        end
  end
with skip_members (fuel : nat) (first : bool) (s : list ascii) : option (list ascii) :=
  match fuel with
  | O => None
  | S fuel =>
      if first && starts_with "}" (skip_ws s) then Some (tl (skip_ws s))
      else if starts_with dquote (skip_ws s) then
        match skip_chars (tl (skip_ws s)) with
        | Some r1 =>
            if starts_with ":" (skip_ws r1) then
              match skip_value fuel (tl (skip_ws r1)) with
              | Some r2 =>
                  if starts_with "," (skip_ws r2)
                  then skip_members fuel false (tl (skip_ws r2))
                  else if starts_with "}" (skip_ws r2) then Some (tl (skip_ws r2))
                  else None
              | None => None
              end
            else None
        | None => None
        end
      else None
  end.

(** The whole text is one value, with white space around it or none. The
    fuel is more than any text can use. *)
Definition well_formed (s : string) : bool :=
  let cs := chars s in
  match skip_value (S (List.length cs)) cs with
  | Some r => match skip_ws r with [] => true | _ :: _ => false end
  | None => false
  end.

(** The text after a value of the fragment: the end, or the character
    that separates or closes. *)
Definition stops (rest : list ascii) : Prop :=
  match rest with
  | [] => True
  | c :: _ => c = ","%char \/ c = "]"%char \/ c = "}"%char
  end.

End Json.


(* ===================================================================== *)
(** * Entity model *)
(* ===================================================================== *)

(** Reading a parsed JSON value at a TypeScript type. The plugin assigns
    the result of [JSON.parse] to a variable of type [Decision[]] (or
    [Resource[]]) without inspecting it; the embedding, whose collections
    are typed, reads the value at that type. A value of another shape is
    outside the embedding: the program goes on with it, and the typed
    collections cannot hold it. *)
Module Shape.
Import Json.

(** Property lookup on a parsed object: as in JavaScript, the last
    occurrence of a repeated key wins. *)
Fixpoint field (k : string) (o : list (string * value)) : option value :=
  match o with
  | [] => None
  | (k', v) :: o' =>
      match field k o' with
      | Some v' => Some v'
      | None => if String.eqb k k' then Some v else None
      end
  end.

Definition as_string (v : value) : option string :=
  match v with JStr s => Some s | _ => None end.

Definition as_number (v : value) : option Z :=
  match v with JNum z => Some z | _ => None end.

Definition as_array (v : value) : option (list value) :=
  match v with JArr l => Some l | _ => None end.

Definition as_strings (v : value) : option (list string) :=
  l ← as_array v; mapM as_string l.

Definition required {A} (read : value -> option A) (o : option value) : option A :=
  v ← o; read v.

(** An optional property ([p?: T]): absent, or [null], or a [T]. *)
Definition optional {A} (read : value -> option A) (o : option value) :
    option (option A) :=
  match o with
  | None | Some JNull => Some None
  | Some v => a ← read v; Some (Some a)
  end.

(** [JSON.stringify] leaves out a property whose value is [undefined]. *)
Definition property {A} (k : string) (write : A -> value) (o : option A) :
    list (string * value) :=
  match o with
  | Some a => [(k, write a)]
  | None => []
  end.

Definition strings (l : list string) : value := JArr (JStr <$> l).
End Shape.

(** [{title: string, url: string}], the element type of [Decision.links]. *)
Module Link.
Record t := mk { title : string; url : string }.

Definition toJSON (l : t) : Json.value :=
  Json.JObj [("title", Json.JStr (title l)); ("url", Json.JStr (url l))]%string.

Definition fromJSON (v : Json.value) : option t :=
  match v with
  | Json.JObj o =>
      a ← Shape.required Shape.as_string (Shape.field "title" o);
      b ← Shape.required Shape.as_string (Shape.field "url" o);
      Some (mk a b)
  | _ => None
  end.
End Link.

(** ['proposed' | 'accepted' | 'rejected' | 'deprecated' | 'superseded'] *)
Module Status.
Inductive t := proposed | accepted | rejected | deprecated | superseded.

Definition name (s : t) : string :=
  match s with
  | proposed => "proposed"
  | accepted => "accepted"
  | rejected => "rejected"
  | deprecated => "deprecated"
  | superseded => "superseded"
  end.

Definition of_name (s : string) : option t :=
  if String.eqb s "proposed" then Some proposed
  else if String.eqb s "accepted" then Some accepted
  else if String.eqb s "rejected" then Some rejected
  else if String.eqb s "deprecated" then Some deprecated
  else if String.eqb s "superseded" then Some superseded
  else None.

Definition fromJSON (v : Json.value) : option t :=
  s ← Shape.as_string v; of_name s.
End Status.

(** [interface Decision] *)
Module Decision.
Record t := mk {
  id : string;
  title : string;
  rationale : string;
  context : string;
  timestamp : Z;
  author : string;
  links : list Link.t;
  pros : option (list string);
  cons : option (list string);
  tags : option (list string);
  nodeId : option string;
  nodeName : option string;
  pageName : option string;
  status : Status.t
}.

Definition toJSON (d : t) : Json.value :=
  Json.JObj
    ([("id", Json.JStr (id d));
      ("title", Json.JStr (title d));
      ("rationale", Json.JStr (rationale d));
      ("context", Json.JStr (context d));
      ("timestamp", Json.JNum (timestamp d));
      ("author", Json.JStr (author d));
      ("links", Json.JArr (Link.toJSON <$> links d))]%string
     ++ Shape.property "pros" Shape.strings (pros d)
     ++ Shape.property "cons" Shape.strings (cons d)
     ++ Shape.property "tags" Shape.strings (tags d)
     ++ Shape.property "nodeId" Json.JStr (nodeId d)
     ++ Shape.property "nodeName" Json.JStr (nodeName d)
     ++ Shape.property "pageName" Json.JStr (pageName d)
     ++ [("status"%string, Json.JStr (Status.name (status d)))]).

Definition fromJSON (v : Json.value) : option t :=
  match v with
  | Json.JObj o =>
      a ← Shape.required Shape.as_string (Shape.field "id" o);
      b ← Shape.required Shape.as_string (Shape.field "title" o);
      c ← Shape.required Shape.as_string (Shape.field "rationale" o);
      d ← Shape.required Shape.as_string (Shape.field "context" o);
      e ← Shape.required Shape.as_number (Shape.field "timestamp" o);
      f ← Shape.required Shape.as_string (Shape.field "author" o);
      g ← Shape.required (λ v, l ← Shape.as_array v; mapM Link.fromJSON l)
            (Shape.field "links" o);
      h ← Shape.optional Shape.as_strings (Shape.field "pros" o);
      i ← Shape.optional Shape.as_strings (Shape.field "cons" o);
      j ← Shape.optional Shape.as_strings (Shape.field "tags" o);
      k ← Shape.optional Shape.as_string (Shape.field "nodeId" o);
      l ← Shape.optional Shape.as_string (Shape.field "nodeName" o);
      m ← Shape.optional Shape.as_string (Shape.field "pageName" o);
      n ← Shape.required Status.fromJSON (Shape.field "status" o);
      Some (mk a b c d e f g h i j k l m n)
  | _ => None
  end.

(** [{...p, timestamp: now, author: a}] *)
Definition refreshed (p : t) (now : Z) (a : string) : t :=
  mk (id p) (title p) (rationale p) (context p) now a (links p)
     (pros p) (cons p) (tags p) (nodeId p) (nodeName p) (pageName p) (status p).

(** [JSON.stringify(decisions)] *)
Definition stringify (ds : list t) : string :=
  Json.stringify (Json.JArr (toJSON <$> ds)).

(** [JSON.parse(savedDecisions)], read at [Decision[]]. *)
Definition parse (blob : string) : option (list t) :=
  v ← Json.parse blob; l ← Shape.as_array v; mapM fromJSON l.
End Decision.

(** [interface Resource] *)
Module Resource.
Record t := mk {
  id : string;
  title : string;
  description : string;
  url : string;
  category : string;
  timestamp : Z;
  author : string;
  tags : option (list string)
}.

Definition toJSON (r : t) : Json.value :=
  Json.JObj
    ([("id", Json.JStr (id r));
      ("title", Json.JStr (title r));
      ("description", Json.JStr (description r));
      ("url", Json.JStr (url r));
      ("category", Json.JStr (category r));
      ("timestamp", Json.JNum (timestamp r));
      ("author", Json.JStr (author r))]%string
     ++ Shape.property "tags" Shape.strings (tags r)).

Definition fromJSON (v : Json.value) : option t :=
  match v with
  | Json.JObj o =>
      a ← Shape.required Shape.as_string (Shape.field "id" o);
      b ← Shape.required Shape.as_string (Shape.field "title" o);
      c ← Shape.required Shape.as_string (Shape.field "description" o);
      d ← Shape.required Shape.as_string (Shape.field "url" o);
      e ← Shape.required Shape.as_string (Shape.field "category" o);
      f ← Shape.required Shape.as_number (Shape.field "timestamp" o);
      g ← Shape.required Shape.as_string (Shape.field "author" o);
      h ← Shape.optional Shape.as_strings (Shape.field "tags" o);
      Some (mk a b c d e f g h)
  | _ => None
  end.

Definition refreshed (p : t) (now : Z) (a : string) : t :=
  mk (id p) (title p) (description p) (url p) (category p) now a (tags p).

Definition stringify (rs : list t) : string :=
  Json.stringify (Json.JArr (toJSON <$> rs)).

Definition parse (blob : string) : option (list t) :=
  v ← Json.parse blob; l ← Shape.as_array v; mapM fromJSON l.
End Resource.

(* ===================================================================== *)
(** * The host *)
(* ===================================================================== *)

(** JavaScript truthiness of a string, and [a || b] on strings. *)
Definition truthy (s : string) : bool := negb (String.eqb s "").

Definition or_else (a : option string) (b : string) : string :=
  match a with
  | Some s => if truthy s then s else b
  | None => b
  end.

(** [Number.prototype.toString()] on an integer. *)
Definition toString (z : Z) : string := string_of_list_ascii (Json.print_int z).

(** The part of the [figma] global that the embedding follows: the
    identity of the document, the user, the shared plugin data, and the
    selection and the page as a handler finds them. The canvas (pages and
    nodes) and the view belong to the host: what the backend asks of them
    (a page switch, a selection, the drawing of the visual log) is listed
    among the effects of a handler and is not followed into this
    record. *)
Module Figma.
Record User := mkUser { name : string; id : string }.

Record SceneNode := mkNode { node_id : string; node_name : string }.

Record t := mk {
  root_id : string;                                 (* figma.root.id *)
  root_name : string;                               (* figma.root.name *)
  fileKey : option string;                          (* figma.fileKey *)
  sharedPluginData : gmap (string * string) string; (* of figma.root *)
  currentUser : option User;                        (* figma.currentUser *)
  selection : list SceneNode;                       (* figma.currentPage.selection *)
  currentPage_name : string                         (* figma.currentPage.name *)
}.

(** [figma.root.getSharedPluginData(namespace, key)]: the empty string
    when nothing is stored. *)
Definition getSharedPluginData (namespace key : string) (f : t) : string :=
  default ""%string (sharedPluginData f !! (namespace, key)).

(** The document after a [figma.root.setSharedPluginData] that went
    through. *)
Definition stored (namespace key value : string) (f : t) : t :=
  mk (root_id f) (root_name f) (fileKey f)
     (<[(namespace, key) := value]> (sharedPluginData f))
     (currentUser f) (selection f) (currentPage_name f).
End Figma.

(** What the host answers while one handler runs. *)
Inductive Lookup :=
| lookup_throws                                  (* getNodeByIdAsync rejects *)
| not_found                                      (* resolves to null *)
| found (page : option string) (selectable : bool)
    (* the name of the page above the node, if any; whether the node is
       neither the document nor a page; setCurrentPageAsync resolves *)
| switch_rejects (page : string).
    (* the node is found below [page], and setCurrentPageAsync rejects *)

Record Env := mkEnv {
  Date_now : Z;       (* the first reading of Date.now() in the handler *)
  Date_now' : Z;      (* the second one (create reads the clock twice) *)
  write_ok : bool;    (* setSharedPluginData returns rather than throws *)
  getNodeById : Lookup
}.

(* ===================================================================== *)
(** * Messages and effects *)
(* ===================================================================== *)

(** Messages from the UI ([msg.type] and the properties the handler
    reads). *)
Inductive Msg :=
| create_resource (title description url category : string)
    (tags : option (list string))
| create_decision (title rationale context : string)
    (links : option (list Link.t)) (pros cons tags : option (list string))
    (nodeId nodeName pageName : option string) (status : option Status.t)
| edit_decision (decision : Decision.t)
| delete_decision (id : string)
| edit_resource (resource : Resource.t)
| delete_resource (id : string)
| get_user_info
| get_document_id
| navigate_to_node (nodeId pageName : option string)
| close
| unhandled (type : string).

(** Messages to the UI. *)
Inductive UiEvent :=
| load_decisions (decisions : list Decision.t) (documentId fileName : option string)
| load_resources (resources : list Resource.t)
| decision_created (decision : Decision.t)
| decision_updated (decision : Decision.t)
| decision_deleted (id : string)
| resource_created (resource : Resource.t)
| resource_updated (resource : Resource.t)
| resource_deleted (id : string)
| selection_info (nodeId nodeName pageName : option string)
| user_info (name id : option string)
| document_id (documentId : string) (fileName : option string).

(** Calls into the visual log (TypeScript source only). The canvas they
    draw on is not part of the store; the calls are asynchronous and take
    effect after the handler has changed and saved the collection. *)
Inductive VisualLog :=
| addDecisionToVisualLog (decision : Decision.t)
| updateDecisionInVisualLog (updatedDecision : Decision.t)
| deleteDecisionFromVisualLog (decisionTitle : string)
| rebuildVisualLog.

Inductive Effect :=
| postMessage (e : UiEvent)                      (* figma.ui.postMessage *)
| notify (text : string) (error : bool)          (* figma.notify *)
| console_log (text : string)
| console_error (text : string)
| setSharedPluginData (key value : string)       (* the call, whether or not it throws *)
| visualLog (call : VisualLog)
| setCurrentPage (page : string)                 (* the call, whether or not it rejects *)
| setTimeout (ms : nat) (callback : option (string * string))
    (* the callback selects a node and notifies, or does nothing *)
| closePlugin.

(* ===================================================================== *)
(** * The backend *)
(* ===================================================================== *)

(** The two versions of the backend under [src/]: the compiled [code.js]
    and the TypeScript source with the visual log. They differ in the
    document identity, in the test of [checkForDocumentChange] and in the
    calls into the visual log. *)
Inductive Build := Compiled | Source.

Definition PLUGIN_NAMESPACE : string := "bhrDesignDecisionLogger".
Definition DECISIONS_KEY : string := "designDecisions".
Definition RESOURCES_KEY : string := "designResources".

(** The module-level variables, and the host. *)
Record World := mkWorld {
  decisions : list Decision.t;
  resources : list Resource.t;
  currentDocumentId : string;
  figma : Figma.t
}.

Definition with_decisions (ds : list Decision.t) (w : World) : World :=
  mkWorld ds (resources w) (currentDocumentId w) (figma w).

Definition with_resources (rs : list Resource.t) (w : World) : World :=
  mkWorld (decisions w) rs (currentDocumentId w) (figma w).

Definition with_figma (f : Figma.t) (w : World) : World :=
  mkWorld (decisions w) (resources w) (currentDocumentId w) f.

(** [figma.root.id] in [code.js]; [figma.fileKey || figma.root.id] in the
    source. *)
Definition documentIdentity (b : Build) (f : Figma.t) : string :=
  match b with
  | Compiled => Figma.root_id f
  | Source => or_else (Figma.fileKey f) (Figma.root_id f)
  end.

(** [figma.root.name || 'Untitled'], sent by the source only. *)
Definition fileName (b : Build) (f : Figma.t) : option string :=
  match b with
  | Compiled => None
  | Source => Some (or_else (Some (Figma.root_name f)) "Untitled")
  end.

Definition savedDecisions (f : Figma.t) : string :=
  Figma.getSharedPluginData PLUGIN_NAMESPACE DECISIONS_KEY f.

Definition savedResources (f : Figma.t) : string :=
  Figma.getSharedPluginData PLUGIN_NAMESPACE RESOURCES_KEY f.

(** [if (saved) { xs = JSON.parse(saved) } else { xs = [] }], read at the
    type of the collection. [Some xs]: nothing is stored, or the text
    stored is a list of records, as the plugin writes it. [None]: the
    text is something else. Then [JSON.parse] throws, or it returns a
    value that the typed collections of the embedding cannot hold;
    [parseThrows] tells the two apart. The embedding follows the loader
    only on documents whose blobs are absent, lists of records, or not
    JSON; the statements below that depend on a blob say which of these
    they are about. *)
Definition loadDecisions (saved : string) : option (list Decision.t) :=
  if truthy saved then Decision.parse saved else Some [].

Definition loadResources (saved : string) : option (list Resource.t) :=
  if truthy saved then Resource.parse saved else Some [].

(** [JSON.parse(saved)] is reached and throws: something is stored, and
    it is not JSON. *)
Definition parseThrows (saved : string) : bool :=
  truthy saved && negb (Json.well_formed saved).

Definition sendSelectionInfo (f : Figma.t) : list Effect :=
  match Figma.selection f with
  | [selectedNode] =>
      [postMessage (selection_info (Some (Figma.node_id selectedNode))
                      (Some (Figma.node_name selectedNode))
                      (Some (Figma.currentPage_name f)))]
  | [] => [postMessage (selection_info None None None)]
  | sel =>
      [postMessage (selection_info None
                      (Some ("Multiple items (" ++ toString (Z.of_nat (length sel)) ++ ")"))
                      (Some (Figma.currentPage_name f)))]
  end%string.

(** The [catch] block of [initializePlugin], entered when one of the two
    [JSON.parse] calls throws ([parseThrows]). The embedding ends here
    also on a blob that is JSON but no list of records (see
    [loadDecisions]). *)
Definition loadFailed (doc : string) (w : World) : World * list Effect :=
  (mkWorld [] [] doc (figma w),
   [console_error "Error loading saved data:";
    notify "Error loading saved data" false;
    postMessage (load_decisions [] None None);
    postMessage (load_resources [])]%string).

(** [initializePlugin]: the assignments to the module-level variables,
    and the calls in the order of the program text. In the source the
    function is asynchronous and its callers do not await it: with a
    collection that is not empty, the rebuild of the visual log and the
    selection message that follows it take place after the caller has
    gone on, and the rebuild draws on the canvas, which the embedding
    leaves to the host (see [Figma]). *)
Definition initializePlugin (b : Build) (w : World) : World * list Effect :=
  let doc := documentIdentity b (figma w) in
  let '(w1, out) :=
    match loadDecisions (savedDecisions (figma w)) with
    | None => loadFailed doc w
    | Some ds =>
        let sent := [postMessage (load_decisions ds (Some doc) (fileName b (figma w)))] in
        match loadResources (savedResources (figma w)) with
        | None => let '(w', out') := loadFailed doc w in (w', sent ++ out')
        | Some rs =>
            (mkWorld ds rs doc (figma w), sent ++ [postMessage (load_resources rs)])
        end
    end in
  let rebuild :=
    match b, decisions w1 with
    | Source, _ :: _ => [visualLog rebuildVisualLog]
    | _, _ => []
    end in
  (w1, out ++ rebuild ++ sendSelectionInfo (figma w1)).

(** [try { setSharedPluginData(..., JSON.stringify(xs)); return true }
     catch { console.error(...); return false }] *)
Definition save (key blob failure : string) (env : Env) (w : World) :
    bool * World * list Effect :=
  if write_ok env then
    (true, with_figma (Figma.stored PLUGIN_NAMESPACE key blob (figma w)) w,
     [setSharedPluginData key blob])
  else
    (false, w, [setSharedPluginData key blob; console_error failure]).

Definition saveDecisionsToDocument (env : Env) (w : World) : bool * World * list Effect :=
  save DECISIONS_KEY (Decision.stringify (decisions w))
       "Error saving decisions to document storage:" env w.

Definition saveResourcesToDocument (env : Env) (w : World) : bool * World * list Effect :=
  save RESOURCES_KEY (Resource.stringify (resources w))
       "Error saving resources to document storage:" env w.

(** The test of [checkForDocumentChange]. In [code.js] it reads
    [currentDocumentId !== figma.root.id]; in the source it reads
    [currentDocumentId !== figma.fileKey || figma.root.id], in which [!==]
    binds tighter than [||]. *)
Definition documentChanged (b : Build) (w : World) : bool :=
  match b with
  | Compiled => negb (String.eqb (currentDocumentId w) (Figma.root_id (figma w)))
  | Source =>
      negb (bool_decide (Some (currentDocumentId w) = Figma.fileKey (figma w)))
      || truthy (Figma.root_id (figma w))
  end.

Definition checkForDocumentChange (b : Build) (w : World) : World * list Effect :=
  if documentChanged b w then
    let '(w', out) := initializePlugin b w in
    (w', console_log "Document changed, reloading decisions" :: out)
  else (w, []).

(** [figma.currentUser?.name || 'Unknown'] *)
Definition authorName (f : Figma.t) : string :=
  or_else (Figma.name <$> Figma.currentUser f) "Unknown".

Definition created (b : Build) (d : Decision.t) : list Effect :=
  [postMessage (decision_created d); notify "Decision logged successfully" false]
  ++ match b with
     | Source => [visualLog (addDecisionToVisualLog d)]
     | Compiled => []
     end.

Definition updated (b : Build) (d : Decision.t) : list Effect :=
  [postMessage (decision_updated d); notify "Decision updated successfully" false]
  ++ match b with
     | Source => [visualLog (updateDecisionInVisualLog d)]
     | Compiled => []
     end.

Definition deleted (b : Build) (id decisionTitle : string) : list Effect :=
  [postMessage (decision_deleted id); notify "Decision deleted successfully" false]
  ++ match b with
     | Source =>
         if truthy decisionTitle
         then [visualLog (deleteDecisionFromVisualLog decisionTitle)] else []
     | Compiled => []
     end.

(** The [switch (msg.type)] of [figma.ui.onmessage]. [list_find] gives
    both the [index] of [findIndex] and [xs[index]]; [None] is [-1]. The
    state returned is that of the module-level variables and of the
    plugin data; the page switch and the selection of a navigation, and
    the calls into the visual log, are effects (see [Figma]). *)
Definition handle (b : Build) (env : Env) (msg : Msg) (w : World) : World * list Effect :=
  match msg with
  | create_resource title description url category tags =>
      let newResource :=
        Resource.mk (toString (Date_now env)) title description url category
          (Date_now' env) (authorName (figma w)) (Some (default [] tags)) in
      let w := with_resources (resources w ++ [newResource]) w in
      let '(ok, w, out) := saveResourcesToDocument env w in
      if ok then
        (w, out ++ [postMessage (resource_created newResource);
                    notify "Resource added successfully" false])
      else (w, out ++ [notify "Error saving resource" false])
  | create_decision title rationale context links pros cons_ tags
      nodeId nodeName pageName status =>
      let newDecision :=
        Decision.mk (toString (Date_now env)) title rationale context
          (Date_now' env) (authorName (figma w))
          (default [] links) (Some (default [] pros)) (Some (default [] cons_))
          (Some (default [] tags)) nodeId nodeName pageName
          (default Status.proposed status) in
      let w := with_decisions (decisions w ++ [newDecision]) w in
      let '(ok, w, out) := saveDecisionsToDocument env w in
      if ok then (w, out ++ created b newDecision)
      else (w, out ++ [notify "Error saving decision" false])
  | edit_decision decision =>
      match list_find (λ d, Decision.id d = Decision.id decision) (decisions w) with
      | Some (index, stored) =>
          let replacement :=
            Decision.refreshed decision (Date_now env) (Decision.author stored) in
          let w := with_decisions (<[index := replacement]> (decisions w)) w in
          let '(ok, w, out) := saveDecisionsToDocument env w in
          if ok then (w, out ++ updated b replacement)
          else (w, out ++ [notify "Error updating decision" false])
      | None => (w, [])
      end
  | delete_decision id =>
      let decisionTitle :=
        or_else (Decision.title <$>
                   (snd <$> list_find (λ d, Decision.id d = id) (decisions w))) "" in
      let w := with_decisions (filter (λ d, Decision.id d ≠ id) (decisions w)) w in
      let '(ok, w, out) := saveDecisionsToDocument env w in
      if ok then (w, out ++ deleted b id decisionTitle)
      else (w, out ++ [notify "Error deleting decision" false])
  | edit_resource resource =>
      match list_find (λ r, Resource.id r = Resource.id resource) (resources w) with
      | Some (index, stored) =>
          let replacement :=
            Resource.refreshed resource (Date_now env) (Resource.author stored) in
          let w := with_resources (<[index := replacement]> (resources w)) w in
          let '(ok, w, out) := saveResourcesToDocument env w in
          if ok then
            (w, out ++ [postMessage (resource_updated replacement);
                        notify "Resource updated successfully" false])
          else (w, out ++ [notify "Error updating resource" false])
      | None => (w, [])
      end
  | delete_resource id =>
      let w := with_resources (filter (λ r, Resource.id r ≠ id) (resources w)) w in
      let '(ok, w, out) := saveResourcesToDocument env w in
      if ok then
        (w, out ++ [postMessage (resource_deleted id);
                    notify "Resource deleted successfully" false])
      else (w, out ++ [notify "Error deleting resource" false])
  | get_user_info =>
      (w, [postMessage (user_info (Figma.name <$> Figma.currentUser (figma w))
                                  (Figma.id <$> Figma.currentUser (figma w)))])
  | get_document_id =>
      (w, postMessage (document_id (documentIdentity b (figma w)) (fileName b (figma w)))
          :: console_log "Sending document ID to UI:"
          :: match b with
             | Source => [console_log "Sending file name to UI:"]
             | Compiled => []
             end)
  | navigate_to_node nodeId _pageName =>
      (w,
       match nodeId with
       | Some node =>
           if truthy node then
             match getNodeById env with
             | lookup_throws =>
                 [console_error "Error navigating to node:";
                  notify "Could not find the linked element" true]
             | not_found => [notify "Could not find the linked element" true]
             | found None _ =>
                 [notify "Could not find the page containing this element" true]
             | found (Some targetPage) selectable =>
                 [setCurrentPage targetPage;
                  setTimeout 200
                    (if selectable
                     then Some (node,
                                ("Navigated to linked element on page "
                                 ++ String Json.dquote targetPage
                                 ++ String Json.dquote "")%string)
                     else None)]
             | switch_rejects targetPage =>
                 [setCurrentPage targetPage;
                  console_error "Error navigating to node:";
                  notify "Could not find the linked element" true]
             end
           else []
       | None => []
       end)
  | close => (w, [closePlugin])
  | unhandled _ => (w, [])
  end.

(** [figma.ui.onmessage] *)
Definition onmessage (b : Build) (env : Env) (msg : Msg) (w : World) : World * list Effect :=
  let '(w, checked) := checkForDocumentChange b w in
  let '(w, out) := handle b env msg w in
  (w, checked ++ out).

(** [figma.on('selectionchange', ...)] *)
Definition onselectionchange (b : Build) (w : World) : World * list Effect :=
  let '(w, checked) := checkForDocumentChange b w in
  (w, checked ++ sendSelectionInfo (figma w)).

(** [figma.ui.on('message', ...)], the second listener for UI messages. *)
Definition onmessage_listener (b : Build) (w : World) : World * list Effect :=
  checkForDocumentChange b w.

(** One UI message reaches both listeners; the host fixes the order. *)
Inductive Order := listener_first | handler_first.

Definition deliver (b : Build) (o : Order) (env : Env) (msg : Msg) (w : World) :
    World * list Effect :=
  match o with
  | listener_first =>
      let '(w, out1) := onmessage_listener b w in
      let '(w, out2) := onmessage b env msg w in
      (w, out1 ++ out2)
  | handler_first =>
      let '(w, out1) := onmessage b env msg w in
      let '(w, out2) := onmessage_listener b w in
      (w, out1 ++ out2)
  end.

(** A session: UI messages handled one after the other. *)
Fixpoint run (b : Build) (o : Order) (trace : list (Env * Msg)) (w : World) :
    World * list Effect :=
  match trace with
  | [] => (w, [])
  | (env, msg) :: trace =>
      let '(w, out1) := deliver b o env msg w in
      let '(w, out2) := run b o trace w in
      (w, out1 ++ out2)
  end.

(** The module-level initial values, and the state after the top-level
    [initializePlugin()] call. *)
Definition boot (b : Build) (f : Figma.t) : World * list Effect :=
  initializePlugin b (mkWorld [] [] (documentIdentity b f) f).

(* ===================================================================== *)
(** * The visual log: one row of the table (TypeScript source) *)
(* ===================================================================== *)

Module Mirror.

Record RGB := rgb { r : Q; g : Q; b : Q }.

Inductive FontStyle := Regular | Medium.

(** An entry of [cellData]. *)
Record Cell := cell {
  text : string;
  width : nat;
  weight : FontStyle;
  color : option RGB
}.

(** [textAutoResize] of a text node. *)
Inductive AutoResize := NONE | WIDTH_AND_HEIGHT | HEIGHT | TRUNCATE.

(** The text node made from a cell, by what the code sets on it, and the
    row frame. [resize] holds the arguments of the call [resize(w, h)];
    [textAutoResize] is what the code assigns after it, if it does:
    under [HEIGHT] the host keeps the width and fits the height to the
    text, so the height a node ends with is the host's. The alignment of
    the text and the frame's fixed layout settings (size, strokes,
    padding) play no part below and are left out. *)
Record TextNode := textNode {
  fontName : FontStyle;
  fontSize : nat;
  characters : string;
  fills : RGB;
  resize : nat * nat;
  textAutoResize : option AutoResize
}.

Record FrameNode := frame { name : string; children : list TextNode }.

(** The colours of [statusColors], under the names its comments give
    them. *)
Inductive Colour := Blue | Green | Red | Brown | Purple.

Definition shade (c : Colour) : RGB :=
  match c with
  | Blue => rgb 0.05 0.28 0.63
  | Green => rgb 0.11 0.37 0.13
  | Red => rgb 0.72 0.11 0.11
  | Brown => rgb 0.24 0.15 0.14
  | Purple => rgb 0.29 0.08 0.55
  end%Q.

(** [statusColors[status]] *)
Definition statusColors (s : Status.t) : RGB :=
  match s with
  | Status.proposed => rgb 0.05 0.28 0.63
  | Status.accepted => rgb 0.11 0.37 0.13
  | Status.rejected => rgb 0.72 0.11 0.11
  | Status.deprecated => rgb 0.24 0.15 0.14
  | Status.superseded => rgb 0.29 0.08 0.55
  end%Q.

(** [String.prototype.toUpperCase] on the letters a-z. *)
Definition upper (c : ascii) : ascii :=
  let n := N_of_ascii c in
  if ((97 <=? n) && (n <=? 122))%N then ascii_of_N (n - 32) else c.

Fixpoint toUpperCase (s : string) : string :=
  match s with
  | EmptyString => EmptyString
  | String c s => String (upper c) (toUpperCase s)
  end.

(** [xs.join(', ')] *)
Definition join (xs : list string) : string := String.concat ", " xs.

Section Row.
(** [new Date(t).toLocaleDateString()], which depends on the locale of
    the host. *)
Variable toLocaleDateString : Z -> string.

Definition cellData (decision : Decision.t) : list Cell :=
  [ cell (Decision.title decision) 200 Medium None;
    cell (toUpperCase (Status.name (Decision.status decision))) 100 Medium
         (Some (statusColors (Decision.status decision)));
    cell (substring 0 100 (Decision.context decision)
          ++ (if (100 <? String.length (Decision.context decision))%nat
              then "..." else ""))%string
         250 Regular None;
    cell (substring 0 100 (Decision.rationale decision)
          ++ (if (100 <? String.length (Decision.rationale decision))%nat
              then "..." else ""))%string
         250 Regular None;
    cell (Decision.author decision) 120 Regular None;
    cell (toLocaleDateString (Decision.timestamp decision)) 120 Regular None;
    cell (match Decision.tags decision with
          | Some tags => join tags
          | None => ""%string
          end) 160 Regular None ].

(** The body of [cellData.forEach]: [cell.color || {r: 0.2, g: 0.2, b: 0.2}]. *)
Definition cellText (c : Cell) : TextNode :=
  textNode (weight c) 12 (text c)
    (default (rgb 0.2 0.2 0.2)%Q (color c)) (width c, 56%nat) (Some HEIGHT).

Definition createDecisionRow (decision : Decision.t) : FrameNode :=
  frame ("Decision: " ++ Decision.title decision)%string
        (cellText <$> cellData decision).
End Row.

(** The cells of a row, by column. *)
Definition statusCell (row : FrameNode) : option TextNode := children row !! 1%nat.
Definition detailsCell (row : FrameNode) : option TextNode := children row !! 2%nat.
Definition rationaleCell (row : FrameNode) : option TextNode := children row !! 3%nat.

(** The colour the specification's table gives each status. *)
Definition colourOf (s : Status.t) : Colour :=
  match s with
  | Status.proposed => Blue
  | Status.accepted => Green
  | Status.rejected => Red
  | Status.deprecated => Brown
  | Status.superseded => Purple
  end.

(** The text the specification describes for the details and rationale
    cells: the whole text up to 100 characters, else its first 100
    characters and the ellipsis marker. *)
Definition truncated (s shown : string) : Prop :=
  if decide (String.length s <= 100)%nat then shown = s
  else exists first,
      shown = (first ++ "...")%string /\
      String.length first = 100%nat /\
      String.prefix first s = true.
End Mirror.

(* ===================================================================== *)
(** * Vocabulary of the properties *)
(* ===================================================================== *)

(** Memory and storage agree: each blob decodes, as [initializePlugin]
    decodes it, to the collection held in memory. *)
Definition decisions_in_sync (w : World) : Prop :=
  loadDecisions (savedDecisions (figma w)) = Some (decisions w).

Definition resources_in_sync (w : World) : Prop :=
  loadResources (savedResources (figma w)) = Some (resources w).

Definition in_sync (w : World) : Prop :=
  decisions_in_sync w /\ resources_in_sync w.

(** Every storage write of the session goes through. *)
Definition saves_succeed (trace : list (Env * Msg)) : Prop :=
  Forall (λ step, write_ok (fst step) = true) trace.

(** The notifications that report a failed command. *)
Definition failure_notice (text : string) : bool :=
  existsb (String.eqb text)
    ["Error saving resource"; "Error saving decision"; "Error updating decision";
     "Error deleting decision"; "Error updating resource"; "Error deleting resource"]%string.

(** The terminal event of a command: the event that carries the created,
    updated or deleted record, or the notification of its failure. *)
Definition terminal (e : Effect) : bool :=
  match e with
  | postMessage (decision_created _ | decision_updated _ | decision_deleted _
                | resource_created _ | resource_updated _ | resource_deleted _) => true
  | notify text _ => failure_notice text
  | _ => false
  end.

Definition terminal_events (out : list Effect) : nat :=
  length (List.filter terminal out).

(** The calls to [setSharedPluginData] among the effects. *)
Definition is_save (e : Effect) : bool :=
  match e with
  | setSharedPluginData _ _ => true
  | _ => false
  end.

Definition save_calls (out : list Effect) : nat := length (List.filter is_save out).

(** The commands that create, edit or delete a record. *)
Definition is_command (msg : Msg) : bool :=
  match msg with
  | create_resource _ _ _ _ _ | create_decision _ _ _ _ _ _ _ _ _ _ _
  | edit_decision _ | delete_decision _ | edit_resource _ | delete_resource _ => true
  | _ => false
  end.

(** The message types that the [switch] has a case for. *)
Definition handled_types : list string :=
  ["create-resource"; "create-decision"; "edit-decision"; "delete-decision";
   "edit-resource"; "delete-resource"; "get-user-info"; "get-document-id";
   "navigate-to-node"; "close"]%string.

(** An edit whose id no record of the collection carries. *)
Definition edits_nothing (msg : Msg) (w : World) : Prop :=
  match msg with
  | edit_decision p => Forall (λ d, Decision.id d ≠ Decision.id p) (decisions w)
  | edit_resource p => Forall (λ r, Resource.id r ≠ Resource.id p) (resources w)
  | _ => False
  end.

(* ===================================================================== *)
(** * Sample documents, hosts and messages *)
(* ===================================================================== *)

(** A document in which the plugin never stored anything. *)
Definition blank_document : Figma.t :=
  Figma.mk "0:0" "Checkout flow" (Some "kQ7file") ∅
           (Some (Figma.mkUser "Ada" "u-1")) [] "Page 1".

(** A document whose resource blob is not JSON. *)
Definition damaged_document : Figma.t :=
  Figma.mk "0:0" "Checkout flow" (Some "kQ7file")
           {[ (PLUGIN_NAMESPACE, RESOURCES_KEY) := "oops"%string ]}
           (Some (Figma.mkUser "Ada" "u-1")) [] "Page 1".

(** The host at clock reading [t], with writes going through, or not. *)
Definition at_time (t : Z) : Env := mkEnv t t true not_found.
Definition at_time_failing (t : Z) : Env := mkEnv t t false not_found.

Definition dark_mode : Msg :=
  create_decision "Use dark mode default" "Accessibility" "Settings redesign"
    None None None None None None None None.

Definition compact_nav : Msg :=
  create_decision "Compact navigation" "Screen space" "Mobile layout"
    None None None None None None None None.

Definition a_decision (id title author : string) (t : Z) : Decision.t :=
  Decision.mk id title "Accessibility" "Settings redesign" t author
    [] (Some []) (Some []) (Some []) None None None Status.proposed.

(** A session bound to [blank_document] that holds a decision whose save
    failed: the cached identity is the live one. *)
Definition unsaved_world : World :=
  mkWorld [a_decision "1700000000000" "Use dark mode default" "Ada" 1700000000000]
          [] "kQ7file" blank_document.


(* ===================================================================== *)
(** * The visual log: header and order of the rows (TypeScript source) *)
(* ===================================================================== *)

Module Table.

(** The [headers] of [createDecisionTableHeader]: text and width. *)
Definition headers : list (string * nat) :=
  [("Title", 200); ("Status", 100); ("Details", 250); ("Rationale", 250);
   ("Author", 120); ("Date", 120); ("Tags", 160)]%string%nat.

(** The body of [headers.forEach]. *)
Definition headerText (header : string * nat) : Mirror.TextNode :=
  Mirror.textNode Mirror.Medium 14 (fst header)
    (Mirror.rgb 0.3 0.3 0.3)%Q (snd header, 24%nat) None.

Definition createDecisionTableHeader : Mirror.FrameNode :=
  Mirror.frame "Table Header" (headerText <$> headers).

(** [child.name.startsWith('Decision:')], the test by which
    [rebuildVisualLog] picks the rows to remove. *)
Definition isDecisionRow (name : string) : bool := String.prefix "Decision:" name.

(** [[...decisions].sort((a, b) => b.timestamp - a.timestamp)]. The sort of
    JavaScript is stable, and on integer timestamps the comparator is a
    consistent order, so the result is determined: the list below, built
    by stable insertion. [place d sorted] puts [d] in front of the first
    record that is not newer than it. *)
Fixpoint place (d : Decision.t) (sorted : list Decision.t) : list Decision.t :=
  match sorted with
  | [] => [d]
  | x :: rest =>
      if (Decision.timestamp x <=? Decision.timestamp d)
      then d :: x :: rest
      else x :: place d rest
  end.

Definition sortedDecisions (decisions : list Decision.t) : list Decision.t :=
  foldr place [] decisions.

(** Newest first. *)
Definition newest_first (l : list Decision.t) : Prop :=
  StronglySorted (λ x y, Decision.timestamp y <= Decision.timestamp x) l.

(** Records of one timestamp stand in the same order in both lists. *)
Definition same_order_within_timestamps (l l' : list Decision.t) : Prop :=
  forall t, filter (λ d, Decision.timestamp d = t) l
            = filter (λ d, Decision.timestamp d = t) l'.

(** A child of the container frame [Decision Log]: a text node (the
    title), of which only the name matters below, or a frame (the header,
    a row). *)
Inductive SceneChild :=
| textChild (name : string)
| frameChild (f : Mirror.FrameNode).

Definition childName (child : SceneChild) : string :=
  match child with
  | textChild name => name
  | frameChild f => Mirror.name f
  end.

Section Rebuild.
Variable toLocaleDateString : Z -> string.

(** [decisionRow], the frame that [createDecisionRow] returns, as a child
    of the container. *)
Definition decisionRow (decision : Decision.t) : SceneChild :=
  frameChild (Mirror.createDecisionRow toLocaleDateString decision).

(** What [rebuildVisualLog] does to [containerFrame.children] when the
    container is found and the host calls go through: nothing for an empty
    collection; otherwise the children whose name starts with [Decision:]
    are removed and one row per decision is appended, in the order of
    [sortedDecisions]. *)
Definition rebuiltChildren (decisions : list Decision.t)
    (children : list SceneChild) : list SceneChild :=
  match decisions with
  | [] => children
  | _ :: _ =>
      List.filter (λ child, negb (isDecisionRow (childName child))) children
      ++ (decisionRow <$> sortedDecisions decisions)
  end.

(** [containerFrame.appendChild(decisionRow)] of [addDecisionToVisualLog]. *)
Definition withRowAdded (decision : Decision.t)
    (children : list SceneChild) : list SceneChild :=
  children ++ [decisionRow decision].
End Rebuild.

(** The rows among the children, and the rest. *)
Definition rows (children : list SceneChild) : list SceneChild :=
  List.filter (λ child, isDecisionRow (childName child)) children.

Definition others (children : list SceneChild) : list SceneChild :=
  List.filter (λ child, negb (isDecisionRow (childName child))) children.

End Table.

(* ===================================================================== *)
(** * Further vocabulary *)
(* ===================================================================== *)

(** The collection carried by the last [load-decisions] (or
    [load-resources]) message among the effects: what the UI shows after
    them. *)
Fixpoint last_load_decisions (out : list Effect) : option (list Decision.t) :=
  match out with
  | [] => None
  | e :: out' =>
      match last_load_decisions out' with
      | Some ds => Some ds
      | None =>
          match e with
          | postMessage (load_decisions ds _ _) => Some ds
          | _ => None
          end
      end
  end.

Fixpoint last_load_resources (out : list Effect) : option (list Resource.t) :=
  match out with
  | [] => None
  | e :: out' =>
      match last_load_resources out' with
      | Some rs => Some rs
      | None =>
          match e with
          | postMessage (load_resources rs) => Some rs
          | _ => None
          end
      end
  end.

(** The reloads announced among the effects. *)
Definition is_reload (e : Effect) : bool :=
  match e with
  | console_log text => String.eqb text "Document changed, reloading decisions"
  | _ => false
  end.

Definition reloads (out : list Effect) : nat := length (List.filter is_reload out).

(** The commands on decisions, and those on resources. *)
Definition about_decisions (msg : Msg) : bool :=
  match msg with
  | create_decision _ _ _ _ _ _ _ _ _ _ _ | edit_decision _ | delete_decision _ => true
  | _ => false
  end.

Definition about_resources (msg : Msg) : bool :=
  match msg with
  | create_resource _ _ _ _ _ | edit_resource _ | delete_resource _ => true
  | _ => false
  end.

(** The events that report a record as created, updated or deleted. *)
Definition is_success (e : Effect) : bool :=
  match e with
  | postMessage (decision_created _ | decision_updated _ | decision_deleted _
                | resource_created _ | resource_updated _ | resource_deleted _) => true
  | _ => false
  end.

Definition is_visualLog (e : Effect) : bool :=
  match e with
  | visualLog _ => true
  | _ => false
  end.

Definition is_notify (e : Effect) : bool :=
  match e with
  | notify _ _ => true
  | _ => false
  end.

(** The deferred selection of a navigation. *)
Definition is_setTimeout (e : Effect) : bool :=
  match e with
  | setTimeout _ _ => true
  | _ => false
  end.

(** Two states of a document with one identity and one user, whose
    plugin data differ at most in the two blobs of the plugin. *)
Definition only_blobs_differ (f f' : Figma.t) : Prop :=
  Figma.root_id f' = Figma.root_id f /\
  Figma.root_name f' = Figma.root_name f /\
  Figma.fileKey f' = Figma.fileKey f /\
  Figma.currentUser f' = Figma.currentUser f /\
  forall namespace key,
    (namespace, key) ≠ (PLUGIN_NAMESPACE, DECISIONS_KEY) ->
    (namespace, key) ≠ (PLUGIN_NAMESPACE, RESOURCES_KEY) ->
    Figma.getSharedPluginData namespace key f'
    = Figma.getSharedPluginData namespace key f.

(** Commands handled one after the other by the [switch] alone, as in a
    session in which the document does not change. *)
Fixpoint handle_each (b : Build) (steps : list (Env * Msg)) (w : World) : World :=
  match steps with
  | [] => w
  | (env, msg) :: steps => handle_each b steps (fst (handle b env msg w))
  end.

Definition is_create_decision (msg : Msg) : bool :=
  match msg with
  | create_decision _ _ _ _ _ _ _ _ _ _ _ => true
  | _ => false
  end.

(** The clock readings from which the creates of decisions among the
    steps take their ids. *)
Definition create_readings (steps : list (Env * Msg)) : list Z :=
  (λ step, Date_now (fst step))
    <$> List.filter (λ step, is_create_decision (snd step)) steps.

(** A document that holds two saved decisions and one saved resource. *)
Definition stocked_document : Figma.t :=
  Figma.stored PLUGIN_NAMESPACE RESOURCES_KEY
    (Resource.stringify
       [Resource.mk "15" "Contrast guide" "WCAG notes" "https://example.org/wcag"
          "Accessibility" 15 "Bob" (Some ["a11y"%string])])
    (Figma.stored PLUGIN_NAMESPACE DECISIONS_KEY
       (Decision.stringify
          [a_decision "16" "Spacing" "Bob" 16;
           a_decision "17" "Use dark mode default" "Ada" 17])
       blank_document).

(** A host whose locale writes a date as its number of milliseconds. *)
Definition epoch_locale (t : Z) : string := toString t.

Definition contrast_guide : Resource.t :=
  Resource.mk "15" "Contrast guide" "WCAG notes" "https://example.org/wcag"
    "Accessibility" 15 "Bob" (Some ["a11y"%string]).

(* ===================================================================== *)
(** * Properties of the JSON model *)
(* ===================================================================== *)

Section JsonRoundTrip.
Import Json.

Lemma value_ind (P : value -> Prop)
    (Hnull : P JNull) (Hbool : forall b, P (JBool b))
    (Hnum : forall z, P (JNum z)) (Hstr : forall s, P (JStr s))
    (Harr : forall l, Forall P l -> P (JArr l))
    (Hobj : forall l, Forall (fun kv => P (snd kv)) l -> P (JObj l)) :
  forall j, P j.
Proof.
  fix IH 1. intros [ | b | z | s | l | l ].
  - exact Hnull.
  - apply Hbool.
  - apply Hnum.
  - apply Hstr.
  - apply Harr. induction l as [ | v l IHl ]; constructor; [ apply IH | exact IHl ].
  - apply Hobj. induction l as [ | [k v] l IHl ]; constructor; [ apply IH | exact IHl ].
Qed.

(** *** Numbers *)

Lemma read_digits_digits u rest :
  no_digit rest -> read_digits (digits u ++ rest) = (u, rest).
Proof.
  intros Hrest.
  induction u as [ | u IH | u IH | u IH | u IH | u IH | u IH | u IH | u IH | u IH | u IH ];
    simpl; try (rewrite IH; reflexivity).
  destruct rest as [ | c r ]; [ reflexivity | ].
  simpl in *. rewrite Hrest. reflexivity.
Qed.

Lemma uint_beq_refl u : Decimal.uint_beq u u = true.
Proof. apply Decimal.internal_uint_dec_lb. reflexivity. Qed.

Lemma to_int_literal_ok z :
  match Z.to_int z with Pos u | Neg u => literal_ok u = true end.
Proof.
  pose proof (DecimalZ.to_of (Z.to_int z)) as H.
  rewrite DecimalZ.of_to in H.
  destruct (Z.to_int z) as [u | u]; unfold literal_ok; simpl in H.
  - injection H as H. rewrite <- H. apply uint_beq_refl.
  - unfold unorm. destruct (nzhead u) eqn:E; try discriminate;
      injection H as H; rewrite <- H; apply uint_beq_refl.
Qed.

Lemma literal_ok_nonnil u : literal_ok u = true -> u <> Nil.
Proof. intros H ->. discriminate H. Qed.

Lemma parse_number_print_int z rest :
  no_digit rest -> parse_number (print_int z ++ rest) = Some (JNum z, rest).
Proof.
  intros Hrest. unfold print_int.
  pose proof (to_int_literal_ok z) as Hok.
  pose proof (DecimalZ.of_to z) as Hz.
  destruct (Z.to_int z) as [u | u].
  - pose proof (literal_ok_nonnil _ Hok) as Hnil.
    assert (Hnum : parse_number (digits u ++ rest) =
                   let (u', r') := read_digits (digits u ++ rest) in
                   if literal_ok u' then Some (JNum (Z.of_int (Pos u')), r') else None).
    { destruct u; [ congruence | reflexivity .. ]. }
    rewrite Hnum, read_digits_digits, Hok, Hz by assumption. reflexivity.
  - change (parse_number (("-"%char :: digits u) ++ rest))
      with (let (u', r') := read_digits (digits u ++ rest) in
            if literal_ok u' then Some (JNum (Z.of_int (Neg u')), r') else None).
    rewrite read_digits_digits, Hok, Hz by assumption. reflexivity.
Qed.

Lemma print_int_head z :
  exists c r, print_int z = c :: r /\ (c = "-"%char \/ digit_of c <> None).
Proof.
  unfold print_int. pose proof (to_int_literal_ok z) as Hok.
  destruct (Z.to_int z) as [u | u].
  - pose proof (literal_ok_nonnil _ Hok) as Hnil.
    destruct u; [ congruence | .. ]; simpl; eexists _, _; (split; [ reflexivity | right; discriminate ]).
  - simpl. eexists _, _. split; [ reflexivity | left; reflexivity ].
Qed.

(** *** Strings *)

Lemma parse_chars_escape c rest :
  parse_chars (escape c ++ rest) = push c (parse_chars rest).
Proof.
  destruct c as [[|] [|] [|] [|] [|] [|] [|] [|]]; reflexivity.
Qed.

Lemma parse_chars_escape_all cs rest :
  parse_chars (escape_all cs ++ dquote :: rest) = Some (cs, rest).
Proof.
  induction cs as [ | c cs IH ]; [ reflexivity | ].
  simpl. rewrite <- app_assoc, parse_chars_escape, IH. reflexivity.
Qed.

Lemma parse_string_quote s rest :
  parse_string (escape_all (chars s) ++ dquote :: rest) = Some (s, rest).
Proof.
  unfold parse_string, chars.
  rewrite parse_chars_escape_all, string_of_list_ascii_of_string. reflexivity.
Qed.

(** *** Which branch of [parse_value] a text takes *)

Lemma number_branch fuel c r :
  c = "-"%char \/ digit_of c <> None ->
  parse_value (S fuel) (c :: r) = parse_number (c :: r).
Proof.
  intros [-> | H]; [ reflexivity | ].
  destruct c as [[|] [|] [|] [|] [|] [|] [|] [|]];
    solve [ reflexivity | exfalso; apply H; reflexivity ].
Qed.

Lemma array_branch fuel c r :
  Ascii.eqb c "]" = false ->
  parse_value (S fuel) ("["%char :: c :: r) =
  match parse_elements fuel (c :: r) with
  | Some (l, r') => Some (JArr l, r')
  | None => None
  end.
Proof.
  destruct c as [[|] [|] [|] [|] [|] [|] [|] [|]];
    solve [ reflexivity | discriminate ].
Qed.

Lemma parse_elements_S fuel s :
  parse_elements (S fuel) s =
  match parse_value fuel s with
  | Some (v, ("," :: r)%char) =>
      match parse_elements fuel r with
      | Some (l, r') => Some (v :: l, r')
      | None => None
      end
  | Some (v, ("]" :: r)%char) => Some ([v], r)
  | _ => None
  end.
Proof. reflexivity. Qed.

Lemma parse_members_S fuel r :
  parse_members (S fuel) (dquote :: r) =
  match parse_string r with
  | Some (k, (":" :: r1)%char) =>
      match parse_value fuel r1 with
      | Some (v, ("," :: r2)%char) =>
          match parse_members fuel r2 with
          | Some (l, r') => Some ((k, v) :: l, r')
          | None => None
          end
      | Some (v, ("}" :: r2)%char) => Some ([(k, v)], r2)
      | _ => None
      end
  | _ => None
  end.
Proof. reflexivity. Qed.

Lemma print_head j :
  exists c r, print j = c :: r /\ Ascii.eqb c "]" = false.
Proof.
  destruct j as [ | [|] | z | s | l | l ]; try (eexists _, _; split; reflexivity).
  destruct (print_int_head z) as (c & r & Hp & Hc).
  exists c, r. split; [ exact Hp | ].
  destruct Hc as [-> | Hc]; [ reflexivity | ].
  destruct (Ascii.eqb_spec c "]") as [-> | ]; [ | reflexivity ].
  exfalso. apply Hc. reflexivity.
Qed.

(** *** Values *)

Lemma parse_elements_print l :
  Forall reads_back l -> l <> [] ->
  forall fuel rest,
    (list_sum (List.map (fun v => S (size v)) l) <= fuel)%nat ->
    parse_elements fuel (sep_by ","%char (List.map print l) ++ "]"%char :: rest)
    = Some (l, rest).
Proof.
  induction 1 as [ | v l Hv Hl IH ]; [ congruence | ].
  intros _ fuel rest Hfuel. simpl in Hfuel.
  destruct fuel as [ | fuel ]; [ lia | ].
  rewrite parse_elements_S.
  destruct l as [ | v' l' ].
  - simpl. rewrite Hv; [ reflexivity | lia | reflexivity ].
  - change (sep_by ","%char (List.map print (v :: v' :: l')))
      with (print v ++ ","%char :: sep_by ","%char (List.map print (v' :: l'))).
    rewrite <- app_assoc, Hv; [ | lia | reflexivity ].
    rewrite <- app_comm_cons. cbv beta iota.
    rewrite IH; [ reflexivity | discriminate | lia ].
Qed.

Lemma member_text fuel k v tail :
  parse_members (S fuel) ((quote k ++ ":"%char :: print v) ++ tail) =
  match parse_value fuel (print v ++ tail) with
  | Some (v, ("," :: r2)%char) =>
      match parse_members fuel r2 with
      | Some (l, r') => Some ((k, v) :: l, r')
      | None => None
      end
  | Some (v, ("}" :: r2)%char) => Some ([(k, v)], r2)
  | _ => None
  end.
Proof.
  unfold quote. rewrite <- !app_comm_cons, parse_members_S.
  rewrite <- !app_assoc, <- !app_comm_cons. simpl app.
  rewrite parse_string_quote. reflexivity.
Qed.

Lemma parse_members_print l :
  Forall (fun kv => reads_back (snd kv)) l -> l <> [] ->
  forall fuel rest,
    (list_sum (List.map (fun kv => S (size (snd kv))) l) <= fuel)%nat ->
    parse_members fuel
      (sep_by ","%char
         (List.map (fun kv => quote (fst kv) ++ ":"%char :: print (snd kv)) l)
       ++ "}"%char :: rest)
    = Some (l, rest).
Proof.
  induction 1 as [ | [k v] l Hv Hl IH ]; [ congruence | ].
  intros _ fuel rest Hfuel. simpl in Hfuel, Hv.
  destruct fuel as [ | fuel ]; [ lia | ].
  destruct l as [ | kv' l' ].
  - change (sep_by ","%char
              (List.map (fun kv => quote (fst kv) ++ ":"%char :: print (snd kv))
                 [(k, v)]))
      with (quote k ++ ":"%char :: print v).
    rewrite member_text, Hv; [ reflexivity | lia | reflexivity ].
  - change (sep_by ","%char
              (List.map (fun kv => quote (fst kv) ++ ":"%char :: print (snd kv))
                 ((k, v) :: kv' :: l')))
      with ((quote k ++ ":"%char :: print v) ++ ","%char ::
            sep_by ","%char
              (List.map (fun kv => quote (fst kv) ++ ":"%char :: print (snd kv))
                 (kv' :: l'))).
    rewrite <- app_assoc, member_text, Hv; [ | lia | reflexivity ].
    rewrite <- app_comm_cons. cbv beta iota.
    rewrite IH; [ reflexivity | discriminate | lia ].
Qed.

Lemma parse_value_print j : reads_back j.
Proof.
  induction j as [ | b | z | s | l IH | l IH ] using value_ind;
    intros fuel rest Hfuel Hrest;
    (destruct fuel as [ | fuel ]; [ simpl in Hfuel; lia | ]).
  - reflexivity.
  - destruct b; reflexivity.
  - destruct (print_int_head z) as (c & r & Hp & Hc).
    simpl print. pose proof (parse_number_print_int z rest Hrest) as Hn.
    rewrite Hp in *. rewrite <- app_comm_cons in *.
    rewrite number_branch by exact Hc. exact Hn.
  - simpl print. unfold quote. rewrite <- app_comm_cons, <- app_assoc.
    change (parse_value (S fuel) (dquote :: escape_all (chars s) ++ [dquote] ++ rest))
      with (match parse_string (escape_all (chars s) ++ dquote :: rest) with
            | Some (str, r') => Some (JStr str, r')
            | None => None
            end).
    rewrite parse_string_quote. reflexivity.
  - destruct l as [ | v l' ]; [ reflexivity | ].
    simpl in Hfuel.
    change (print (JArr (v :: l')))
      with ("["%char :: sep_by ","%char (List.map print (v :: l')) ++ ["]"%char]).
    rewrite <- app_comm_cons, <- app_assoc.
    pose proof (parse_elements_print (v :: l') IH ltac:(discriminate) fuel rest
                  ltac:(simpl; lia)) as He.
    change (["]"%char] ++ rest) with ("]"%char :: rest).
    assert (Hhead : exists c r,
               sep_by ","%char (List.map print (v :: l')) ++ "]"%char :: rest = c :: r
               /\ Ascii.eqb c "]" = false).
    { destruct (print_head v) as (c & r & Hp & Hc).
      destruct l' as [ | v' l'' ]; simpl; rewrite Hp;
        eexists _, _; (split; [ reflexivity | exact Hc ]). }
    destruct Hhead as (c & r & Heq & Hc).
    rewrite Heq in *. rewrite array_branch by exact Hc. rewrite He. reflexivity.
  - destruct l as [ | [k v] l' ]; [ reflexivity | ].
    simpl in Hfuel.
    change (print (JObj ((k, v) :: l')))
      with ("{"%char ::
            sep_by ","%char
              (List.map (fun kv => quote (fst kv) ++ ":"%char :: print (snd kv))
                 ((k, v) :: l')) ++ ["}"%char]).
    rewrite <- app_comm_cons, <- app_assoc.
    pose proof (parse_members_print ((k, v) :: l') IH ltac:(discriminate) fuel rest
                  ltac:(simpl; lia)) as Hm.
    change (["}"%char] ++ rest) with ("}"%char :: rest).
    assert (Hhead : exists r,
               sep_by ","%char
                 (List.map (fun kv => quote (fst kv) ++ ":"%char :: print (snd kv))
                    ((k, v) :: l')) ++ "}"%char :: rest = dquote :: r).
    { destruct l' as [ | kv' l'' ]; simpl; eexists; reflexivity. }
    destruct Hhead as (r & Heq).
    rewrite Heq in *.
    change (parse_value (S fuel) ("{"%char :: dquote :: r))
      with (match parse_members fuel (dquote :: r) with
            | Some (l, r') => Some (JObj l, r')
            | None => None
            end).
    rewrite Hm. reflexivity.
Qed.

(** *** Fuel: the text of a value is at least as long as its measure *)

Lemma size_le_length j : (size j <= List.length (print j))%nat.
Proof.
  induction j as [ | b | z | s | l IH | l IH ] using value_ind.
  - simpl. lia.
  - destruct b; simpl; lia.
  - destruct (print_int_head z) as (c & r & Hp & _).
    simpl. rewrite Hp. simpl. lia.
  - simpl. lia.
  - simpl. rewrite length_app. simpl.
    assert (H : (list_sum (List.map (fun v => S (size v)) l)
                 <= S (List.length (sep_by ","%char (List.map print l))))%nat).
    { clear -IH. induction IH as [ | v l Hv Hl IHl ]; [ simpl; lia | ].
      destruct l as [ | v' l' ]; [ clear IHl Hl; simpl; lia | ].
      change (sep_by ","%char (List.map print (v :: v' :: l')))
        with (print v ++ ","%char :: sep_by ","%char (List.map print (v' :: l'))).
      rewrite length_app.
      change (list_sum (List.map (fun v => S (size v)) (v :: v' :: l')))
        with (S (size v) + list_sum (List.map (fun v => S (size v)) (v' :: l')))%nat.
      change (List.length (","%char :: ?x)) with (S (List.length x)).
      clear Hl. lia. }
    lia.
  - change (size (JObj l))
      with (S (list_sum (List.map (fun kv => S (size (snd kv))) l))).
    change (print (JObj l))
      with ("{"%char ::
            sep_by ","%char
              (List.map (fun kv => quote (fst kv) ++ ":"%char :: print (snd kv)) l)
            ++ ["}"%char]).
    change (List.length ("{"%char :: ?x)) with (S (List.length x)).
    rewrite length_app. change (List.length ["}"%char]) with 1%nat.
    assert (H : (list_sum (List.map (fun kv => S (size (snd kv))) l)
                 <= S (List.length
                         (sep_by ","%char
                            (List.map (fun kv => quote (fst kv) ++ ":"%char :: print (snd kv))
                               l))))%nat).
    { clear -IH. induction IH as [ | [k v] l Hv Hl IHl ]; [ simpl; lia | ].
      simpl in Hv.
      destruct l as [ | kv' l' ].
      - clear IHl Hl. simpl. rewrite length_app. simpl. lia.
      - change (sep_by ","%char
                  (List.map (fun kv => quote (fst kv) ++ ":"%char :: print (snd kv))
                     ((k, v) :: kv' :: l')))
          with ((quote k ++ ":"%char :: print v) ++ ","%char ::
                sep_by ","%char
                  (List.map (fun kv => quote (fst kv) ++ ":"%char :: print (snd kv))
                     (kv' :: l'))).
        rewrite !length_app.
        change (list_sum (List.map (fun kv => S (size (snd kv))) ((k, v) :: kv' :: l')))
          with (S (size v) + list_sum (List.map (fun kv => S (size (snd kv))) (kv' :: l')))%nat.
        change (List.length (","%char :: ?x)) with (S (List.length x)).
        change (List.length (":"%char :: ?x)) with (S (List.length x)).
        clear Hl. lia. }
    lia.
Qed.

(** [JSON.parse (JSON.stringify j)] gives [j] back, for every value. *)
Lemma parse_stringify j : parse (stringify j) = Some j.
Proof.
  unfold parse, stringify, chars.
  rewrite list_ascii_of_string_of_list_ascii.
  pose proof (parse_value_print j (S (List.length (print j))) []) as H.
  rewrite app_nil_r in H.
  rewrite H; [ reflexivity | pose proof (size_le_length j); lia | exact I ].
Qed.

(** The text of a value is never the empty string. *)
Lemma stringify_nonempty j : stringify j <> EmptyString.
Proof.
  unfold stringify. pose proof (size_le_length j) as H.
  destruct (print j) as [ | c r ]; [ | discriminate ].
  destruct j; simpl in H; lia.
Qed.

End JsonRoundTrip.

(* ===================================================================== *)
(** * The fragment lies within JSON *)
(* ===================================================================== *)

Section JsonWellFormed.
Import Json.

Lemma parse_number_sign s :
  parse_number s
  = let (u, r) := read_digits (if starts_with "-" s then tl s else s) in
    if literal_ok u
    then Some (JNum (Z.of_int (if starts_with "-" s then Neg u else Pos u)), r)
    else None.
Proof.
  destruct s as [ | c s ]; [ reflexivity | ].
  destruct c as [[|] [|] [|] [|] [|] [|] [|] [|]]; reflexivity.
Qed.

Lemma stops_number r :
  stops r -> skip_fraction r = Some r /\ skip_exponent r = Some r.
Proof.
  destruct r as [ | c r ]; [ split; reflexivity | ].
  intros [-> | [-> | ->]]; split; reflexivity.
Qed.

Lemma skip_number_sound s v r :
  parse_number s = Some (v, r) -> stops r -> skip_number s = Some r.
Proof.
  rewrite parse_number_sign. unfold skip_number.
  destruct (read_digits _) as [u r']. destruct (literal_ok u); [ | discriminate ].
  intros H Hstops. injection H as _ <-.
  destruct (stops_number _ Hstops) as [-> ->]. reflexivity.
Qed.

Lemma unicode_escape_hex h1 h2 h3 h4 x :
  unicode_escape h1 h2 h3 h4 = Some x ->
  is_hex h1 && is_hex h2 && is_hex h3 && is_hex h4 = true.
Proof.
  unfold unicode_escape, is_hex.
  destruct (hex_value h1), (hex_value h2), (hex_value h3), (hex_value h4);
    try discriminate; reflexivity.
Qed.

Lemma skip_chars_sound n :
  forall s cs r, (length s <= n)%nat ->
                 parse_chars s = Some (cs, r) -> skip_chars s = Some r.
Proof.
  induction n as [ | n IH ]; intros [ | c s ] cs r Hlen H; try discriminate H.
  - cbn [length] in Hlen. lia.
  - cbn [length] in Hlen. cbn [parse_chars skip_chars] in *.
    destruct (Ascii.eqb c dquote); [ congruence | ].
    destruct (Ascii.eqb c "\").
    + destruct s as [ | e s ]; [ discriminate H | ]. cbn [length] in Hlen.
      destruct (Ascii.eqb e "u").
      * destruct s as [ | h1 [ | h2 [ | h3 [ | h4 s ] ] ] ]; try discriminate H.
        cbn [length] in Hlen.
        destruct (unicode_escape h1 h2 h3 h4) as [x | ] eqn:U; [ | discriminate H ].
        rewrite (unicode_escape_hex _ _ _ _ _ U).
        destruct (parse_chars s) as [[cs' r'] | ] eqn:E; [ | discriminate H ].
        injection H as _ <-. apply (IH s cs' r'); [ lia | exact E ].
      * destruct (simple_escape e); [ | discriminate H ].
        destruct (parse_chars s) as [[cs' r'] | ] eqn:E; [ | discriminate H ].
        injection H as _ <-. apply (IH s cs' r'); [ lia | exact E ].
    + destruct (N_of_ascii c <? 32)%N; [ discriminate H | ].
      destruct (parse_chars s) as [[cs' r'] | ] eqn:E; [ | discriminate H ].
      injection H as _ <-. apply (IH s cs' r'); [ lia | exact E ].
Qed.

Lemma parse_string_sound s str r :
  parse_string s = Some (str, r) -> skip_chars s = Some r.
Proof.
  unfold parse_string. destruct (parse_chars s) as [[cs r'] | ] eqn:E; [ | discriminate ].
  intros H. injection H as _ <-. exact (skip_chars_sound _ _ _ _ (le_n _) E).
Qed.

(** No value of the fragment starts with white space or a closing
    bracket. *)
Lemma parse_value_head fuel c s :
  is_ws c || Ascii.eqb c "]" || Ascii.eqb c "}" = true ->
  parse_value fuel (c :: s) = None.
Proof.
  destruct fuel; [ reflexivity | ].
  destruct c as [[|] [|] [|] [|] [|] [|] [|] [|]]; try discriminate; reflexivity.
Qed.

Lemma parse_value_starts fuel s v r :
  parse_value fuel s = Some (v, r) ->
  skip_ws s = s /\ starts_with "]" s = false /\ starts_with "}" s = false.
Proof.
  destruct s as [ | c s ]; [ repeat split | ]. intros H.
  pose proof (parse_value_head fuel c s) as Hhead. rewrite H in Hhead.
  cbn [skip_ws starts_with].
  destruct (is_ws c), (Ascii.eqb c "]"), (Ascii.eqb c "}");
    try (discriminate (Hhead eq_refl)).
  repeat split.
Qed.


Lemma skip_ws_at c s : is_ws c = false -> skip_ws (c :: s) = c :: s.
Proof. intros H. cbn [skip_ws]. rewrite H. reflexivity. Qed.

Ltac take_apart H :=
  repeat match type of H with
         | context [match ?x with _ => _ end] => is_var x; destruct x
         end.

Lemma parse_elements_starts fuel s l r :
  parse_elements fuel s = Some (l, r) ->
  skip_ws s = s /\ starts_with "]" s = false.
Proof.
  destruct fuel; [ discriminate | ]. rewrite parse_elements_S.
  destruct (parse_value fuel s) as [[v r'] | ] eqn:E; [ | discriminate ].
  intros _. destruct (parse_value_starts _ _ _ _ E) as (H1 & H2 & _). split; assumption.
Qed.

Lemma skip_sound fuel :
  (forall s v r, parse_value fuel s = Some (v, r) -> stops r ->
                 skip_value fuel s = Some r) /\
  (forall s l r first, parse_elements fuel s = Some (l, r) ->
                       skip_elements fuel first s = Some r) /\
  (forall s l r first, parse_members fuel s = Some (l, r) ->
                       skip_members fuel first s = Some r).
Proof.
  induction fuel as [ | fuel (IHv & IHe & IHm) ];
    [ split_and!; intros; discriminate | ].
  split_and!.
  - intros s v r H Hstops.
    destruct (parse_value_starts _ _ _ _ H) as (Hws & _).
    cbn [skip_value]. rewrite Hws. cbn [parse_value] in H.
    take_apart H.
    all: try (exact (skip_number_sound _ _ _ H Hstops)).
    all: try (injection H as _ <-; reflexivity).
    all: try (destruct (parse_string s) as [[str r'] | ] eqn:E; [ | discriminate H ];
              injection H as _ <-; exact (parse_string_sound _ _ _ E)).
    all: try (match type of H with context [parse_elements ?f ?x] =>
                destruct (parse_elements f x) as [[l r'] | ] eqn:E;
                [ | discriminate H ];
                injection H as _ <-; exact (IHe _ _ _ _ E)
              end).
    all: match type of H with context [parse_members ?f ?x] =>
           destruct (parse_members f x) as [[l r'] | ] eqn:E;
           [ | discriminate H ];
           injection H as _ <-; exact (IHm _ _ _ _ E)
         end.
  - intros s l r first H.
    destruct (parse_elements_starts _ _ _ _ H) as (Hws & Hclose).
    rewrite parse_elements_S in H. cbn [skip_elements].
    rewrite Hws, Hclose, andb_false_r.
    destruct (parse_value fuel s) as [[v rest] | ] eqn:Hv; [ | discriminate H ].
    destruct rest as [ | c rest ]; [ discriminate H | ].
    destruct c as [[|] [|] [|] [|] [|] [|] [|] [|]]; try discriminate H;
      cbv beta iota in H; rewrite (IHv _ _ _ Hv) by (cbn; auto);
      rewrite skip_ws_at by reflexivity; simpl starts_with; cbv beta iota; cbn [tl].
    + injection H as _ <-. reflexivity.
    + destruct (parse_elements fuel rest) as [[l' r'] | ] eqn:E; [ | discriminate H ].
      injection H as _ <-. exact (IHe _ _ _ _ E).
  - intros s l r first H. cbn [parse_members] in H.
    destruct s as [ | c s ]; [ discriminate H | ].
    destruct c as [[|] [|] [|] [|] [|] [|] [|] [|]]; try discriminate H.
    cbn [skip_members]. rewrite skip_ws_at by reflexivity.
    simpl starts_with. cbv beta iota. cbn [tl andb]. rewrite andb_false_r.
    destruct (parse_string s) as [[k r1] | ] eqn:Hk; [ | discriminate H ].
    rewrite (parse_string_sound _ _ _ Hk).
    destruct r1 as [ | c r1 ]; [ discriminate H | ].
    destruct c as [[|] [|] [|] [|] [|] [|] [|] [|]]; try discriminate H.
    rewrite skip_ws_at by reflexivity. simpl starts_with. cbv beta iota. cbn [tl].
    destruct (parse_value fuel r1) as [[v rest] | ] eqn:Hv; [ | discriminate H ].
    destruct rest as [ | c rest ]; [ discriminate H | ].
    destruct c as [[|] [|] [|] [|] [|] [|] [|] [|]]; try discriminate H;
      cbv beta iota in H; rewrite (IHv _ _ _ Hv) by (cbn; auto);
      rewrite skip_ws_at by reflexivity; simpl starts_with; cbv beta iota; cbn [tl].
    + injection H as _ <-. reflexivity.
    + destruct (parse_members fuel rest) as [[l' r'] | ] eqn:E; [ | discriminate H ].
      injection H as _ <-. exact (IHm _ _ _ _ E).
Qed.

(** Every text the fragment reads is well formed: where [JSON.parse]
    throws, [parse] gives [None]. *)
Lemma parse_well_formed s v : parse s = Some v -> well_formed s = true.
Proof.
  unfold parse, well_formed.
  destruct (parse_value _ _) as [[v' [ | c r ]] | ] eqn:E; try discriminate.
  intros _. rewrite (proj1 (skip_sound _) _ _ _ E I). reflexivity.
Qed.

(** *** The fuel of the recogniser

    A value takes no more fuel than it has characters. *)

Lemma skip_ws_length s : (length (skip_ws s) <= length s)%nat.
Proof.
  induction s as [ | c s IH ]; [ reflexivity | ]. cbn [skip_ws].
  destruct (is_ws c); cbn [length]; lia.
Qed.

Lemma starts_with_tl c s :
  starts_with c s = true -> length s = S (length (tl s)).
Proof. destruct s; [ discriminate | reflexivity ]. Qed.

Lemma tl_length (s : list ascii) : (length (tl s) <= length s)%nat.
Proof. destruct s; cbn; lia. Qed.

Lemma read_digits_length s u r :
  read_digits s = (u, r) ->
  (length r <= length s)%nat /\ (u <> Nil -> (length r < length s)%nat).
Proof.
  revert u r. induction s as [ | c s IH ]; intros u r H; cbn [read_digits] in H.
  - injection H as <- <-. split; [ reflexivity | congruence ].
  - destruct (digit_of c) as [d | ].
    + destruct (read_digits s) as [u' r'] eqn:E. injection H as <- <-.
      destruct (IH _ _ eq_refl) as [Hle _]. cbn [length]. split; intros; lia.
    + injection H as <- <-. split; [ reflexivity | congruence ].
Qed.

Lemma skip_digits_length s r :
  skip_digits s = Some r -> (length r < length s)%nat.
Proof.
  unfold skip_digits. destruct (read_digits s) as [u r'] eqn:E.
  destruct (read_digits_length _ _ _ E) as [_ Hlt].
  destruct u; try discriminate; intros H; injection H as <-; apply Hlt; discriminate.
Qed.

Lemma skip_fraction_length s r :
  skip_fraction s = Some r -> (length r <= length s)%nat.
Proof.
  unfold skip_fraction. destruct (starts_with "." s).
  - intros X. apply skip_digits_length in X. pose proof (tl_length s). lia.
  - intros X. injection X as <-. reflexivity.
Qed.

Lemma skip_exponent_length s r :
  skip_exponent s = Some r -> (length r <= length s)%nat.
Proof.
  unfold skip_exponent. pose proof (tl_length s). pose proof (tl_length (tl s)).
  destruct (_ || _); [ destruct (_ || _) | ]; intros X;
    [ apply skip_digits_length in X; lia | apply skip_digits_length in X; lia | ].
  injection X as <-. reflexivity.
Qed.

Lemma skip_number_length s r :
  skip_number s = Some r -> (length r < length s)%nat.
Proof.
  unfold skip_number.
  destruct (read_digits _) as [u r0] eqn:E.
  destruct (literal_ok u) eqn:Hu; [ | discriminate ].
  destruct (skip_fraction r0) as [r1 | ] eqn:F; [ | discriminate ].
  intros X. apply skip_exponent_length in X. apply skip_fraction_length in F.
  destruct (read_digits_length _ _ _ E) as [_ Hlt].
  specialize (Hlt (literal_ok_nonnil _ Hu)).
  pose proof (tl_length s). destruct (starts_with "-" s); lia.
Qed.

Lemma skip_chars_length n :
  forall s r, (length s <= n)%nat -> skip_chars s = Some r -> (length r < length s)%nat.
Proof.
  induction n as [ | n IH ]; intros [ | c s ] r Hlen H; try discriminate H.
  - cbn [length] in Hlen. lia.
  - cbn [length] in *. cbn [skip_chars] in H.
    destruct (Ascii.eqb c dquote); [ injection H as <-; lia | ].
    destruct (Ascii.eqb c "\").
    + destruct s as [ | e s ]; [ discriminate H | ]. cbn [length] in *.
      destruct (Ascii.eqb e "u").
      * destruct s as [ | h1 [ | h2 [ | h3 [ | h4 s ] ] ] ]; try discriminate H.
        cbn [length] in *. destruct (_ && _); [ | discriminate H ].
        apply IH in H; lia.
      * destruct (simple_escape e); [ | discriminate H ]. apply IH in H; lia.
    + destruct (N_of_ascii c <? 32)%N; [ discriminate H | ]. apply IH in H; lia.
Qed.

Lemma skip_fuel fuel :
  (forall s r, skip_value fuel s = Some r ->
     (length r < length s)%nat /\
     forall fuel', (length s - length r <= fuel')%nat -> skip_value fuel' s = Some r) /\
  (forall first s r, skip_elements fuel first s = Some r ->
     (length r < length s)%nat /\
     forall fuel', (length s - length r <= fuel')%nat ->
                   skip_elements fuel' first s = Some r) /\
  (forall first s r, skip_members fuel first s = Some r ->
     (length r < length s)%nat /\
     forall fuel', (length s - length r <= fuel')%nat ->
                   skip_members fuel' first s = Some r).
Proof.
  induction fuel as [ | fuel (IHv & IHe & IHm) ];
    [ split_and!; intros; discriminate | ].
  split_and!.
  - intros s r H. cbn [skip_value] in H.
    pose proof (skip_ws_length s) as Hws.
    remember (skip_ws s) as s0 eqn:E.
    take_apart H.
    all: lazymatch type of H with
         | skip_number _ = Some _ => pose proof (skip_number_length _ _ H) as Hfact
         | skip_chars _ = Some _ =>
             pose proof (skip_chars_length _ _ _ (le_n _) H) as Hfact
         | skip_elements _ _ _ = Some _ => destruct (IHe _ _ _ H) as [Hfact Hmore]
         | skip_members _ _ _ = Some _ => destruct (IHm _ _ _ H) as [Hfact Hmore]
         | Some _ = Some _ => injection H as <-
         end.
    all: cbn [length] in *;
      (split;
       [ lia
       | intros fuel' Hfuel; destruct fuel' as [ | fuel' ]; [ exfalso; lia | ];
         cbn [skip_value]; rewrite <- E; cbv beta iota;
         first [ exact H | reflexivity | apply Hmore; lia ] ]).
  - intros first s r H. cbn [skip_elements] in H.
    pose proof (skip_ws_length s) as Hws.
    destruct (first && starts_with "]" (skip_ws s)) eqn:Hend.
    + injection H as <-.
      pose proof (starts_with_tl _ _ (proj2 (andb_prop _ _ Hend))) as Hl.
      split; [ lia | ]. intros fuel' Hfuel. destruct fuel' as [ | fuel' ]; [ lia | ].
      cbn [skip_elements]. rewrite Hend. reflexivity.
    + destruct (skip_value fuel s) as [r1 | ] eqn:Hv; [ | discriminate H ].
      destruct (IHv _ _ Hv) as [Hlt1 Hmore1].
      pose proof (skip_ws_length r1) as Hws1.
      destruct (starts_with "," (skip_ws r1)) eqn:Hc.
      * destruct (IHe _ _ _ H) as [Hlt2 Hmore2].
        pose proof (starts_with_tl _ _ Hc) as Hl.
        split; [ lia | ]. intros fuel' Hfuel. destruct fuel' as [ | fuel' ]; [ lia | ].
        cbn [skip_elements]. rewrite Hend, (Hmore1 fuel') by lia. rewrite Hc.
        apply Hmore2. lia.
      * destruct (starts_with "]" (skip_ws r1)) eqn:Hb; [ | discriminate H ].
        injection H as <-. pose proof (starts_with_tl _ _ Hb) as Hl.
        split; [ lia | ]. intros fuel' Hfuel. destruct fuel' as [ | fuel' ]; [ lia | ].
        cbn [skip_elements]. rewrite Hend, (Hmore1 fuel') by lia. rewrite Hc, Hb.
        reflexivity.
  - intros first s r H. cbn [skip_members] in H.
    pose proof (skip_ws_length s) as Hws.
    destruct (first && starts_with "}" (skip_ws s)) eqn:Hend.
    + injection H as <-.
      pose proof (starts_with_tl _ _ (proj2 (andb_prop _ _ Hend))) as Hl.
      split; [ lia | ]. intros fuel' Hfuel. destruct fuel' as [ | fuel' ]; [ lia | ].
      cbn [skip_members]. rewrite Hend. reflexivity.
    + destruct (starts_with dquote (skip_ws s)) eqn:Hq; [ | discriminate H ].
      pose proof (starts_with_tl _ _ Hq) as Hl0.
      destruct (skip_chars (tl (skip_ws s))) as [r1 | ] eqn:Hk; [ | discriminate H ].
      pose proof (skip_chars_length _ _ _ (le_n _) Hk) as Hlt0.
      pose proof (skip_ws_length r1) as Hws1.
      destruct (starts_with ":" (skip_ws r1)) eqn:Hcolon; [ | discriminate H ].
      pose proof (starts_with_tl _ _ Hcolon) as Hl1.
      destruct (skip_value fuel (tl (skip_ws r1))) as [r2 | ] eqn:Hv; [ | discriminate H ].
      destruct (IHv _ _ Hv) as [Hlt1 Hmore1].
      pose proof (skip_ws_length r2) as Hws2.
      destruct (starts_with "," (skip_ws r2)) eqn:Hc.
      * destruct (IHm _ _ _ H) as [Hlt2 Hmore2].
        pose proof (starts_with_tl _ _ Hc) as Hl.
        split; [ lia | ]. intros fuel' Hfuel. destruct fuel' as [ | fuel' ]; [ lia | ].
        cbn [skip_members]. rewrite Hend, Hq, Hk, Hcolon, (Hmore1 fuel') by lia.
        rewrite Hc. apply Hmore2. lia.
      * destruct (starts_with "}" (skip_ws r2)) eqn:Hb; [ | discriminate H ].
        injection H as <-. pose proof (starts_with_tl _ _ Hb) as Hl.
        split; [ lia | ]. intros fuel' Hfuel. destruct fuel' as [ | fuel' ]; [ lia | ].
        cbn [skip_members]. rewrite Hend, Hq, Hk, Hcolon, (Hmore1 fuel') by lia.
        rewrite Hc, Hb. reflexivity.
Qed.

(** The fuel of [well_formed] is enough: a text that the recogniser
    accepts with any fuel, it accepts with the fuel [well_formed] gives
    it. *)
Lemma well_formed_fuel s fuel r :
  skip_value fuel (chars s) = Some r -> skip_ws r = [] -> well_formed s = true.
Proof.
  intros H Hr. unfold well_formed.
  destruct (proj1 (skip_fuel fuel) _ _ H) as [_ Hmore].
  rewrite (Hmore (S (length (chars s)))) by lia. rewrite Hr. reflexivity.
Qed.

(** The converse fails: these texts are JSON, and outside the fragment. *)
Example well_formed_outside_the_fragment :
  Forall (λ s, well_formed s = true /\ parse s = None)
         ["[ ]"; "null "; "1.5"; "[1e3, -0.25]"; "{ }"]%string.
Proof. repeat constructor. Qed.

Example not_well_formed :
  Forall (λ s, well_formed s = false)
         [""; "oops"; "[1,]"; "01"; "1."; "[1 2]"; "{a:1}"; "[1]]"; "nul"]%string.
Proof. repeat constructor. Qed.

End JsonWellFormed.

(* ===================================================================== *)
(** * Properties of the stored shapes *)
(* ===================================================================== *)

Section Shapes.

Lemma mapM_reads_back {A} (write : A -> Json.value) (read : Json.value -> option A) :
  (forall a, read (write a) = Some a) ->
  forall l, mapM read (write <$> l) = Some l.
Proof.
  intros H. induction l as [ | a l IH ]; [ reflexivity | ].
  cbn. rewrite H. cbn. rewrite IH. reflexivity.
Qed.

Lemma as_strings_strings l : Shape.as_strings (Shape.strings l) = Some l.
Proof. apply (mapM_reads_back Json.JStr Shape.as_string). reflexivity. Qed.

Lemma link_fromJSON_toJSON l : Link.fromJSON (Link.toJSON l) = Some l.
Proof. destruct l. reflexivity. Qed.

Lemma status_fromJSON_name s : Status.fromJSON (Json.JStr (Status.name s)) = Some s.
Proof. destruct s; reflexivity. Qed.

(** Evaluate the property lookups and the binds of a [fromJSON], leaving
    the reads of nested lists to the lemmas above. *)
Ltac read_shape :=
  repeat (progress (
    cbn [Shape.field Shape.property Shape.required Shape.optional
         Shape.as_string Shape.as_number Shape.as_array
         String.eqb Ascii.eqb Bool.eqb app mbind option_bind];
    rewrite ?as_strings_strings, ?status_fromJSON_name,
            ?(mapM_reads_back _ _ link_fromJSON_toJSON))).

Lemma decision_fromJSON_toJSON d : Decision.fromJSON (Decision.toJSON d) = Some d.
Proof.
  destruct d as [a b c d e f g h i j k l m n].
  unfold Decision.toJSON, Decision.fromJSON.
  cbn [Decision.id Decision.title Decision.rationale Decision.context
       Decision.timestamp Decision.author Decision.links Decision.pros
       Decision.cons Decision.tags Decision.nodeId Decision.nodeName
       Decision.pageName Decision.status].
  destruct h, i, j, k, l, m; read_shape; reflexivity.
Qed.

Lemma resource_fromJSON_toJSON r : Resource.fromJSON (Resource.toJSON r) = Some r.
Proof.
  destruct r as [a b c d e f g h].
  unfold Resource.toJSON, Resource.fromJSON.
  cbn [Resource.id Resource.title Resource.description Resource.url
       Resource.category Resource.timestamp Resource.author Resource.tags].
  destruct h; read_shape; reflexivity.
Qed.

(** [JSON.parse(JSON.stringify(decisions))] is [decisions]. *)
Lemma decision_parse_stringify ds :
  Decision.parse (Decision.stringify ds) = Some ds.
Proof.
  unfold Decision.parse, Decision.stringify.
  rewrite parse_stringify. cbn.
  apply (mapM_reads_back _ _ decision_fromJSON_toJSON).
Qed.

Lemma resource_parse_stringify rs :
  Resource.parse (Resource.stringify rs) = Some rs.
Proof.
  unfold Resource.parse, Resource.stringify.
  rewrite parse_stringify. cbn.
  apply (mapM_reads_back _ _ resource_fromJSON_toJSON).
Qed.

End Shapes.

(* ===================================================================== *)
(** * Storage: what a save writes and what a load reads *)
(* ===================================================================== *)

Section Storage.

Lemma truthy_stringify j : truthy (Json.stringify j) = true.
Proof.
  unfold truthy. destruct (String.eqb_spec (Json.stringify j) "") as [E | _];
    [ | reflexivity ].
  exfalso. exact (stringify_nonempty j E).
Qed.

(** The blob that [saveDecisionsToDocument] writes loads back as the
    collection it was made from. *)
Lemma loadDecisions_stringify ds : loadDecisions (Decision.stringify ds) = Some ds.
Proof.
  unfold loadDecisions. unfold Decision.stringify at 1.
  rewrite truthy_stringify. apply decision_parse_stringify.
Qed.

Lemma loadResources_stringify rs : loadResources (Resource.stringify rs) = Some rs.
Proof.
  unfold loadResources. unfold Resource.stringify at 1.
  rewrite truthy_stringify. apply resource_parse_stringify.
Qed.

(** Where [JSON.parse] throws, the embedding reads nothing. *)
Lemma parseThrows_load saved :
  parseThrows saved = true ->
  loadDecisions saved = None /\ loadResources saved = None.
Proof.
  unfold parseThrows, loadDecisions, loadResources, Decision.parse, Resource.parse.
  intros H. apply andb_prop in H as [-> Hbad]. apply negb_true_iff in Hbad.
  destruct (Json.parse saved) as [v | ] eqn:E; [ | split; reflexivity ].
  apply parse_well_formed in E. congruence.
Qed.

Lemma savedDecisions_stored_decisions blob f :
  savedDecisions (Figma.stored PLUGIN_NAMESPACE DECISIONS_KEY blob f) = blob.
Proof.
  unfold savedDecisions, Figma.getSharedPluginData, Figma.stored. simpl.
  rewrite lookup_insert_eq. reflexivity.
Qed.

Lemma savedResources_stored_resources blob f :
  savedResources (Figma.stored PLUGIN_NAMESPACE RESOURCES_KEY blob f) = blob.
Proof.
  unfold savedResources, Figma.getSharedPluginData, Figma.stored. simpl.
  rewrite lookup_insert_eq. reflexivity.
Qed.

Lemma savedResources_stored_decisions blob f :
  savedResources (Figma.stored PLUGIN_NAMESPACE DECISIONS_KEY blob f) = savedResources f.
Proof.
  unfold savedResources, Figma.getSharedPluginData, Figma.stored. simpl.
  rewrite lookup_insert_ne by discriminate. reflexivity.
Qed.

Lemma savedDecisions_stored_resources blob f :
  savedDecisions (Figma.stored PLUGIN_NAMESPACE RESOURCES_KEY blob f) = savedDecisions f.
Proof.
  unfold savedDecisions, Figma.getSharedPluginData, Figma.stored. simpl.
  rewrite lookup_insert_ne by discriminate. reflexivity.
Qed.

(** A decision save that goes through leaves the decisions in sync and
    the resources as they were. *)
Lemma saveDecisions_ok env w :
  write_ok env = true ->
  exists w',
    saveDecisionsToDocument env w
    = (true, w', [setSharedPluginData DECISIONS_KEY (Decision.stringify (decisions w))])
    /\ decisions w' = decisions w /\ resources w' = resources w
    /\ currentDocumentId w' = currentDocumentId w
    /\ decisions_in_sync w'
    /\ savedResources (figma w') = savedResources (figma w).
Proof.
  intros Hok. unfold saveDecisionsToDocument, save. rewrite Hok.
  eexists. split; [ reflexivity | ].
  unfold decisions_in_sync. simpl.
  rewrite savedDecisions_stored_decisions, savedResources_stored_decisions,
          loadDecisions_stringify.
  repeat split.
Qed.

Lemma saveResources_ok env w :
  write_ok env = true ->
  exists w',
    saveResourcesToDocument env w
    = (true, w', [setSharedPluginData RESOURCES_KEY (Resource.stringify (resources w))])
    /\ decisions w' = decisions w /\ resources w' = resources w
    /\ currentDocumentId w' = currentDocumentId w
    /\ resources_in_sync w'
    /\ savedDecisions (figma w') = savedDecisions (figma w).
Proof.
  intros Hok. unfold saveResourcesToDocument, save. rewrite Hok.
  eexists. split; [ reflexivity | ].
  unfold resources_in_sync. simpl.
  rewrite savedResources_stored_resources, savedDecisions_stored_resources,
          loadResources_stringify.
  repeat split.
Qed.

(** A save that throws changes nothing. *)
Lemma saveDecisions_failed env w :
  write_ok env = false -> fst (saveDecisionsToDocument env w) = (false, w).
Proof. intros H. unfold saveDecisionsToDocument, save. rewrite H. reflexivity. Qed.

(** [initializePlugin] reads the document and never writes it. *)
Lemma initializePlugin_figma b w : figma (fst (initializePlugin b w)) = figma w.
Proof.
  unfold initializePlugin, loadFailed.
  destruct (loadDecisions _); [ destruct (loadResources _) | ]; reflexivity.
Qed.

(** In sync, a reload changes neither collection. *)
Lemma initializePlugin_in_sync b w :
  in_sync w ->
  decisions (fst (initializePlugin b w)) = decisions w /\
  resources (fst (initializePlugin b w)) = resources w.
Proof.
  intros [Hd Hr]. unfold decisions_in_sync, resources_in_sync in *.
  unfold initializePlugin. rewrite Hd, Hr. split; reflexivity.
Qed.

Lemma checkForDocumentChange_figma b w :
  figma (fst (checkForDocumentChange b w)) = figma w.
Proof.
  unfold checkForDocumentChange. destruct (documentChanged b w); [ | reflexivity ].
  pose proof (initializePlugin_figma b w) as H.
  destruct (initializePlugin b w) as [w' out]. exact H.
Qed.

Lemma checkForDocumentChange_in_sync b w :
  in_sync w -> in_sync (fst (checkForDocumentChange b w)).
Proof.
  intros Hs. pose proof (checkForDocumentChange_figma b w) as Hf.
  unfold checkForDocumentChange in *.
  destruct (documentChanged b w); [ | exact Hs ].
  pose proof (initializePlugin_in_sync b w Hs) as [Hd Hr].
  destruct (initializePlugin b w) as [w' out]. simpl in *.
  destruct Hs as [Hsd Hsr]. unfold in_sync, decisions_in_sync, resources_in_sync in *.
  rewrite Hf, Hd, Hr. split; assumption.
Qed.

(** When the detector does not fire, a UI message is handled by the
    [switch] alone. *)
Lemma onmessage_unchanged_document b env msg w :
  documentChanged b w = false -> onmessage b env msg w = handle b env msg w.
Proof.
  intros H. unfold onmessage, checkForDocumentChange. rewrite H.
  destruct (handle b env msg w) as [w' out]. reflexivity.
Qed.

End Storage.

(* ===================================================================== *)
(** * C1: memory and storage agree while saves succeed *)
(* ===================================================================== *)

Section Synchronisation.

Ltac project :=
  cbn [fst snd with_resources with_decisions with_figma
       figma decisions resources currentDocumentId] in *.

Ltac saved Hok :=
  let w' := fresh "w'" in
  let Heq := fresh "Heq" in
  match goal with
  | |- context [saveDecisionsToDocument _ ?w1] =>
      destruct (saveDecisions_ok _ w1 Hok) as (w' & Heq & ? & ? & ? & ? & ?)
  | |- context [saveResourcesToDocument _ ?w1] =>
      destruct (saveResources_ok _ w1 Hok) as (w' & Heq & ? & ? & ? & ? & ?)
  end;
  rewrite Heq; project.

(** Each command first changes the collection in memory and then writes
    the whole of it: if the write goes through, the two agree again. *)
Lemma handle_in_sync b env msg w :
  write_ok env = true -> in_sync w -> in_sync (fst (handle b env msg w)).
Proof.
  intros Hok [Hd Hr].
  unfold in_sync, decisions_in_sync, resources_in_sync in *.
  destruct msg; cbn [handle]; try (split; assumption);
    try (destruct (list_find _ _) as [[index stored] | ]; [ | split; assumption ]);
    saved Hok; split; congruence.
Qed.

Lemma onmessage_in_sync b env msg w :
  write_ok env = true -> in_sync w -> in_sync (fst (onmessage b env msg w)).
Proof.
  intros Hok Hs. unfold onmessage.
  pose proof (checkForDocumentChange_in_sync b w Hs) as H1.
  destruct (checkForDocumentChange b w) as [w1 out1].
  pose proof (handle_in_sync b env msg w1 Hok H1) as H2.
  destruct (handle b env msg w1) as [w2 out2]. exact H2.
Qed.

Lemma deliver_in_sync b o env msg w :
  write_ok env = true -> in_sync w -> in_sync (fst (deliver b o env msg w)).
Proof.
  intros Hok Hs. unfold deliver, onmessage_listener. destruct o.
  - pose proof (checkForDocumentChange_in_sync b w Hs) as H1.
    destruct (checkForDocumentChange b w) as [w1 out1].
    pose proof (onmessage_in_sync b env msg w1 Hok H1) as H2.
    destruct (onmessage b env msg w1) as [w2 out2]. exact H2.
  - pose proof (onmessage_in_sync b env msg w Hok Hs) as H1.
    destruct (onmessage b env msg w) as [w1 out1].
    pose proof (checkForDocumentChange_in_sync b w1 H1) as H2.
    destruct (checkForDocumentChange b w1) as [w2 out2]. exact H2.
Qed.

(** After start-up on a document whose two blobs decode (or are absent),
    memory and storage agree. *)
Lemma boot_in_sync b f :
  loadDecisions (savedDecisions f) <> None ->
  loadResources (savedResources f) <> None ->
  in_sync (fst (boot b f)).
Proof.
  intros Hd Hr. unfold boot, initializePlugin. cbn [figma].
  destruct (loadDecisions (savedDecisions f)) as [ds | ] eqn:Ed; [ | congruence ].
  destruct (loadResources (savedResources f)) as [rs | ] eqn:Er; [ | congruence ].
  split; assumption.
Qed.

(** C1. For every sequence of commands in which every save succeeded,
    the collections in memory after the sequence are the collections
    that the persisted blobs hold: starting from a state in which memory
    and storage agree (as after start-up), they agree at the end, in
    both versions of the backend and whichever listener the host calls
    first. *)
Theorem memory_equals_storage_after_successful_saves b o trace w :
  in_sync w -> saves_succeed trace -> in_sync (fst (run b o trace w)).
Proof.
  intros Hs Hok. revert w Hs.
  induction Hok as [ | [env msg] trace Hstep Hrest IH ]; intros w Hs; [ exact Hs | ].
  cbn [run]. pose proof (deliver_in_sync b o env msg w Hstep Hs) as H1.
  destruct (deliver b o env msg w) as [w1 out1].
  specialize (IH w1 H1). destruct (run b o trace w1) as [w2 out2]. exact IH.
Qed.

Lemma memory_equals_storage_witness :
  in_sync (fst (boot Compiled blank_document)) /\
  saves_succeed [(at_time 1700000000000, dark_mode);
                 (at_time 1700000000500,
                  edit_decision (a_decision "1700000000000" "Dark mode" "Eve" 0));
                 (at_time 1700000000900, delete_decision "1700000000000")] /\
  in_sync (fst (run Compiled listener_first
                  [(at_time 1700000000000, dark_mode);
                   (at_time 1700000000500,
                    edit_decision (a_decision "1700000000000" "Dark mode" "Eve" 0));
                   (at_time 1700000000900, delete_decision "1700000000000")]
                  (fst (boot Compiled blank_document)))).
Proof.
  assert (H1 : in_sync (fst (boot Compiled blank_document))).
  { split; vm_compute; reflexivity. }
  assert (H2 : saves_succeed
                 [(at_time 1700000000000, dark_mode);
                  (at_time 1700000000500,
                   edit_decision (a_decision "1700000000000" "Dark mode" "Eve" 0));
                  (at_time 1700000000900, delete_decision "1700000000000")]).
  { repeat constructor. }
  split; [ exact H1 | split; [ exact H2 | ] ].
  exact (memory_equals_storage_after_successful_saves _ _ _ _ H1 H2).
Defined.

End Synchronisation.

(* ===================================================================== *)
(** * The collection store: edit and delete *)
(* ===================================================================== *)

Section Store.

(** A save, whether or not it goes through, leaves memory alone. *)
Lemma save_memory key blob failure env w :
  decisions (snd (fst (save key blob failure env w))) = decisions w /\
  resources (snd (fst (save key blob failure env w))) = resources w /\
  currentDocumentId (snd (fst (save key blob failure env w))) = currentDocumentId w.
Proof. unfold save. destruct (write_ok env); repeat split. Qed.

(** The first record that carries an id is the one [findIndex] finds. *)
Lemma list_find_first {A} (P : A -> Prop) `{!forall x, Decision (P x)}
    (before after : list A) (x : A) :
  Forall (λ y, ¬ P y) before -> P x ->
  list_find P (before ++ x :: after) = Some (length before, x).
Proof.
  intros Hb Hx. apply list_find_Some. split_and!.
  - apply list_lookup_middle. reflexivity.
  - exact Hx.
  - intros j y Hj Hlt. rewrite lookup_app_l in Hj by exact Hlt.
    exact (Forall_lookup_1 _ _ _ _ Hb Hj).
Qed.

Lemma insert_middle {A} (before after : list A) (x y : A) :
  <[length before := y]> (before ++ x :: after) = before ++ y :: after.
Proof.
  rewrite <- (Nat.add_0_r (length before)). rewrite insert_app_r. reflexivity.
Qed.

(** When ids are unique, every stored record is the first with its id. *)
Lemma unique_id_is_first (ds : list Decision.t) (d : Decision.t) :
  NoDup (Decision.id <$> ds) -> d ∈ ds ->
  exists before after,
    ds = before ++ d :: after /\
    Forall (λ x, Decision.id x ≠ Decision.id d) before.
Proof.
  intros Hnd Hin. apply list_elem_of_split in Hin as (before & after & ->).
  exists before, after. split; [ reflexivity | ].
  rewrite fmap_app, fmap_cons in Hnd.
  apply NoDup_app in Hnd as (_ & Hdisj & _).
  apply Forall_forall. intros x Hx Heq.
  apply (Hdisj (Decision.id x)).
  - apply list_elem_of_fmap. exists x. split; [ reflexivity | exact Hx ].
  - rewrite Heq. apply list_elem_of_here.
Qed.

(** C3. Editing the stored decision [d] (the first record that carries
    the id of the payload [p]) replaces it, in place, by a record with
    the id and the author of [d], whatever author [p] supplies, every
    other field taken from [p], and the time of the edit as its
    timestamp; the records before and after it stay as they are. This
    is what the [switch] does, and so what the whole command does when
    the document has not changed. *)
Theorem edit_keeps_id_and_author b env p d before after w :
  decisions w = before ++ d :: after ->
  Forall (λ x, Decision.id x ≠ Decision.id p) before ->
  Decision.id p = Decision.id d ->
  exists r,
    decisions (fst (handle b env (edit_decision p) w)) = before ++ r :: after /\
    Decision.id r = Decision.id d /\
    Decision.author r = Decision.author d /\
    Decision.timestamp r = Date_now env /\
    Decision.title r = Decision.title p /\
    Decision.rationale r = Decision.rationale p /\
    Decision.context r = Decision.context p /\
    Decision.links r = Decision.links p /\
    Decision.pros r = Decision.pros p /\
    Decision.cons r = Decision.cons p /\
    Decision.tags r = Decision.tags p /\
    Decision.nodeId r = Decision.nodeId p /\
    Decision.nodeName r = Decision.nodeName p /\
    Decision.pageName r = Decision.pageName p /\
    Decision.status r = Decision.status p /\
    (documentChanged b w = false ->
     decisions (fst (onmessage b env (edit_decision p) w)) = before ++ r :: after).
Proof.
  intros Hw Hbefore Hid.
  exists (Decision.refreshed p (Date_now env) (Decision.author d)).
  assert (Hmem : decisions (fst (handle b env (edit_decision p) w))
                 = before ++ Decision.refreshed p (Date_now env) (Decision.author d)
                             :: after);
    [ | split; [ exact Hmem | ];
        cbn; split_and!; try reflexivity; try exact Hid;
        intros Hsame; rewrite onmessage_unchanged_document by exact Hsame;
        exact Hmem ].
  cbn [handle]. rewrite Hw.
  rewrite (list_find_first (λ x, Decision.id x = Decision.id p) before after d)
    by (assumption || (symmetry; assumption)).
  unfold saveDecisionsToDocument.
  match goal with |- context [save ?k ?bl ?f env ?w1] =>
    pose proof (save_memory k bl f env w1) as (Hm & _);
    destruct (save k bl f env w1) as [[ok w2] out] end.
  cbn [fst snd with_decisions decisions] in Hm.
  rewrite insert_middle in Hm.
  destruct ok; exact Hm.
Qed.

Lemma edit_keeps_id_and_author_witness :
  exists r,
    decisions (fst (handle Source (at_time 1700000000500)
                      (edit_decision (a_decision "17" "Dark mode" "Mallory" 0))
                      (mkWorld [a_decision "16" "Spacing" "Bob" 16;
                                a_decision "17" "Use dark mode default" "Ada" 17;
                                a_decision "18" "Icons" "Bob" 18]
                               [] "kQ7file" blank_document)))
    = [a_decision "16" "Spacing" "Bob" 16] ++ r :: [a_decision "18" "Icons" "Bob" 18]
    /\ Decision.id r = "17"%string
    /\ Decision.author r = "Ada"%string
    /\ Decision.timestamp r = 1700000000500
    /\ Decision.title r = "Dark mode"%string.
Proof.
  destruct (edit_keeps_id_and_author Source (at_time 1700000000500)
              (a_decision "17" "Dark mode" "Mallory" 0)
              (a_decision "17" "Use dark mode default" "Ada" 17)
              [a_decision "16" "Spacing" "Bob" 16]
              [a_decision "18" "Icons" "Bob" 18]
              (mkWorld [a_decision "16" "Spacing" "Bob" 16;
                        a_decision "17" "Use dark mode default" "Ada" 17;
                        a_decision "18" "Icons" "Bob" 18]
                       [] "kQ7file" blank_document))
    as (r & H1 & H2 & H3 & H4 & H5 & _).
  - reflexivity.
  - repeat constructor; vm_compute; discriminate.
  - reflexivity.
  - exists r. repeat split; assumption.
Defined.

(** C6. An edit whose id no stored decision carries is a silent no-op:
    the collection in memory is unchanged, [setSharedPluginData] is not
    called, the persisted blob is what it was, and nothing is sent or
    notified. So it is for the [switch], and for the whole command when
    the document has not changed. *)
Theorem edit_of_missing_id_is_silent_no_op b env p w :
  Forall (λ d, Decision.id d ≠ Decision.id p) (decisions w) ->
  decisions (fst (handle b env (edit_decision p) w)) = decisions w /\
  save_calls (snd (handle b env (edit_decision p) w)) = 0%nat /\
  savedDecisions (figma (fst (handle b env (edit_decision p) w)))
  = savedDecisions (figma w) /\
  handle b env (edit_decision p) w = (w, []) /\
  (documentChanged b w = false -> onmessage b env (edit_decision p) w = (w, [])).
Proof.
  intros Hnone.
  assert (H : handle b env (edit_decision p) w = (w, [])).
  { cbn [handle]. rewrite (proj2 (list_find_None _ _) Hnone). reflexivity. }
  rewrite H. split_and!; try reflexivity.
  intros Hsame. rewrite onmessage_unchanged_document by exact Hsame. exact H.
Qed.

Lemma edit_of_missing_id_is_silent_no_op_witness :
  Forall (λ d, Decision.id d ≠ "99"%string)
    [a_decision "17" "Use dark mode default" "Ada" 17] /\
  handle Compiled (at_time 1700000000500)
    (edit_decision (a_decision "99" "Dark mode" "Mallory" 0))
    (mkWorld [a_decision "17" "Use dark mode default" "Ada" 17]
             [] "0:0" blank_document)
  = (mkWorld [a_decision "17" "Use dark mode default" "Ada" 17]
             [] "0:0" blank_document, []) /\
  onmessage Compiled (at_time 1700000000500)
    (edit_decision (a_decision "99" "Dark mode" "Mallory" 0))
    (mkWorld [a_decision "17" "Use dark mode default" "Ada" 17]
             [] "0:0" blank_document)
  = (mkWorld [a_decision "17" "Use dark mode default" "Ada" 17]
             [] "0:0" blank_document, []).
Proof.
  assert (Hnone : Forall (λ d, Decision.id d ≠ "99"%string)
                    [a_decision "17" "Use dark mode default" "Ada" 17]).
  { repeat constructor. vm_compute. discriminate. }
  split; [ exact Hnone | ].
  destruct (edit_of_missing_id_is_silent_no_op Compiled (at_time 1700000000500)
              (a_decision "99" "Dark mode" "Mallory" 0)
              (mkWorld [a_decision "17" "Use dark mode default" "Ada" 17]
                       [] "0:0" blank_document) Hnone)
    as (_ & _ & _ & Hswitch & Hwhole).
  split; [ exact Hswitch | apply Hwhole; reflexivity ].
Defined.

Lemma filter_all {A} (P : A -> Prop) `{!forall x, Decision (P x)} (l : list A) :
  Forall P l -> filter P l = l.
Proof.
  induction 1 as [ | x l Hx Hl IH ]; [ reflexivity | ].
  rewrite filter_cons_True by exact Hx. rewrite IH. reflexivity.
Qed.

(** C7. Deleting an id that no stored decision carries leaves the
    collection in memory as it was: the same records in the same
    order. So it is for the [switch], and for the whole command when the
    document has not changed. *)
Theorem delete_of_missing_id_keeps_collection b env i w :
  Forall (λ d, Decision.id d ≠ i) (decisions w) ->
  decisions (fst (handle b env (delete_decision i) w)) = decisions w /\
  (documentChanged b w = false ->
   decisions (fst (onmessage b env (delete_decision i) w)) = decisions w).
Proof.
  intros Hnone.
  assert (H : decisions (fst (handle b env (delete_decision i) w)) = decisions w);
    [ | split; [ exact H | ];
        intros Hsame; rewrite onmessage_unchanged_document by exact Hsame; exact H ].
  cbn [handle]. unfold saveDecisionsToDocument.
  match goal with |- context [save ?k ?bl ?f env ?w1] =>
    pose proof (save_memory k bl f env w1) as (Hm & _);
    destruct (save k bl f env w1) as [[ok w2] out] end.
  cbn [fst snd with_decisions decisions] in Hm.
  rewrite filter_all in Hm by exact Hnone.
  destruct ok; exact Hm.
Qed.

Lemma delete_of_missing_id_keeps_collection_witness :
  Forall (λ d, Decision.id d ≠ "99"%string)
    [a_decision "16" "Spacing" "Bob" 16;
     a_decision "17" "Use dark mode default" "Ada" 17] /\
  decisions (fst (handle Source (at_time 1700000000900) (delete_decision "99")
                    (mkWorld [a_decision "16" "Spacing" "Bob" 16;
                              a_decision "17" "Use dark mode default" "Ada" 17]
                             [] "kQ7file" blank_document)))
  = [a_decision "16" "Spacing" "Bob" 16;
     a_decision "17" "Use dark mode default" "Ada" 17].
Proof.
  assert (Hnone : Forall (λ d, Decision.id d ≠ "99"%string)
                    [a_decision "16" "Spacing" "Bob" 16;
                     a_decision "17" "Use dark mode default" "Ada" 17]).
  { repeat constructor; vm_compute; discriminate. }
  split; [ exact Hnone | ].
  exact (proj1 (delete_of_missing_id_keeps_collection Source (at_time 1700000000900) "99"
                  (mkWorld [a_decision "16" "Spacing" "Bob" 16;
                            a_decision "17" "Use dark mode default" "Ada" 17]
                           [] "kQ7file" blank_document) Hnone)).
Defined.

Lemma length_filter_split {A} (P : A -> Prop) `{!forall x, Decision (P x)} (l : list A) :
  (length (filter (λ x, ¬ P x) l) + length (filter P l) = length l)%nat.
Proof.
  induction l as [ | x l IH ]; [ reflexivity | ].
  rewrite !filter_cons. destruct (decide (P x)) as [Hx | Hx].
  - destruct (decide (¬ P x)) as [Hn | _]; [ contradiction | ]. simpl. lia.
  - destruct (decide (¬ P x)) as [_ | Hn]; [ | contradiction ]. simpl. lia.
Qed.

Lemma delete_decision_memory b env i w :
  decisions (fst (handle b env (delete_decision i) w))
  = filter (λ d, Decision.id d ≠ i) (decisions w).
Proof.
  cbn [handle]. unfold saveDecisionsToDocument.
  match goal with |- context [save ?k ?bl ?f env ?w1] =>
    pose proof (save_memory k bl f env w1) as (Hm & _);
    destruct (save k bl f env w1) as [[ok w2] out] end.
  destruct ok; exact Hm.
Qed.

Lemma delete_resource_memory b env i w :
  resources (fst (handle b env (delete_resource i) w))
  = filter (λ r, Resource.id r ≠ i) (resources w).
Proof.
  cbn [handle]. unfold saveResourcesToDocument.
  match goal with |- context [save ?k ?bl ?f env ?w1] =>
    pose proof (save_memory k bl f env w1) as (_ & Hm & _);
    destruct (save k bl f env w1) as [[ok w2] out] end.
  destruct ok; exact Hm.
Qed.

(** C10. A delete removes every record that carries the id, not only
    the first: afterwards no record of the collection has the id, the
    records with another id are all still there, in their order, and
    the collection is shorter by the number of records that carried the
    id. The same holds of resources. *)
Theorem delete_removes_every_record_with_the_id b env i w :
  let after := decisions (fst (handle b env (delete_decision i) w)) in
  let after' := resources (fst (handle b env (delete_resource i) w)) in
  (Forall (λ d, Decision.id d ≠ i) after /\
   (forall d, d ∈ after <-> d ∈ decisions w /\ Decision.id d ≠ i) /\
   after `sublist_of` decisions w /\
   (length after + length (filter (λ d, Decision.id d = i) (decisions w))
    = length (decisions w))%nat) /\
  (Forall (λ r, Resource.id r ≠ i) after' /\
   (forall r, r ∈ after' <-> r ∈ resources w /\ Resource.id r ≠ i) /\
   after' `sublist_of` resources w /\
   (length after' + length (filter (λ r, Resource.id r = i) (resources w))
    = length (resources w))%nat).
Proof.
  cbv zeta. rewrite delete_decision_memory, delete_resource_memory.
  split; split_and!.
  - apply Forall_forall. intros d Hd. apply list_elem_of_filter in Hd. tauto.
  - intros d. rewrite list_elem_of_filter. tauto.
  - apply sublist_filter.
  - apply (length_filter_split (λ d, Decision.id d = i)).
  - apply Forall_forall. intros r Hr. apply list_elem_of_filter in Hr. tauto.
  - intros r. rewrite list_elem_of_filter. tauto.
  - apply sublist_filter.
  - apply (length_filter_split (λ r, Resource.id r = i)).
Qed.

(** Two decisions created within one millisecond carry one id (C2); a
    single delete of that id removes both. *)
Example delete_removes_both_duplicates b o :
  decisions (fst (run b o [(at_time 1700000000000, dark_mode);
                           (at_time 1700000000000, compact_nav);
                           (at_time 1700000000900, delete_decision "1700000000000")]
                    (fst (boot b blank_document))))
  = [].
Proof. destruct b, o; vm_compute; reflexivity. Qed.

End Store.

(* ===================================================================== *)
(** * The message bridge: terminal events *)
(* ===================================================================== *)

Section Bridge.

Lemma terminal_events_app out1 out2 :
  terminal_events (out1 ++ out2) = (terminal_events out1 + terminal_events out2)%nat.
Proof. unfold terminal_events. rewrite List.filter_app, length_app. reflexivity. Qed.

Lemma save_calls_app out1 out2 :
  save_calls (out1 ++ out2) = (save_calls out1 + save_calls out2)%nat.
Proof. unfold save_calls. rewrite List.filter_app, length_app. reflexivity. Qed.

Lemma sendSelectionInfo_quiet f :
  terminal_events (sendSelectionInfo f) = 0%nat /\ save_calls (sendSelectionInfo f) = 0%nat.
Proof.
  unfold sendSelectionInfo.
  destruct (Figma.selection f) as [ | n [ | n' sel ] ]; split; reflexivity.
Qed.

(** The reload reports no command outcome and writes nothing. *)
Lemma initializePlugin_quiet b w :
  terminal_events (snd (initializePlugin b w)) = 0%nat /\
  save_calls (snd (initializePlugin b w)) = 0%nat.
Proof.
  unfold initializePlugin, loadFailed.
  destruct (loadDecisions _) as [ds | ];
    [ destruct (loadResources _) as [rs | ] | ];
    cbn [fst snd decisions figma];
    rewrite !terminal_events_app, !save_calls_app;
    match goal with |- context [sendSelectionInfo ?f] =>
      destruct (sendSelectionInfo_quiet f) as [-> ->] end;
    destruct b; try destruct ds; split; reflexivity.
Qed.

Lemma checkForDocumentChange_quiet b w :
  terminal_events (snd (checkForDocumentChange b w)) = 0%nat /\
  save_calls (snd (checkForDocumentChange b w)) = 0%nat.
Proof.
  unfold checkForDocumentChange.
  destruct (documentChanged b w); [ | split; reflexivity ].
  pose proof (initializePlugin_quiet b w) as H.
  destruct (initializePlugin b w) as [w' out]. exact H.
Qed.

(** The [switch]: one terminal event per command, except an edit that
    finds no record. *)
Lemma handle_terminal_events b env msg w :
  is_command msg = true ->
  (edits_nothing msg w -> terminal_events (snd (handle b env msg w)) = 0%nat) /\
  (¬ edits_nothing msg w -> terminal_events (snd (handle b env msg w)) = 1%nat).
Proof.
  intros Hcmd.
  destruct msg; try discriminate Hcmd; cbn [handle edits_nothing];
    unfold saveDecisionsToDocument, saveResourcesToDocument, save,
           created, updated, deleted.
  - split; [ tauto | intros _ ]. destruct (write_ok env); reflexivity.
  - split; [ tauto | intros _ ]. destruct (write_ok env), b; reflexivity.
  - destruct (list_find _ _) as [[index stored] | ] eqn:Hfind.
    + split.
      * intros Hnone. apply (proj2 (list_find_None _ _)) in Hnone. congruence.
      * intros _. destruct (write_ok env), b; reflexivity.
    + split; [ reflexivity | ].
      intros Hsome. exfalso. apply Hsome.
      apply (proj1 (list_find_None _ _)) in Hfind. exact Hfind.
  - split; [ tauto | intros _ ].
    destruct (write_ok env), b; try reflexivity.
    cbn [snd]. destruct (truthy _); reflexivity.
  - destruct (list_find _ _) as [[index stored] | ] eqn:Hfind.
    + split.
      * intros Hnone. apply (proj2 (list_find_None _ _)) in Hnone. congruence.
      * intros _. destruct (write_ok env); reflexivity.
    + split; [ reflexivity | ].
      intros Hsome. exfalso. apply Hsome.
      apply (proj1 (list_find_None _ _)) in Hfind. exact Hfind.
  - split; [ tauto | intros _ ]. destruct (write_ok env); reflexivity.
Qed.

(** C5, as the backend has it. Every create and delete command, and
    every edit that finds its record, emits exactly one terminal event:
    the event that carries the record, or the notification of the failed
    save. An edit whose id no record of the collection carries emits
    none. *)
Theorem command_emits_one_terminal_event_unless_edit_misses b env msg w :
  is_command msg = true ->
  let seen := fst (checkForDocumentChange b w) in
  (¬ edits_nothing msg seen ->
   terminal_events (snd (onmessage b env msg w)) = 1%nat) /\
  (edits_nothing msg seen ->
   terminal_events (snd (onmessage b env msg w)) = 0%nat).
Proof.
  intros Hcmd seen. subst seen. unfold onmessage.
  pose proof (checkForDocumentChange_quiet b w) as [Hq _].
  destruct (checkForDocumentChange b w) as [w1 out1]. cbn [fst snd] in *.
  pose proof (handle_terminal_events b env msg w1 Hcmd) as [H0 H1].
  destruct (handle b env msg w1) as [w2 out2]. cbn [snd] in *.
  rewrite terminal_events_app, Hq. split; intros H; [ apply H1 | apply H0 ]; exact H.
Qed.

Lemma command_emits_one_terminal_event_witness :
  is_command dark_mode = true /\
  ¬ edits_nothing dark_mode
      (fst (checkForDocumentChange Source (fst (boot Source blank_document)))) /\
  terminal_events
    (snd (onmessage Source (at_time_failing 1700000000000) dark_mode
            (fst (boot Source blank_document)))) = 1%nat.
Proof.
  split; [ reflexivity | ]. split; [ exact (fun H => H) | ].
  apply (command_emits_one_terminal_event_unless_edit_misses
           Source (at_time_failing 1700000000000) dark_mode
           (fst (boot Source blank_document)));
    [ reflexivity | exact (fun H => H) ].
Defined.

(** C5 as stated fails: the edit of an id that is not in the collection
    is a command that emits no terminal event at all. *)
Lemma edit_of_missing_id_emits_no_terminal_event :
  ¬ (forall b env msg w,
        is_command msg = true ->
        terminal_events (snd (onmessage b env msg w)) = 1%nat).
Proof.
  intros H.
  specialize (H Compiled (at_time 1700000000500)
                (edit_decision (a_decision "99" "Dark mode" "Mallory" 0))
                (fst (boot Compiled blank_document)) eq_refl).
  vm_compute in H. discriminate H.
Qed.

(** The other messages report no command outcome. *)
Lemma other_messages_emit_no_terminal_event b env msg w :
  is_command msg = false -> terminal_events (snd (onmessage b env msg w)) = 0%nat.
Proof.
  intros Hcmd. unfold onmessage.
  pose proof (checkForDocumentChange_quiet b w) as [Hq _].
  destruct (checkForDocumentChange b w) as [w1 out1]. cbn [snd] in Hq.
  destruct msg; try discriminate Hcmd; cbn [handle snd];
    rewrite terminal_events_app, Hq; try reflexivity.
  - destruct b; reflexivity.
  - destruct nodeId as [node | ]; [ | reflexivity ].
    destruct (truthy node); [ | reflexivity ].
    destruct (getNodeById env) as [ | | [page | ] selectable | page ]; reflexivity.
Qed.

End Bridge.

(* ===================================================================== *)
(** * Identifiers: [Date.now().toString()] *)
(* ===================================================================== *)

Section Identifiers.

Lemma toString_inj z z' : toString z = toString z' -> z = z'.
Proof.
  unfold toString. intros H.
  apply (f_equal list_ascii_of_string) in H.
  rewrite !list_ascii_of_string_of_list_ascii in H.
  pose proof (parse_number_print_int z [] I) as Hz.
  pose proof (parse_number_print_int z' [] I) as Hz'.
  rewrite H in Hz. congruence.
Qed.

(** A create appends one record, whose id is the clock reading. *)
Lemma create_decision_appends b env title rationale context links pros cons_ tags
    nodeId nodeName pageName status w :
  exists d,
    decisions (fst (handle b env
                      (create_decision title rationale context links pros cons_ tags
                         nodeId nodeName pageName status) w))
    = decisions w ++ [d] /\
    Decision.id d = toString (Date_now env).
Proof.
  eexists. cbn [handle]. unfold saveDecisionsToDocument.
  match goal with |- context [save ?k ?bl ?f env ?w1] =>
    pose proof (save_memory k bl f env w1) as (Hm & _);
    destruct (save k bl f env w1) as [[ok w2] out] end.
  cbn [fst snd with_decisions decisions] in Hm.
  split; [ destruct ok; exact Hm | reflexivity ].
Qed.

(** C2 fails on the backend. Two creates handled within one millisecond
    read the same clock value and are given the same id: here the
    session is two create commands on a blank document, in either
    version and listener order. *)
Theorem creates_in_one_millisecond_share_an_id b o :
  Decision.id <$>
    decisions (fst (run b o [(at_time 1700000000000, dark_mode);
                             (at_time 1700000000000, compact_nav)]
                      (fst (boot b blank_document))))
  = ["1700000000000"; "1700000000000"]%string.
Proof. destruct b, o; vm_compute; reflexivity. Qed.

(** The scenario of the specification: a create on a blank document
    returns a record with a non-empty id, status proposed, the active user
    as author, the clock reading as timestamp and empty sequences. *)
Example create_dark_mode :
  snd (onmessage Compiled (at_time 1700000000000) dark_mode
         (fst (boot Compiled blank_document)))
  = [setSharedPluginData DECISIONS_KEY
       (Decision.stringify
          [Decision.mk "1700000000000" "Use dark mode default" "Accessibility"
             "Settings redesign" 1700000000000 "Ada" [] (Some []) (Some []) (Some [])
             None None None Status.proposed]);
     postMessage
       (decision_created
          (Decision.mk "1700000000000" "Use dark mode default" "Accessibility"
             "Settings redesign" 1700000000000 "Ada" [] (Some []) (Some []) (Some [])
             None None None Status.proposed));
     notify "Decision logged successfully" false].
Proof. vm_compute. reflexivity. Qed.

(** What does hold: creates that read different clock values are given
    different ids. *)
Lemma creates_at_different_readings_differ env env' :
  Date_now env <> Date_now env' ->
  toString (Date_now env) <> toString (Date_now env').
Proof. intros Hne Heq. apply Hne, toString_inj, Heq. Qed.

End Identifiers.

(* ===================================================================== *)
(** * The document-change detector *)
(* ===================================================================== *)

Section Detector.

(** [code.js]: the reload is triggered exactly when the cached identity
    differs from the live one. *)
Lemma compiled_detector_fires_iff_identity_differs w :
  documentChanged Compiled w = true <->
  currentDocumentId w ≠ documentIdentity Compiled (figma w).
Proof.
  unfold documentChanged, documentIdentity.
  destruct (String.eqb_spec (currentDocumentId w) (Figma.root_id (figma w)));
    simpl; split; congruence.
Qed.

(** [code.js]: with the identities equal nothing happens at all. *)
Lemma compiled_detector_leaves_unchanged_document w :
  currentDocumentId w = documentIdentity Compiled (figma w) ->
  checkForDocumentChange Compiled w = (w, []).
Proof.
  intros H. unfold checkForDocumentChange.
  destruct (documentChanged Compiled w) eqn:E; [ | reflexivity ].
  apply compiled_detector_fires_iff_identity_differs in E. contradiction.
Qed.

(** The source: the test is true whenever [figma.root.id] is a
    non-empty string, whatever the cached identity. *)
Lemma source_detector_fires_on_every_event w :
  truthy (Figma.root_id (figma w)) = true -> documentChanged Source w = true.
Proof. intros H. unfold documentChanged. rewrite H. apply orb_true_r. Qed.

(** C4 fails on the TypeScript source. In [unsaved_world] the cached
    identity equals the live one, yet the detector fires, runs
    [initializePlugin] and replaces the collection in memory by the
    stored one, dropping the decision held in memory, on a selection
    change as on a UI message; [code.js], given its own identity of the
    same document, leaves the world alone. *)
Theorem source_detector_reloads_unchanged_document :
  currentDocumentId unsaved_world = documentIdentity Source (figma unsaved_world) /\
  documentChanged Source unsaved_world = true /\
  decisions unsaved_world
  = [a_decision "1700000000000" "Use dark mode default" "Ada" 1700000000000] /\
  decisions (fst (checkForDocumentChange Source unsaved_world)) = [] /\
  decisions (fst (onselectionchange Source unsaved_world)) = [] /\
  decisions (fst (onmessage Source (at_time 1700000000500) get_user_info unsaved_world))
  = [] /\
  checkForDocumentChange Compiled
    (mkWorld (decisions unsaved_world) [] "0:0" blank_document)
  = (mkWorld (decisions unsaved_world) [] "0:0" blank_document, []).
Proof. repeat split; vm_compute; reflexivity. Qed.

End Detector.

(* ===================================================================== *)
(** * The visual log row *)
(* ===================================================================== *)

Section Row.

Lemma substring_whole n s : (String.length s <= n)%nat -> substring 0 n s = s.
Proof.
  revert n. induction s as [ | c s IH ]; intros [ | n ] H; simpl in *;
    try reflexivity; try lia.
  rewrite IH by lia. reflexivity.
Qed.

Lemma substring_length n s :
  (n <= String.length s)%nat -> String.length (substring 0 n s) = n.
Proof.
  revert n. induction s as [ | c s IH ]; intros [ | n ] H; simpl in *;
    try reflexivity; try lia.
  rewrite IH by lia. reflexivity.
Qed.

Lemma substring_prefix n s : String.prefix (substring 0 n s) s = true.
Proof.
  revert n. induction s as [ | c s IH ]; intros [ | n ]; simpl; try reflexivity.
  destruct (ascii_dec c c) as [ _ | Hne ]; [ apply IH | congruence ].
Qed.

Lemma append_empty s : (s ++ "")%string = s.
Proof.
  induction s as [ | c s IH ]; [ reflexivity | exact (f_equal (String c) IH) ].
Qed.

(** The inline expression of [cellData] shows a text as the
    specification says. *)
Lemma clipped_text_is_truncated s :
  Mirror.truncated s
    (substring 0 100 s ++ (if (100 <? String.length s)%nat then "..." else ""))%string.
Proof.
  unfold Mirror.truncated. destruct (decide (String.length s <= 100)%nat) as [Hle | Hgt].
  - rewrite (proj2 (Nat.ltb_ge _ _) Hle), substring_whole by exact Hle.
    apply append_empty.
  - rewrite (proj2 (Nat.ltb_lt _ _)) by lia.
    exists (substring 0 100 s). split_and!; [ reflexivity | | apply substring_prefix ].
    apply substring_length. lia.
Qed.

(** C9. Whatever the decision and the date format of the host, the row
    made for it has a details cell and a rationale cell that show the
    context and the rationale in full when they have at most 100
    characters and else their first 100 characters followed by ["..."],
    and a status cell filled with the colour of the status: blue for
    proposed, green for accepted, red for rejected, brown for deprecated,
    purple for superseded. *)
Theorem row_truncates_text_and_colours_status toLocaleDateString d :
  exists status details rationale,
    Mirror.statusCell (Mirror.createDecisionRow toLocaleDateString d) = Some status /\
    Mirror.fills status = Mirror.shade (Mirror.colourOf (Decision.status d)) /\
    Mirror.detailsCell (Mirror.createDecisionRow toLocaleDateString d) = Some details /\
    Mirror.truncated (Decision.context d) (Mirror.characters details) /\
    Mirror.rationaleCell (Mirror.createDecisionRow toLocaleDateString d) = Some rationale /\
    Mirror.truncated (Decision.rationale d) (Mirror.characters rationale).
Proof.
  eexists _, _, _. split_and!; try reflexivity.
  - cbn. destruct (Decision.status d); reflexivity.
  - apply clipped_text_is_truncated.
  - apply clipped_text_is_truncated.
Qed.

(** The triples are the colours their names say: the blue channel leads
    in blue, the green in green, the red in red; brown is a dark red
    leaning to green, purple a blue leaning to red. *)
Lemma shades_are_as_named :
  ((Mirror.g (Mirror.shade Mirror.Blue) < Mirror.b (Mirror.shade Mirror.Blue) /\
   Mirror.r (Mirror.shade Mirror.Blue) < Mirror.g (Mirror.shade Mirror.Blue)) /\
  (Mirror.r (Mirror.shade Mirror.Green) < Mirror.g (Mirror.shade Mirror.Green) /\
   Mirror.b (Mirror.shade Mirror.Green) < Mirror.g (Mirror.shade Mirror.Green)) /\
  (Mirror.g (Mirror.shade Mirror.Red) < Mirror.r (Mirror.shade Mirror.Red) /\
   Mirror.b (Mirror.shade Mirror.Red) < Mirror.r (Mirror.shade Mirror.Red)) /\
  (Mirror.b (Mirror.shade Mirror.Brown) < Mirror.g (Mirror.shade Mirror.Brown) /\
   Mirror.g (Mirror.shade Mirror.Brown) < Mirror.r (Mirror.shade Mirror.Brown) /\
   Mirror.r (Mirror.shade Mirror.Brown) < 0.25) /\
  (Mirror.g (Mirror.shade Mirror.Purple) < Mirror.r (Mirror.shade Mirror.Purple) /\
   Mirror.r (Mirror.shade Mirror.Purple) < Mirror.b (Mirror.shade Mirror.Purple)))%Q.
Proof. unfold Qlt. cbn. lia. Qed.

(** The five colours are five different colours. *)
Lemma status_colours_differ s s' :
  Mirror.statusColors s = Mirror.statusColors s' -> s = s'.
Proof. destruct s, s'; intros H; try reflexivity; discriminate H. Qed.

End Row.

(* ===================================================================== *)
(** * Save, then load *)
(* ===================================================================== *)

Section RoundTrip.




End RoundTrip.

(* ===================================================================== *)
(** * The loader: [initializePlugin] *)
(* ===================================================================== *)

Section Loader.

Lemma initializePlugin_reads_document_only b w w' :
  figma w' = figma w -> initializePlugin b w' = initializePlugin b w.
Proof.
  intros H. unfold initializePlugin, loadFailed. rewrite H. reflexivity.
Qed.

Lemma sendSelectionInfo_shape f :
  exists nodeId nodeName pageName,
    sendSelectionInfo f = [postMessage (selection_info nodeId nodeName pageName)].
Proof.
  unfold sendSelectionInfo.
  destruct (Figma.selection f) as [ | n [ | n' sel ] ]; eexists _, _, _; reflexivity.
Qed.

(** X1. On a document whose two blobs decode (or are absent),
    [initializePlugin] leaves exactly the decoded collections in memory,
    whatever memory held before, binds the session to the live document
    identity, leaves the document as it is, notifies nothing and sends
    the two collections to the UI. *)
Theorem initializePlugin_loads_the_document b w ds rs :
  loadDecisions (savedDecisions (figma w)) = Some ds ->
  loadResources (savedResources (figma w)) = Some rs ->
  fst (initializePlugin b w) = mkWorld ds rs (documentIdentity b (figma w)) (figma w) /\
  List.filter is_notify (snd (initializePlugin b w)) = [] /\
  In (postMessage (load_decisions ds (Some (documentIdentity b (figma w)))
                     (fileName b (figma w))))
     (snd (initializePlugin b w)) /\
  In (postMessage (load_resources rs)) (snd (initializePlugin b w)).
Proof.
  intros Hd Hr. unfold initializePlugin. rewrite Hd, Hr. cbn [fst snd decisions figma].
  destruct (sendSelectionInfo_shape (figma w)) as (a & n & pg & ->).
  split_and!.
  - reflexivity.
  - destruct b, ds; reflexivity.
  - left. reflexivity.
  - right. left. reflexivity.
Qed.

Lemma initializePlugin_loads_the_document_witness :
  loadDecisions (savedDecisions stocked_document)
  = Some [a_decision "16" "Spacing" "Bob" 16;
          a_decision "17" "Use dark mode default" "Ada" 17] /\
  loadResources (savedResources stocked_document) = Some [contrast_guide] /\
  fst (initializePlugin Source
         (mkWorld [a_decision "99" "Left over" "Eve" 99] [] "another-file"
                  stocked_document))
  = mkWorld [a_decision "16" "Spacing" "Bob" 16;
             a_decision "17" "Use dark mode default" "Ada" 17]
            [contrast_guide] "kQ7file" stocked_document.
Proof.
  assert (Hd : loadDecisions (savedDecisions stocked_document)
               = Some [a_decision "16" "Spacing" "Bob" 16;
                       a_decision "17" "Use dark mode default" "Ada" 17])
    by (vm_compute; reflexivity).
  assert (Hr : loadResources (savedResources stocked_document) = Some [contrast_guide])
    by (vm_compute; reflexivity).
  split; [ exact Hd | split; [ exact Hr | ] ].
  exact (proj1 (initializePlugin_loads_the_document Source
                  (mkWorld [a_decision "99" "Left over" "Eve" 99] [] "another-file"
                           stocked_document) _ _ Hd Hr)).
Defined.

(** X2. When [JSON.parse] throws on either blob (something is stored
    under the key, and it is not JSON), [initializePlugin] empties both
    collections, whatever the other blob holds, still binds the session
    to the live document identity, and notifies the user once, with
    "Error loading saved data". *)
Theorem initializePlugin_resets_both_on_damaged_blob b w :
  parseThrows (savedDecisions (figma w)) = true \/
  parseThrows (savedResources (figma w)) = true ->
  fst (initializePlugin b w) = mkWorld [] [] (documentIdentity b (figma w)) (figma w) /\
  List.filter is_notify (snd (initializePlugin b w))
  = [notify "Error loading saved data" false].
Proof.
  intros H. unfold initializePlugin, loadFailed.
  destruct (sendSelectionInfo_shape (figma w)) as (a & n & pg & Hsel).
  destruct (loadDecisions (savedDecisions (figma w))) as [ds | ] eqn:Hd.
  - destruct H as [H | H];
      [ rewrite (proj1 (parseThrows_load _ H)) in Hd; discriminate Hd | ].
    rewrite (proj2 (parseThrows_load _ H)).
    cbn [fst snd decisions figma]. rewrite Hsel. split; [ reflexivity | ].
    destruct b; reflexivity.
  - cbn [fst snd decisions figma]. rewrite Hsel. split; [ reflexivity | ].
    destruct b; reflexivity.
Qed.

Lemma initializePlugin_resets_both_on_damaged_blob_witness :
  (parseThrows (savedDecisions damaged_document) = true \/
   parseThrows (savedResources damaged_document) = true) /\
  fst (initializePlugin Compiled
         (mkWorld [a_decision "99" "Left over" "Eve" 99] [contrast_guide] "0:0"
                  damaged_document))
  = mkWorld [] [] "0:0" damaged_document.
Proof.
  assert (H : parseThrows (savedDecisions damaged_document) = true \/
              parseThrows (savedResources damaged_document) = true)
    by (right; vm_compute; reflexivity).
  split; [ exact H | ].
  exact (proj1 (initializePlugin_resets_both_on_damaged_blob Compiled
                  (mkWorld [a_decision "99" "Left over" "Eve" 99] [contrast_guide] "0:0"
                           damaged_document) H)).
Defined.

(** X3. Whatever the document holds, the last [load-decisions] and the
    last [load-resources] message that [initializePlugin] sends carry the
    collections it leaves in memory: after a load the UI shows what memory
    holds, also when a first message was sent before the load failed. *)
Theorem initializePlugin_tells_the_UI_what_memory_holds b w :
  last_load_decisions (snd (initializePlugin b w))
  = Some (decisions (fst (initializePlugin b w))) /\
  last_load_resources (snd (initializePlugin b w))
  = Some (resources (fst (initializePlugin b w))).
Proof.
  unfold initializePlugin, loadFailed.
  destruct (sendSelectionInfo_shape (figma w)) as (a & n & pg & Hsel).
  destruct (loadDecisions (savedDecisions (figma w))) as [ds | ];
    [ destruct (loadResources (savedResources (figma w))) as [rs | ] | ];
    cbn [fst snd decisions resources figma]; rewrite Hsel;
    destruct b; try destruct ds; split; reflexivity.
Qed.

(** X4. [initializePlugin] is a full reload: it reads the world through
    the document alone, so two sessions on the same document end in the
    same state and send the same effects whatever they held before, and
    running it a second time changes nothing. *)
Theorem initializePlugin_is_full_reload b w :
  (forall w', figma w' = figma w -> initializePlugin b w' = initializePlugin b w) /\
  initializePlugin b (fst (initializePlugin b w)) = initializePlugin b w.
Proof.
  split.
  - intros w' H. apply initializePlugin_reads_document_only. exact H.
  - apply initializePlugin_reads_document_only. apply initializePlugin_figma.
Qed.

End Loader.

(* ===================================================================== *)
(** * Sessions: what a run keeps *)
(* ===================================================================== *)

Section Sessions.

Lemma only_blobs_differ_refl f : only_blobs_differ f f.
Proof. repeat split. Qed.

Lemma only_blobs_differ_trans f1 f2 f3 :
  only_blobs_differ f1 f2 -> only_blobs_differ f2 f3 -> only_blobs_differ f1 f3.
Proof.
  intros (A1 & A2 & A3 & A4 & A5) (B1 & B2 & B3 & B4 & B5).
  split_and!; try congruence.
  intros ns key H1 H2. rewrite B5, A5 by assumption. reflexivity.
Qed.

Lemma save_only_blobs_differ key blob failure env w :
  key = DECISIONS_KEY \/ key = RESOURCES_KEY ->
  only_blobs_differ (figma w) (figma (snd (fst (save key blob failure env w)))).
Proof.
  intros Hkey. unfold save. destruct (write_ok env); [ | apply only_blobs_differ_refl ].
  cbn [fst snd with_figma figma]. split_and!; try reflexivity.
  intros ns k H1 H2. unfold Figma.getSharedPluginData, Figma.stored. cbn.
  rewrite lookup_insert_ne; [ reflexivity | ].
  destruct Hkey as [-> | ->]; congruence.
Qed.

Lemma handle_only_blobs_differ b env msg w :
  only_blobs_differ (figma w) (figma (fst (handle b env msg w))).
Proof.
  destruct msg; cbn [handle]; try apply only_blobs_differ_refl;
    try (destruct (list_find _ _) as [[index stored] | ];
         [ | apply only_blobs_differ_refl ]);
    unfold saveDecisionsToDocument, saveResourcesToDocument;
    match goal with |- context [save ?k ?bl ?f env ?w1] =>
      pose proof (save_only_blobs_differ k bl f env w1) as Hs;
      destruct (save k bl f env w1) as [[ok w2] out] end;
    cbn [fst snd with_decisions with_resources figma] in *;
    destruct ok; apply Hs; auto.
Qed.

Lemma handle_keeps_cached_identity b env msg w :
  currentDocumentId (fst (handle b env msg w)) = currentDocumentId w.
Proof.
  destruct msg; cbn [handle]; try reflexivity;
    try (destruct (list_find _ _) as [[index stored] | ]; [ | reflexivity ]);
    unfold saveDecisionsToDocument, saveResourcesToDocument;
    match goal with |- context [save ?k ?bl ?f env ?w1] =>
      pose proof (save_memory k bl f env w1) as (_ & _ & Hs);
      destruct (save k bl f env w1) as [[ok w2] out] end;
    cbn [fst snd with_decisions with_resources currentDocumentId] in *;
    destruct ok; exact Hs.
Qed.

Lemma onmessage_only_blobs_differ b env msg w :
  only_blobs_differ (figma w) (figma (fst (onmessage b env msg w))).
Proof.
  unfold onmessage. pose proof (checkForDocumentChange_figma b w) as Hc.
  destruct (checkForDocumentChange b w) as [w1 out1]. cbn [fst] in Hc.
  pose proof (handle_only_blobs_differ b env msg w1) as Hh.
  destruct (handle b env msg w1) as [w2 out2]. cbn [fst] in *.
  rewrite Hc in Hh. exact Hh.
Qed.

Lemma deliver_only_blobs_differ b o env msg w :
  only_blobs_differ (figma w) (figma (fst (deliver b o env msg w))).
Proof.
  unfold deliver, onmessage_listener. destruct o.
  - pose proof (checkForDocumentChange_figma b w) as Hc.
    destruct (checkForDocumentChange b w) as [w1 out1]. cbn [fst] in Hc.
    pose proof (onmessage_only_blobs_differ b env msg w1) as Hh.
    destruct (onmessage b env msg w1) as [w2 out2]. cbn [fst] in *.
    rewrite Hc in Hh. exact Hh.
  - pose proof (onmessage_only_blobs_differ b env msg w) as Hh.
    destruct (onmessage b env msg w) as [w1 out1]. cbn [fst] in Hh.
    pose proof (checkForDocumentChange_figma b w1) as Hc.
    destruct (checkForDocumentChange b w1) as [w2 out2]. cbn [fst] in *.
    rewrite Hc. exact Hh.
Qed.

Lemma run_only_blobs_differ b o trace w :
  only_blobs_differ (figma w) (figma (fst (run b o trace w))).
Proof.
  revert w. induction trace as [ | [env msg] trace IH ]; intros w;
    [ apply only_blobs_differ_refl | ].
  cbn [run]. pose proof (deliver_only_blobs_differ b o env msg w) as H1.
  destruct (deliver b o env msg w) as [w1 out1]. cbn [fst] in H1.
  specialize (IH w1). destruct (run b o trace w1) as [w2 out2]. cbn [fst] in *.
  exact (only_blobs_differ_trans _ _ _ H1 IH).
Qed.

(** X6. Of the plugin data of the document, a session writes its two
    blobs and nothing else: after any sequence of UI messages, in either
    version and listener order, whether saves succeed or fail, every
    other entry of the shared plugin data (another key, another
    namespace) reads as before; and the identity of the document and the
    user are those of the start, which no handler can assign. *)
Theorem session_writes_only_its_two_blobs b o trace w :
  Figma.root_id (figma (fst (run b o trace w))) = Figma.root_id (figma w) /\
  Figma.fileKey (figma (fst (run b o trace w))) = Figma.fileKey (figma w) /\
  Figma.currentUser (figma (fst (run b o trace w))) = Figma.currentUser (figma w) /\
  forall namespace key,
    (namespace, key) ≠ (PLUGIN_NAMESPACE, DECISIONS_KEY) ->
    (namespace, key) ≠ (PLUGIN_NAMESPACE, RESOURCES_KEY) ->
    Figma.getSharedPluginData namespace key (figma (fst (run b o trace w)))
    = Figma.getSharedPluginData namespace key (figma w).
Proof.
  destruct (run_only_blobs_differ b o trace w) as (H1 & _ & H3 & H4 & H5).
  split_and!; assumption.
Qed.

Lemma initializePlugin_binds b w :
  currentDocumentId (fst (initializePlugin b w)) = documentIdentity b (figma w).
Proof.
  unfold initializePlugin, loadFailed.
  destruct (loadDecisions _); [ destruct (loadResources _) | ]; reflexivity.
Qed.

Lemma handle_announces_no_reload b env msg w :
  reloads (snd (handle b env msg w)) = 0%nat.
Proof.
  destruct msg; cbn [handle];
    try (destruct (list_find _ _) as [[index stored] | ]);
    unfold saveDecisionsToDocument, saveResourcesToDocument, save,
           created, updated, deleted;
    try destruct (write_ok env); try destruct b; cbn [snd];
    try destruct (truthy (or_else _ _));
    try reflexivity;
    (destruct nodeId as [node | ]; [ | reflexivity ]);
    (destruct (truthy node); [ | reflexivity ]);
    destruct (getNodeById env) as [ | | [page | ] selectable | page ]; reflexivity.
Qed.

Lemma reloads_app out1 out2 :
  reloads (out1 ++ out2) = (reloads out1 + reloads out2)%nat.
Proof. unfold reloads. rewrite List.filter_app, length_app. reflexivity. Qed.

(** In [code.js], a session bound to its document stays bound and is
    never reloaded. *)
Lemma compiled_run_stays_bound o trace w :
  currentDocumentId w = Figma.root_id (figma w) ->
  reloads (snd (run Compiled o trace w)) = 0%nat /\
  currentDocumentId (fst (run Compiled o trace w)) = Figma.root_id (figma w) /\
  fst (run Compiled o trace w) = handle_each Compiled trace w.
Proof.
  revert w. induction trace as [ | [env msg] trace IH ]; intros w Hw;
    [ repeat split; exact Hw | ].
  assert (Hstep : deliver Compiled o env msg w = handle Compiled env msg w).
  { pose proof (compiled_detector_leaves_unchanged_document w Hw) as Hc.
    pose proof (handle_keeps_cached_identity Compiled env msg w) as Hk.
    pose proof (handle_only_blobs_differ Compiled env msg w) as (Hroot & _).
    unfold deliver, onmessage_listener, onmessage. destruct o.
    - rewrite Hc, Hc. destruct (handle Compiled env msg w) as [w1 out1]. reflexivity.
    - rewrite Hc. destruct (handle Compiled env msg w) as [w1 out1].
      cbn [fst] in *.
      rewrite (compiled_detector_leaves_unchanged_document w1)
        by (unfold documentIdentity; congruence).
      rewrite app_nil_r. reflexivity. }
  cbn [run handle_each]. rewrite Hstep.
  pose proof (handle_keeps_cached_identity Compiled env msg w) as Hk.
  pose proof (handle_only_blobs_differ Compiled env msg w) as (Hroot & _).
  pose proof (handle_announces_no_reload Compiled env msg w) as Hr.
  destruct (handle Compiled env msg w) as [w1 out1]. cbn [fst snd] in *.
  destruct (IH w1) as (IH1 & IH2 & IH3); [ congruence | ].
  destruct (run Compiled o trace w1) as [w2 out2]. cbn [fst snd] in *.
  rewrite reloads_app, Hr, IH1. split_and!; [ reflexivity | congruence | exact IH3 ].
Qed.

(** X5. In [code.js] a session on one document is loaded once, at
    start-up: whatever the UI sends afterwards, and whether saves succeed
    or fail, the detector never fires again, the session stays bound to
    the identity of the document, and the messages are handled by the
    [switch] alone, one after the other. *)
Theorem compiled_session_is_loaded_once o trace f :
  reloads (snd (run Compiled o trace (fst (boot Compiled f)))) = 0%nat /\
  currentDocumentId (fst (run Compiled o trace (fst (boot Compiled f))))
  = Figma.root_id f /\
  fst (run Compiled o trace (fst (boot Compiled f)))
  = handle_each Compiled trace (fst (boot Compiled f)).
Proof.
  assert (Hf : figma (fst (boot Compiled f)) = f) by apply initializePlugin_figma.
  assert (Hb : currentDocumentId (fst (boot Compiled f))
               = Figma.root_id (figma (fst (boot Compiled f)))).
  { unfold boot. rewrite initializePlugin_binds, initializePlugin_figma. reflexivity. }
  destruct (compiled_run_stays_bound o trace _ Hb) as (H1 & H2 & H3).
  rewrite Hf in H2. split_and!; assumption.
Qed.

End Sessions.

(* ===================================================================== *)
(** * Commands: what each one touches, and what a failed save leaves *)
(* ===================================================================== *)

Section Commands.

Ltac written Hok :=
  let w' := fresh "w'" in
  let Heq := fresh "Heq" in
  match goal with
  | |- context [saveDecisionsToDocument _ ?w1] =>
      destruct (saveDecisions_ok _ w1 Hok) as (w' & Heq & ? & ? & ? & ? & ?)
  | |- context [saveResourcesToDocument _ ?w1] =>
      destruct (saveResources_ok _ w1 Hok) as (w' & Heq & ? & ? & ? & ? & ?)
  end;
  rewrite Heq;
  cbn [fst snd with_resources with_decisions with_figma
       figma decisions resources currentDocumentId] in *.

Ltac navigation nodeId env :=
  let node := fresh "node" in
  let page := fresh "page" in
  let selectable := fresh "selectable" in
  destruct nodeId as [node | ];
  [ destruct (truthy node);
    [ destruct (getNodeById env) as [ | | [page | ] selectable | page ] | ] | ].

(** X7. A message that is not a resource command leaves the resources
    alone: the collection in memory and the persisted resource blob are
    what they were, whether or not the message's own save succeeds. *)
Theorem other_messages_leave_resources b env msg w :
  about_resources msg = false ->
  resources (fst (handle b env msg w)) = resources w /\
  savedResources (figma (fst (handle b env msg w))) = savedResources (figma w).
Proof.
  destruct msg; try discriminate; intros _; cbn [handle];
    try (destruct (list_find _ _) as [[index stored] | ]);
    try (split; reflexivity);
    unfold saveDecisionsToDocument, save; destruct (write_ok env);
    cbn [fst snd with_decisions with_figma figma resources];
    rewrite ?savedResources_stored_decisions; split; reflexivity.
Qed.

Lemma other_messages_leave_resources_witness :
  about_resources (delete_decision "16") = false /\
  resources (fst (handle Source (at_time 1700000000900) (delete_decision "16")
                    (fst (boot Source stocked_document))))
  = resources (fst (boot Source stocked_document)) /\
  savedResources (figma (fst (handle Source (at_time 1700000000900) (delete_decision "16")
                                (fst (boot Source stocked_document)))))
  = savedResources (figma (fst (boot Source stocked_document))).
Proof.
  split; [ reflexivity | ].
  apply (other_messages_leave_resources Source (at_time 1700000000900)
           (delete_decision "16") (fst (boot Source stocked_document))).
  reflexivity.
Defined.

(** X8. A message that is not a decision command leaves the decisions
    alone: the collection in memory and the persisted decision blob are
    what they were, whether or not the message's own save succeeds. *)
Theorem other_messages_leave_decisions b env msg w :
  about_decisions msg = false ->
  decisions (fst (handle b env msg w)) = decisions w /\
  savedDecisions (figma (fst (handle b env msg w))) = savedDecisions (figma w).
Proof.
  destruct msg; try discriminate; intros _; cbn [handle];
    try (destruct (list_find _ _) as [[index stored] | ]);
    try (split; reflexivity);
    unfold saveResourcesToDocument, save; destruct (write_ok env);
    cbn [fst snd with_resources with_figma figma decisions];
    rewrite ?savedDecisions_stored_resources; split; reflexivity.
Qed.

Lemma other_messages_leave_decisions_witness :
  about_decisions (delete_resource "15") = false /\
  decisions (fst (handle Compiled (at_time 1700000000900) (delete_resource "15")
                    (fst (boot Compiled stocked_document))))
  = decisions (fst (boot Compiled stocked_document)) /\
  savedDecisions (figma (fst (handle Compiled (at_time 1700000000900) (delete_resource "15")
                                (fst (boot Compiled stocked_document)))))
  = savedDecisions (figma (fst (boot Compiled stocked_document))).
Proof.
  split; [ reflexivity | ].
  apply (other_messages_leave_decisions Compiled (at_time 1700000000900)
           (delete_resource "15") (fst (boot Compiled stocked_document))).
  reflexivity.
Defined.




(** X10. A command changes the collection in memory before it saves and
    does not take the change back: the collections after a command whose
    write throws are those after the same command, at the same clock
    readings, whose write goes through. *)
Theorem memory_changes_whether_or_not_the_save_succeeds b t t' l l' msg w :
  decisions (fst (handle b (mkEnv t t' false l) msg w))
  = decisions (fst (handle b (mkEnv t t' true l') msg w)) /\
  resources (fst (handle b (mkEnv t t' false l) msg w))
  = resources (fst (handle b (mkEnv t t' true l') msg w)).
Proof.
  destruct msg; cbn [handle];
    try (destruct (list_find _ _) as [[index stored] | ]);
    unfold saveDecisionsToDocument, saveResourcesToDocument, save;
    cbn [write_ok Date_now Date_now' fst snd with_decisions with_resources with_figma
         decisions resources];
    split; reflexivity.
Qed.

(** X11. A command whose write goes through brings its collection back in
    step with the document, whatever went before (for one, a run of
    failed saves): afterwards the blob of the collection decodes to the
    collection in memory. An edit that finds no record writes nothing and
    is excepted. *)
Theorem successful_command_resynchronises_its_collection b env msg w :
  write_ok env = true -> ¬ edits_nothing msg w ->
  (about_decisions msg = true -> decisions_in_sync (fst (handle b env msg w))) /\
  (about_resources msg = true -> resources_in_sync (fst (handle b env msg w))).
Proof.
  intros Hok Hmiss.
  split; intros Hcmd; destruct msg; try discriminate Hcmd; cbn [handle];
    try (destruct (list_find _ _) as [[index stored] | ] eqn:E;
         [ | exfalso; apply Hmiss; cbn [edits_nothing];
             exact (proj1 (list_find_None _ _) E) ]);
    written Hok; assumption.
Qed.

Lemma successful_command_resynchronises_its_collection_witness :
  write_ok (at_time 1700000000900) = true /\
  ¬ edits_nothing compact_nav unsaved_world /\
  ¬ decisions_in_sync unsaved_world /\
  decisions_in_sync (fst (handle Compiled (at_time 1700000000900) compact_nav unsaved_world)).
Proof.
  split; [ reflexivity | ].
  split; [ intros [] | ].
  split; [ vm_compute; discriminate | ].
  apply (successful_command_resynchronises_its_collection Compiled
           (at_time 1700000000900) compact_nav unsaved_world eq_refl).
  - intros [].
  - reflexivity.
Defined.

End Commands.

(* ===================================================================== *)
(** * Records: resources, ids, and what the events report *)
(* ===================================================================== *)

Section Records.

(** X12. Editing the stored resource [r] (the first record that carries
    the id of the payload [p]) replaces it in place by a record with the
    id and the author of [r], whatever author [p] supplies, the other
    fields of [p], and the time of the edit; the records around it stay,
    whether or not the save succeeds. *)
Theorem edit_resource_keeps_id_and_author b env p r before after w :
  resources w = before ++ r :: after ->
  Forall (λ x, Resource.id x ≠ Resource.id p) before ->
  Resource.id p = Resource.id r ->
  resources (fst (handle b env (edit_resource p) w))
  = before
    ++ Resource.mk (Resource.id r) (Resource.title p) (Resource.description p)
         (Resource.url p) (Resource.category p) (Date_now env) (Resource.author r)
         (Resource.tags p)
    :: after.
Proof.
  intros Hw Hbefore Hid. cbn [handle]. rewrite Hw.
  rewrite (list_find_first (λ x, Resource.id x = Resource.id p) before after r)
    by (assumption || (symmetry; assumption)).
  unfold saveResourcesToDocument.
  match goal with |- context [save ?k ?bl ?f env ?w1] =>
    pose proof (save_memory k bl f env w1) as (_ & Hm & _);
    destruct (save k bl f env w1) as [[ok w2] out] end.
  cbn [fst snd with_resources resources] in Hm.
  rewrite insert_middle in Hm. unfold Resource.refreshed in Hm. rewrite Hid in Hm.
  destruct ok; exact Hm.
Qed.

Lemma edit_resource_keeps_id_and_author_witness :
  resources (fst (handle Compiled (at_time_failing 1700000000500)
                    (edit_resource
                       (Resource.mk "15" "Contrast" "AA and AAA" "https://example.org/aa"
                          "Colour" 0 "Mallory" None))
                    (mkWorld [] [contrast_guide] "0:0" blank_document)))
  = [Resource.mk "15" "Contrast" "AA and AAA" "https://example.org/aa" "Colour"
       1700000000500 "Bob" None].
Proof.
  apply (edit_resource_keeps_id_and_author Compiled (at_time_failing 1700000000500)
           (Resource.mk "15" "Contrast" "AA and AAA" "https://example.org/aa"
              "Colour" 0 "Mallory" None)
           contrast_guide [] []
           (mkWorld [] [contrast_guide] "0:0" blank_document)).
  - reflexivity.
  - constructor.
  - reflexivity.
Defined.

(** X13. An id that no stored resource carries: an edit with it is a
    silent no-op (nothing changed, saved, sent or notified), and a delete
    of it leaves the collection in memory as it was. *)
Theorem missing_resource_id_changes_no_record b env p w :
  Forall (λ r, Resource.id r ≠ Resource.id p) (resources w) ->
  handle b env (edit_resource p) w = (w, []) /\
  resources (fst (handle b env (delete_resource (Resource.id p)) w)) = resources w.
Proof.
  intros Hnone. split.
  - cbn [handle]. rewrite (proj2 (list_find_None _ _) Hnone). reflexivity.
  - rewrite delete_resource_memory. apply filter_all. exact Hnone.
Qed.

Lemma missing_resource_id_changes_no_record_witness :
  handle Source (at_time 1700000000500)
    (edit_resource (Resource.mk "99" "Contrast" "AA" "https://example.org/aa"
                      "Colour" 0 "Mallory" None))
    (mkWorld [] [contrast_guide] "kQ7file" blank_document)
  = (mkWorld [] [contrast_guide] "kQ7file" blank_document, []) /\
  resources (fst (handle Source (at_time 1700000000500) (delete_resource "99")
                    (mkWorld [] [contrast_guide] "kQ7file" blank_document)))
  = [contrast_guide].
Proof.
  apply (missing_resource_id_changes_no_record Source (at_time 1700000000500)
           (Resource.mk "99" "Contrast" "AA" "https://example.org/aa"
              "Colour" 0 "Mallory" None)
           (mkWorld [] [contrast_guide] "kQ7file" blank_document)).
  repeat constructor. vm_compute. discriminate.
Defined.

(** X14. A delete does not look whether the id exists: for an id that no
    record carries it still writes the blob once and, the write having
    gone through, reports the deletion as a success; the source then has
    no title to look for and leaves the visual log alone. *)
Theorem delete_of_missing_id_reports_success b env i w :
  write_ok env = true ->
  Forall (λ d, Decision.id d ≠ i) (decisions w) ->
  snd (handle b env (delete_decision i) w)
  = [setSharedPluginData DECISIONS_KEY (Decision.stringify (decisions w));
     postMessage (decision_deleted i);
     notify "Decision deleted successfully" false] /\
  snd (handle b env (delete_resource i) w)
  = [setSharedPluginData RESOURCES_KEY
       (Resource.stringify (filter (λ r, Resource.id r ≠ i) (resources w)));
     postMessage (resource_deleted i);
     notify "Resource deleted successfully" false].
Proof.
  intros Hok Hnone. split; cbn [handle];
    unfold saveDecisionsToDocument, saveResourcesToDocument, save; rewrite Hok;
    cbn [fst snd with_decisions with_resources decisions resources]; [ | reflexivity ].
  rewrite (proj2 (list_find_None _ _)) by (eapply Forall_impl; [ exact Hnone | auto ]).
  rewrite filter_all by exact Hnone.
  unfold deleted. destruct b; reflexivity.
Qed.

Lemma delete_of_missing_id_reports_success_witness :
  snd (handle Source (at_time 1700000000900) (delete_decision "99")
         (mkWorld [a_decision "17" "Use dark mode default" "Ada" 17] []
                  "kQ7file" blank_document))
  = [setSharedPluginData DECISIONS_KEY
       (Decision.stringify [a_decision "17" "Use dark mode default" "Ada" 17]);
     postMessage (decision_deleted "99");
     notify "Decision deleted successfully" false].
Proof.
  apply (delete_of_missing_id_reports_success Source (at_time 1700000000900) "99"
           (mkWorld [a_decision "17" "Use dark mode default" "Ada" 17] []
                    "kQ7file" blank_document)).
  - reflexivity.
  - repeat constructor. vm_compute. discriminate.
Defined.

(** The ids after one message: those before, less the deleted ones, and
    the clock reading of a create at the end. *)
Lemma handle_decision_ids b env msg w :
  (Decision.id <$> decisions (fst (handle b env msg w)))
  `sublist_of`
  (Decision.id <$> decisions w)
  ++ (if is_create_decision msg then [toString (Date_now env)] else []).
Proof.
  destruct msg; cbn [handle is_create_decision]; rewrite ?app_nil_r;
    try (destruct (list_find _ _) as [[index stored] | ] eqn:E);
    unfold saveDecisionsToDocument, saveResourcesToDocument, save;
    destruct (write_ok env);
    cbn [fst snd with_decisions with_resources with_figma decisions];
    try reflexivity.
  - rewrite fmap_app. reflexivity.
  - rewrite fmap_app. reflexivity.
  - apply list_find_Some in E as (Hlook & Hid & _).
    rewrite list_fmap_insert. cbn [Decision.refreshed Decision.id].
    rewrite list_insert_id; [ reflexivity | ].
    rewrite list_lookup_fmap, Hlook. cbn. congruence.
  - apply list_find_Some in E as (Hlook & Hid & _).
    rewrite list_fmap_insert. cbn [Decision.refreshed Decision.id].
    rewrite list_insert_id; [ reflexivity | ].
    rewrite list_lookup_fmap, Hlook. cbn. congruence.
  - apply fmap_sublist, sublist_filter.
  - apply fmap_sublist, sublist_filter.
  - apply fmap_sublist, sublist_filter.
  - apply fmap_sublist, sublist_filter.
Qed.

Lemma handle_each_decision_ids b steps w :
  (Decision.id <$> decisions (handle_each b steps w))
  `sublist_of`
  (Decision.id <$> decisions w) ++ (toString <$> create_readings steps).
Proof.
  revert w. induction steps as [ | [env msg] steps IH ]; intros w.
  - cbn. rewrite app_nil_r. reflexivity.
  - cbn [handle_each]. etransitivity; [ apply IH | ].
    unfold create_readings. cbn [List.filter snd fst].
    pose proof (handle_decision_ids b env msg w) as H.
    destruct (is_create_decision msg).
    + rewrite fmap_cons, fmap_cons. cbn [fst].
      rewrite (app_assoc _ [_] _ : _ ++ _ :: _ = _).
      apply sublist_app; [ exact H | reflexivity ].
    + rewrite app_nil_r in H. apply sublist_app; [ exact H | reflexivity ].
Qed.

(** X15. Ids stay distinct as long as the clock does its part: if the
    stored ids are pairwise distinct, the creates of a sequence of
    commands read pairwise distinct clock values, and no stored id is the
    text of one of these readings, then the ids are pairwise distinct
    after the sequence, and each of them is a stored id or the text of
    such a reading. Edits and deletes never make a new id. *)
Theorem decision_ids_stay_distinct b steps w :
  NoDup (Decision.id <$> decisions w) ->
  NoDup (create_readings steps) ->
  Forall (λ d, Forall (λ t, Decision.id d ≠ toString t) (create_readings steps))
         (decisions w) ->
  NoDup (Decision.id <$> decisions (handle_each b steps w)) /\
  Forall (λ d, Decision.id d ∈ (Decision.id <$> decisions w)
               \/ exists t, t ∈ create_readings steps /\ Decision.id d = toString t)
         (decisions (handle_each b steps w)).
Proof.
  intros Hids Hreadings Hfresh.
  pose proof (handle_each_decision_ids b steps w) as Hsub. split.
  - eapply sublist_NoDup; [ | exact Hsub ].
    apply NoDup_app. split_and!.
    + exact Hids.
    + intros i Hi Hi'.
      apply list_elem_of_fmap in Hi as (d & -> & Hd).
      apply list_elem_of_fmap in Hi' as (t & Heq & Ht).
      rewrite Forall_forall in Hfresh. specialize (Hfresh d Hd).
      rewrite Forall_forall in Hfresh. exact (Hfresh t Ht Heq).
    + apply NoDup_fmap_2; [ | exact Hreadings ].
      intros t t' Heq. exact (toString_inj _ _ Heq).
  - apply Forall_forall. intros d Hd.
    assert (Hin : Decision.id d ∈ (Decision.id <$> decisions (handle_each b steps w))).
    { apply list_elem_of_fmap. exists d. split; [ reflexivity | exact Hd ]. }
    apply (λ H, elem_of_sublist _ _ _ H Hsub) in Hin.
    apply elem_of_app in Hin as [Hin | Hin]; [ left; exact Hin | right ].
    apply list_elem_of_fmap in Hin as (t & Heq & Ht). exists t. split; assumption.
Qed.

Lemma decision_ids_stay_distinct_witness :
  Decision.id <$>
    decisions (handle_each Compiled
                 [(at_time 1700000000000, dark_mode);
                  (at_time 1700000000500,
                   edit_decision (a_decision "17" "Dark mode" "Mallory" 0));
                  (at_time 1700000000700, compact_nav);
                  (at_time 1700000000900, delete_decision "16")]
                 (mkWorld [a_decision "16" "Spacing" "Bob" 16;
                           a_decision "17" "Use dark mode default" "Ada" 17]
                          [] "0:0" blank_document))
  = ["17"; "1700000000000"; "1700000000700"]%string /\
  NoDup (Decision.id <$>
           decisions (handle_each Compiled
                        [(at_time 1700000000000, dark_mode);
                         (at_time 1700000000500,
                          edit_decision (a_decision "17" "Dark mode" "Mallory" 0));
                         (at_time 1700000000700, compact_nav);
                         (at_time 1700000000900, delete_decision "16")]
                        (mkWorld [a_decision "16" "Spacing" "Bob" 16;
                                  a_decision "17" "Use dark mode default" "Ada" 17]
                                 [] "0:0" blank_document))).
Proof.
  split; [ vm_compute; reflexivity | ].
  apply (decision_ids_stay_distinct Compiled
           [(at_time 1700000000000, dark_mode);
            (at_time 1700000000500,
             edit_decision (a_decision "17" "Dark mode" "Mallory" 0));
            (at_time 1700000000700, compact_nav);
            (at_time 1700000000900, delete_decision "16")]
           (mkWorld [a_decision "16" "Spacing" "Bob" 16;
                     a_decision "17" "Use dark mode default" "Ada" 17]
                    [] "0:0" blank_document)).
  - apply (bool_decide_eq_true_1 _). vm_compute. reflexivity.
  - apply (bool_decide_eq_true_1 _). vm_compute. reflexivity.
  - apply (bool_decide_eq_true_1 _). vm_compute. reflexivity.
Defined.

End Records.

(* ===================================================================== *)
(** * Queries, navigation and the selection *)
(* ===================================================================== *)

Section Queries.

Ltac navigation nodeId env :=
  let node := fresh "node" in
  let page := fresh "page" in
  let selectable := fresh "selectable" in
  destruct nodeId as [node | ];
  [ destruct (truthy node) eqn:?;
    [ destruct (getNodeById env) as [ | | [page | ] selectable | page ] eqn:? | ] | ].

Ltac pick H :=
  cbn [app In] in H;
  repeat (destruct H as [H | H]; try discriminate H); try contradiction.

Ltac reports :=
  split_and!;
  [ intros d [H | H] | intros i H | intros r [H | H] | intros i H | intros H ].

(** X16. A message that is not a create, edit or delete leaves the store
    alone: the two collections and the cached identity are what they
    were, the plugin data of the document are untouched and
    [setSharedPluginData] is not called, no record is reported as changed
    and the visual log is not called. A message whose type the [switch]
    has no case for has no effect at all. *)
Theorem queries_leave_the_store_alone b env msg w :
  is_command msg = false ->
  decisions (fst (handle b env msg w)) = decisions w /\
  resources (fst (handle b env msg w)) = resources w /\
  currentDocumentId (fst (handle b env msg w)) = currentDocumentId w /\
  Figma.sharedPluginData (figma (fst (handle b env msg w)))
  = Figma.sharedPluginData (figma w) /\
  save_calls (snd (handle b env msg w)) = 0%nat /\
  List.filter is_success (snd (handle b env msg w)) = [] /\
  List.filter is_visualLog (snd (handle b env msg w)) = [] /\
  (forall type, msg = unhandled type -> type ∉ handled_types ->
                handle b env msg w = (w, [])).
Proof.
  intros Hcmd. destruct msg; try discriminate Hcmd; cbn [handle fst snd];
    split_and!; try reflexivity; try (intros type' H; discriminate H);
    try (destruct b; reflexivity);
    navigation nodeId env; reflexivity.
Qed.

Lemma queries_leave_the_store_alone_witness :
  is_command (navigate_to_node (Some "4:12") (Some "Page 1")) = false /\
  decisions (fst (handle Source (mkEnv 0 0 true (found (Some "Flows") true))
                    (navigate_to_node (Some "4:12") (Some "Page 1"))
                    (fst (boot Source stocked_document))))
  = decisions (fst (boot Source stocked_document)) /\
  save_calls (snd (handle Source (mkEnv 0 0 true (found (Some "Flows") true))
                     (navigate_to_node (Some "4:12") (Some "Page 1"))
                     (fst (boot Source stocked_document))))
  = 0%nat.
Proof.
  split; [ reflexivity | ].
  destruct (queries_leave_the_store_alone Source
              (mkEnv 0 0 true (found (Some "Flows") true))
              (navigate_to_node (Some "4:12") (Some "Page 1"))
              (fst (boot Source stocked_document)) eq_refl)
    as (Hd & _ & _ & _ & Hs & _).
  split; assumption.
Defined.

(** X17. Navigation selects a node only below a page it has reached: the
    deferred selection is scheduled exactly when the id is non-empty, the
    node is found, a page lies above it and the switch to that page goes
    through, and then nothing is notified at once. With a non-empty id
    in every other case (the lookup rejects, no node, no page above it,
    the page switch rejects) nothing is scheduled and there is exactly
    one notification, flagged as an error. With no id or an empty one
    nothing happens at all. The page name sent with the message is never
    used. *)
Theorem navigation_selects_only_below_a_reached_page b env nodeId pageName w :
  (List.filter is_setTimeout (snd (handle b env (navigate_to_node nodeId pageName) w)) ≠ []
   <-> exists node page selectable,
         nodeId = Some node /\ truthy node = true /\
         getNodeById env = found (Some page) selectable) /\
  (forall node page selectable,
     nodeId = Some node -> truthy node = true ->
     getNodeById env = found (Some page) selectable ->
     exists callback,
       snd (handle b env (navigate_to_node nodeId pageName) w)
       = [setCurrentPage page; setTimeout 200 callback] /\
       (callback = None <-> selectable = false)) /\
  (forall node,
     nodeId = Some node -> truthy node = true ->
     (forall page selectable, getNodeById env ≠ found (Some page) selectable) ->
     List.filter is_setTimeout (snd (handle b env (navigate_to_node nodeId pageName) w))
     = [] /\
     exists text,
       List.filter is_notify (snd (handle b env (navigate_to_node nodeId pageName) w))
       = [notify text true]) /\
  (forall node page,
     nodeId = Some node -> truthy node = true ->
     getNodeById env = switch_rejects page ->
     snd (handle b env (navigate_to_node nodeId pageName) w)
     = [setCurrentPage page; console_error "Error navigating to node:";
        notify "Could not find the linked element" true]) /\
  (nodeId = None \/ nodeId = Some ""%string ->
   snd (handle b env (navigate_to_node nodeId pageName) w) = []) /\
  handle b env (navigate_to_node nodeId pageName) w
  = handle b env (navigate_to_node nodeId None) w.
Proof.
  cbn [handle snd]. split_and!.
  - navigation nodeId env; cbn; split;
      try (intros H; exfalso; apply H; reflexivity);
      try (intros (n & p & s & H1 & H2 & H3); congruence).
    intros _. exists node, page, selectable. repeat split; assumption.
  - intros node page selectable -> Ht Hl. rewrite Ht, Hl.
    destruct selectable; eexists; (split; [ reflexivity | ]); split; congruence.
  - intros node -> Ht Hl. rewrite Ht.
    destruct (getNodeById env) as [ | | [page | ] selectable | page ];
      try (split; [ reflexivity | eexists; reflexivity ]).
    exfalso. exact (Hl page selectable eq_refl).
  - intros node page -> Ht Hl. rewrite Ht, Hl. reflexivity.
  - intros [-> | ->]; reflexivity.
  - reflexivity.
Qed.

Lemma unchanged_document_is_bound b w :
  documentChanged b w = false -> currentDocumentId w = documentIdentity b (figma w).
Proof.
  unfold documentChanged, documentIdentity. destruct b.
  - destruct (String.eqb_spec (currentDocumentId w) (Figma.root_id (figma w)));
      [ intros _; assumption | discriminate ].
  - intros H. apply orb_false_elim in H as [Hkey Hroot].
    apply negb_false_iff, bool_decide_eq_true_1 in Hkey. rewrite <- Hkey.
    unfold truthy in Hroot. apply negb_false_iff, String.eqb_eq in Hroot.
    rewrite Hroot. unfold or_else, truthy.
    destruct (String.eqb_spec (currentDocumentId w) ""); [ assumption | reflexivity ].
Qed.

(** X18. The answer to [get-document-id] is the identity the session is
    bound to once the message has been handled: the id sent to the UI is
    the cached identity of the resulting state, in both versions, whether
    or not the detector fired on the way. *)
Theorem document_id_answer_is_the_bound_identity b env w :
  In (postMessage
        (document_id (currentDocumentId (fst (onmessage b env get_document_id w)))
                     (fileName b (figma w))))
     (snd (onmessage b env get_document_id w)) /\
  currentDocumentId (fst (onmessage b env get_document_id w))
  = documentIdentity b (figma w).
Proof.
  unfold onmessage, checkForDocumentChange.
  destruct (documentChanged b w) eqn:E.
  - pose proof (initializePlugin_binds b w) as Hb.
    pose proof (initializePlugin_figma b w) as Hf.
    destruct (initializePlugin b w) as [w1 out1]. cbn [fst snd handle] in *.
    rewrite Hf, Hb. split; [ | reflexivity ].
    apply in_cons, in_or_app. right. left. reflexivity.
  - cbn [fst snd handle]. rewrite (unchanged_document_is_bound b w E).
    split; [ left; reflexivity | reflexivity ].
Qed.

(** X19. What the events report is stored: a decision (or resource)
    reported as created or updated is in the collection in memory, an id
    reported as deleted is carried by no record of it, and in each case
    the blob in the document decodes to that collection. No such event is
    sent after a save that failed. *)
Theorem reported_changes_are_stored b env msg w :
  (forall d,
     In (postMessage (decision_created d)) (snd (handle b env msg w)) \/
     In (postMessage (decision_updated d)) (snd (handle b env msg w)) ->
     d ∈ decisions (fst (handle b env msg w)) /\
     decisions_in_sync (fst (handle b env msg w))) /\
  (forall i,
     In (postMessage (decision_deleted i)) (snd (handle b env msg w)) ->
     Forall (λ d, Decision.id d ≠ i) (decisions (fst (handle b env msg w))) /\
     decisions_in_sync (fst (handle b env msg w))) /\
  (forall r,
     In (postMessage (resource_created r)) (snd (handle b env msg w)) \/
     In (postMessage (resource_updated r)) (snd (handle b env msg w)) ->
     r ∈ resources (fst (handle b env msg w)) /\
     resources_in_sync (fst (handle b env msg w))) /\
  (forall i,
     In (postMessage (resource_deleted i)) (snd (handle b env msg w)) ->
     Forall (λ r, Resource.id r ≠ i) (resources (fst (handle b env msg w))) /\
     resources_in_sync (fst (handle b env msg w))) /\
  (write_ok env = false ->
   List.filter is_success (snd (handle b env msg w)) = []).
Proof.
  assert (Hsync_d : forall blob f,
            loadDecisions (savedDecisions
                             (Figma.stored PLUGIN_NAMESPACE DECISIONS_KEY
                                (Decision.stringify blob) f)) = Some blob).
  { intros. rewrite savedDecisions_stored_decisions. apply loadDecisions_stringify. }
  assert (Hsync_r : forall blob f,
            loadResources (savedResources
                             (Figma.stored PLUGIN_NAMESPACE RESOURCES_KEY
                                (Resource.stringify blob) f)) = Some blob).
  { intros. rewrite savedResources_stored_resources. apply loadResources_stringify. }
  destruct msg; cbn [handle].
  - (* create-resource *)
    unfold saveResourcesToDocument, save, resources_in_sync, decisions_in_sync.
    destruct (write_ok env); cbn [fst snd with_resources with_figma figma resources];
      reports; try (pick H; fail); try discriminate H; try reflexivity.
    pick H. injection H as <-. split; [ | apply Hsync_r ].
    apply elem_of_app. right. apply list_elem_of_here.
  - (* create-decision *)
    unfold saveDecisionsToDocument, save, created, resources_in_sync, decisions_in_sync.
    destruct (write_ok env), b;
      cbn [fst snd with_decisions with_figma figma decisions];
      reports; try (pick H; fail); try discriminate H; try reflexivity;
      pick H; injection H as <-; (split; [ | apply Hsync_d ]);
      apply elem_of_app; right; apply list_elem_of_here.
  - (* edit-decision *)
    destruct (list_find _ _) as [[index stored] | ] eqn:E;
      [ | cbn [fst snd]; reports; try (pick H; fail); reflexivity ].
    apply list_find_Some in E as (Hlook & _).
    unfold saveDecisionsToDocument, save, updated, resources_in_sync, decisions_in_sync.
    destruct (write_ok env), b;
      cbn [fst snd with_decisions with_figma figma decisions];
      reports; try (pick H; fail); try discriminate H; try reflexivity;
      pick H; injection H as <-; (split; [ | apply Hsync_d ]);
      apply list_elem_of_lookup; exists index;
      apply list_lookup_insert_eq; eapply lookup_lt_Some; exact Hlook.
  - (* delete-decision *)
    unfold saveDecisionsToDocument, save, deleted, resources_in_sync, decisions_in_sync.
    destruct (write_ok env), b; try destruct (truthy (or_else _ _));
      cbn [fst snd with_decisions with_figma figma decisions];
      reports; try (pick H; fail); try discriminate H; try reflexivity;
      pick H; injection H as <-; (split; [ | apply Hsync_d ]);
      apply Forall_forall; intros d Hd; apply list_elem_of_filter in Hd; tauto.
  - (* edit-resource *)
    destruct (list_find _ _) as [[index stored] | ] eqn:E;
      [ | cbn [fst snd]; reports; try (pick H; fail); reflexivity ].
    apply list_find_Some in E as (Hlook & _).
    unfold saveResourcesToDocument, save, resources_in_sync, decisions_in_sync.
    destruct (write_ok env);
      cbn [fst snd with_resources with_figma figma resources];
      reports; try (pick H; fail); try discriminate H; try reflexivity.
    pick H. injection H as <-. split; [ | apply Hsync_r ].
    apply list_elem_of_lookup. exists index.
    apply list_lookup_insert_eq. eapply lookup_lt_Some. exact Hlook.
  - (* delete-resource *)
    unfold saveResourcesToDocument, save, resources_in_sync, decisions_in_sync.
    destruct (write_ok env); cbn [fst snd with_resources with_figma figma resources];
      reports; try (pick H; fail); try discriminate H; try reflexivity.
    pick H. injection H as <-. split; [ | apply Hsync_r ].
    apply Forall_forall. intros r Hr. apply list_elem_of_filter in Hr. tauto.
  - cbn [fst snd]. reports; try (pick H; fail); reflexivity.
  - cbn [fst snd]. destruct b; reports; try (pick H; fail); reflexivity.
  - cbn [fst snd]. navigation nodeId env; reports; try (pick H; fail); reflexivity.
  - cbn [fst snd]. reports; try (pick H; fail); reflexivity.
  - cbn [fst snd]. reports; try (pick H; fail); reflexivity.
Qed.

Lemma reported_changes_are_stored_witness :
  In (postMessage
        (decision_updated (a_decision "17" "Use dark mode default" "Ada" 1700000000500)))
     (snd (handle Source (at_time 1700000000500)
             (edit_decision (a_decision "17" "Use dark mode default" "Mallory" 0))
             (fst (boot Source stocked_document)))) /\
  a_decision "17" "Use dark mode default" "Ada" 1700000000500
  ∈ decisions (fst (handle Source (at_time 1700000000500)
                      (edit_decision (a_decision "17" "Use dark mode default" "Mallory" 0))
                      (fst (boot Source stocked_document)))).
Proof.
  assert (H : In (postMessage
                    (decision_updated
                       (a_decision "17" "Use dark mode default" "Ada" 1700000000500)))
                 (snd (handle Source (at_time 1700000000500)
                         (edit_decision
                            (a_decision "17" "Use dark mode default" "Mallory" 0))
                         (fst (boot Source stocked_document))))).
  { vm_compute. right. left. reflexivity. }
  split; [ exact H | ].
  exact (proj1 (proj1 (reported_changes_are_stored Source (at_time 1700000000500)
                         (edit_decision
                            (a_decision "17" "Use dark mode default" "Mallory" 0))
                         (fst (boot Source stocked_document)))
                  _ (or_intror H))).
Defined.

(** X20. The selection message names a node exactly when one node is
    selected, and then it is that node; with several nodes it gives their
    number and no id; the page is given unless nothing is selected. It is
    always one message. *)
Theorem selection_info_names_the_single_selected_node f :
  exists nodeId nodeName pageName,
    sendSelectionInfo f = [postMessage (selection_info nodeId nodeName pageName)] /\
    (nodeId ≠ None <-> length (Figma.selection f) = 1%nat) /\
    (forall node, Figma.selection f = [node] ->
                  nodeId = Some (Figma.node_id node) /\
                  nodeName = Some (Figma.node_name node)) /\
    (nodeName = None <-> Figma.selection f = []) /\
    (pageName = None <-> Figma.selection f = []) /\
    (Figma.selection f ≠ [] -> pageName = Some (Figma.currentPage_name f)) /\
    ((2 <= length (Figma.selection f))%nat ->
     nodeName = Some ("Multiple items ("
                      ++ toString (Z.of_nat (length (Figma.selection f))) ++ ")")%string).
Proof.
  unfold sendSelectionInfo. destruct (Figma.selection f) as [ | node [ | node' rest ] ];
    do 3 eexists; (split; [ reflexivity | ]); cbn [length]; split_and!;
    try (split; congruence); try congruence; try lia;
    try (split; [ congruence | lia ]); try (split; [ lia | congruence ]).
Qed.

End Queries.

(* ===================================================================== *)
(** * The visual log: header, order and rebuild (TypeScript source) *)
(* ===================================================================== *)

Section Canvas.

Import Table.

Variable toLocaleDateString : Z -> string.

Lemma row_is_decision_row d :
  isDecisionRow (childName (decisionRow toLocaleDateString d)) = true.
Proof. reflexivity. Qed.

(** X21. Rows are known by their name alone: the name of a row starts
    with [Decision:], so the rebuild takes every row for a row, and never
    the header; and two rows have the same name exactly when their
    decisions have the same title, whatever their ids. *)
Theorem rows_are_recognised_by_name d d' :
  isDecisionRow (Mirror.name (Mirror.createDecisionRow toLocaleDateString d)) = true /\
  isDecisionRow (Mirror.name createDecisionTableHeader) = false /\
  (Mirror.name (Mirror.createDecisionRow toLocaleDateString d)
   = Mirror.name (Mirror.createDecisionRow toLocaleDateString d')
   <-> Decision.title d = Decision.title d').
Proof.
  split_and!; [ reflexivity | reflexivity | ].
  cbn [Mirror.createDecisionRow Mirror.name]. split.
  - intros H. cbv [String.app String.append] in H. congruence.
  - intros ->. reflexivity.
Qed.

(** X22. The cells of a row stand under the header: a row has as many
    cells as the header has columns; the width the code gives each cell
    is the width it gives the header text of its column, whatever the
    decision; and every cell is set in 12-point type and told to fit its
    height to its text, so that the width is what stays. *)
Theorem row_cells_match_header_columns d :
  (λ cell, fst (Mirror.resize cell))
    <$> Mirror.children (Mirror.createDecisionRow toLocaleDateString d)
  = (λ cell, fst (Mirror.resize cell)) <$> Mirror.children createDecisionTableHeader /\
  length (Mirror.children (Mirror.createDecisionRow toLocaleDateString d))
  = length headers /\
  Mirror.characters <$> Mirror.children createDecisionTableHeader = fst <$> headers /\
  Forall (λ cell, Mirror.textAutoResize cell = Some Mirror.HEIGHT /\
                  Mirror.fontSize cell = 12%nat)
         (Mirror.children (Mirror.createDecisionRow toLocaleDateString d)).
Proof. split_and!; try reflexivity. repeat constructor. Qed.

Lemma place_Permutation d l : place d l ≡ₚ d :: l.
Proof.
  induction l as [ | x l IH ]; [ reflexivity | ]. cbn [place].
  destruct (Decision.timestamp x <=? Decision.timestamp d); [ reflexivity | ].
  rewrite IH. apply Permutation_swap.
Qed.

Lemma place_newest_first d l : newest_first l -> newest_first (place d l).
Proof.
  unfold newest_first. induction l as [ | x l IH ]; intros Hs.
  - repeat constructor.
  - apply StronglySorted_inv in Hs as [Hl Hx]. cbn [place].
    destruct (Z.leb_spec (Decision.timestamp x) (Decision.timestamp d)) as [Hle | Hlt].
    + constructor; [ constructor; assumption | ].
      constructor; [ exact Hle | ].
      eapply Forall_impl; [ exact Hx | ]. cbn. intros y Hy. lia.
    + constructor; [ exact (IH Hl) | ].
      rewrite (place_Permutation d l). constructor; [ lia | exact Hx ].
Qed.

Lemma place_filter t d l :
  filter (λ x, Decision.timestamp x = t) (place d l)
  = filter (λ x, Decision.timestamp x = t) (d :: l).
Proof.
  induction l as [ | x l IH ]; [ reflexivity | ]. cbn [place].
  destruct (Z.leb_spec (Decision.timestamp x) (Decision.timestamp d)) as [Hle | Hlt];
    [ reflexivity | ].
  rewrite (filter_cons _ x), IH, !filter_cons.
  destruct (decide (Decision.timestamp x = t)), (decide (Decision.timestamp d = t));
    try reflexivity.
  lia.
Qed.

Lemma newest_first_determined l l' :
  newest_first l -> newest_first l' -> same_order_within_timestamps l l' -> l = l'.
Proof.
  unfold newest_first, same_order_within_timestamps.
  revert l'. induction l as [ | x xs IH ]; intros [ | y ys ] Hs Hs' Hsame.
  - reflexivity.
  - specialize (Hsame (Decision.timestamp y)).
    rewrite filter_cons_True in Hsame by reflexivity. discriminate Hsame.
  - specialize (Hsame (Decision.timestamp x)).
    rewrite filter_cons_True in Hsame by reflexivity. discriminate Hsame.
  - apply StronglySorted_inv in Hs as [Hxs Hx].
    apply StronglySorted_inv in Hs' as [Hys Hy].
    assert (Hyx : Decision.timestamp x <= Decision.timestamp y).
    { pose proof (Hsame (Decision.timestamp x)) as H.
      rewrite filter_cons_True in H by reflexivity.
      assert (Hin : x ∈ filter (λ d, Decision.timestamp d = Decision.timestamp x) (y :: ys)).
      { rewrite <- H. apply list_elem_of_here. }
      apply list_elem_of_filter in Hin as [_ Hin].
      apply elem_of_cons in Hin as [-> | Hin]; [ lia | ].
      rewrite Forall_forall in Hy. exact (Hy x Hin). }
    assert (Hxy : Decision.timestamp y <= Decision.timestamp x).
    { pose proof (Hsame (Decision.timestamp y)) as H.
      rewrite (filter_cons_True _ y) in H by reflexivity.
      assert (Hin : y ∈ filter (λ d, Decision.timestamp d = Decision.timestamp y) (x :: xs)).
      { rewrite H. apply list_elem_of_here. }
      apply list_elem_of_filter in Hin as [_ Hin].
      apply elem_of_cons in Hin as [-> | Hin]; [ lia | ].
      rewrite Forall_forall in Hx. exact (Hx y Hin). }
    assert (Heq : Decision.timestamp y = Decision.timestamp x) by lia.
    pose proof (Hsame (Decision.timestamp x)) as Hhead.
    rewrite filter_cons_True in Hhead by reflexivity.
    rewrite filter_cons_True in Hhead by exact Heq.
    injection Hhead as <- _. f_equal. apply IH; [ assumption | assumption | ].
    intros t. specialize (Hsame t). rewrite !filter_cons in Hsame.
    destruct (decide (Decision.timestamp x = t)); congruence.
Qed.

Lemma sortedDecisions_newest_first l : newest_first (sortedDecisions l).
Proof.
  induction l as [ | d l IH ]; [ constructor | ].
  exact (place_newest_first d _ IH).
Qed.

Lemma sortedDecisions_same_order l :
  same_order_within_timestamps (sortedDecisions l) l.
Proof.
  intros t. induction l as [ | d l IH ]; [ reflexivity | ].
  cbn [sortedDecisions foldr]. rewrite place_filter, !filter_cons.
  fold (sortedDecisions l). rewrite IH. reflexivity.
Qed.

(** X23. The order of the rebuilt log: [sortedDecisions] holds the same
    decisions, newest first, and decisions of one timestamp keep the
    order they have in the collection; it is the only list that does,
    which is what the stable [sort] with [b.timestamp - a.timestamp]
    returns. *)
Theorem sortedDecisions_is_the_stable_newest_first_order l :
  sortedDecisions l ≡ₚ l /\
  newest_first (sortedDecisions l) /\
  same_order_within_timestamps (sortedDecisions l) l /\
  (forall l', newest_first l' -> same_order_within_timestamps l' l ->
              l' = sortedDecisions l).
Proof.
  split_and!.
  - induction l as [ | d l IH ]; [ reflexivity | ].
    cbn [sortedDecisions foldr]. rewrite place_Permutation.
    fold (sortedDecisions l). rewrite IH. reflexivity.
  - apply sortedDecisions_newest_first.
  - apply sortedDecisions_same_order.
  - intros l' Hs Hsame. apply newest_first_determined;
      [ exact Hs | apply sortedDecisions_newest_first | ].
    intros t. rewrite Hsame. symmetry. apply sortedDecisions_same_order.
Qed.

Lemma filter_none {A} (P : A -> Prop) `{!forall x, Decision (P x)} (l : list A) :
  Forall (λ x, ¬ P x) l -> filter P l = [].
Proof.
  induction 1 as [ | x l Hx Hl IH ]; [ reflexivity | ].
  rewrite filter_cons_False by exact Hx. exact IH.
Qed.

Lemma filter_twice {A} (f : A -> bool) (l : list A) :
  List.filter f (List.filter f l) = List.filter f l.
Proof.
  induction l as [ | x l IH ]; [ reflexivity | ]. cbn [List.filter].
  destruct (f x) eqn:E; [ cbn [List.filter]; rewrite E, IH | ]; auto.
Qed.

Lemma filter_none_then {A} (f : A -> bool) (l : list A) :
  List.filter f (List.filter (λ x, negb (f x)) l) = [].
Proof.
  induction l as [ | x l IH ]; [ reflexivity | ]. cbn [List.filter].
  destruct (f x) eqn:E; cbn [negb List.filter]; [ | rewrite E ]; exact IH.
Qed.

Lemma rows_of_rows (ds : list Decision.t) :
  rows (decisionRow toLocaleDateString <$> ds) = decisionRow toLocaleDateString <$> ds /\
  others (decisionRow toLocaleDateString <$> ds) = [].
Proof.
  unfold rows, others. induction ds as [ | d ds [IH1 IH2] ]; [ split; reflexivity | ].
  rewrite fmap_cons. cbn [List.filter].
  rewrite row_is_decision_row. cbn [negb]. rewrite IH1, IH2. split; reflexivity.
Qed.

(** X24. A rebuild of the log for a collection that is not empty leaves
    as rows exactly one row per decision, newest first, whatever rows
    stood there before; the other children (title, header) stay, in
    their order, in front of the rows; and rebuilding twice is rebuilding
    once. For the empty collection the rebuild returns at once, so rows
    drawn earlier stay on the canvas. *)
Theorem rebuild_redraws_every_row d ds children :
  rows (rebuiltChildren toLocaleDateString (d :: ds) children)
  = decisionRow toLocaleDateString <$> sortedDecisions (d :: ds) /\
  others (rebuiltChildren toLocaleDateString (d :: ds) children) = others children /\
  rebuiltChildren toLocaleDateString (d :: ds) children
  = others children ++ rows (rebuiltChildren toLocaleDateString (d :: ds) children) /\
  rebuiltChildren toLocaleDateString (d :: ds)
    (rebuiltChildren toLocaleDateString (d :: ds) children)
  = rebuiltChildren toLocaleDateString (d :: ds) children /\
  rebuiltChildren toLocaleDateString [] children = children.
Proof.
  destruct (rows_of_rows (sortedDecisions (d :: ds))) as [Hrows Hothers].
  assert (Hr : rows (rebuiltChildren toLocaleDateString (d :: ds) children)
               = decisionRow toLocaleDateString <$> sortedDecisions (d :: ds)).
  { unfold rebuiltChildren, rows. rewrite List.filter_app.
    rewrite (filter_none_then (λ child, isDecisionRow (childName child))).
    exact Hrows. }
  assert (Ho : others (rebuiltChildren toLocaleDateString (d :: ds) children)
               = others children).
  { unfold rebuiltChildren, others. rewrite List.filter_app, filter_twice.
    fold (others (decisionRow toLocaleDateString <$> sortedDecisions (d :: ds))).
    rewrite Hothers. apply app_nil_r. }
  split_and!.
  - exact Hr.
  - exact Ho.
  - rewrite Hr. reflexivity.
  - unfold rebuiltChildren at 1.
    fold (others (rebuiltChildren toLocaleDateString (d :: ds) children)).
    rewrite Ho. reflexivity.
  - reflexivity.
Qed.

(** X25. Adding a row and rebuilding do not give the same order: a
    decision newer than all the others gets the last row when it is
    added to the log, and the first row when the log is rebuilt. *)
Theorem added_row_is_last_and_rebuilt_row_is_first d ds children :
  Forall (λ x, Decision.timestamp x < Decision.timestamp d) ds ->
  last (rows (withRowAdded toLocaleDateString d children))
  = Some (decisionRow toLocaleDateString d) /\
  head (rows (rebuiltChildren toLocaleDateString (ds ++ [d]) children))
  = Some (decisionRow toLocaleDateString d).
Proof.
  intros Hnewer. split.
  - unfold withRowAdded, rows. rewrite List.filter_app. cbn [List.filter].
    rewrite row_is_decision_row. apply last_snoc.
  - assert (Hsorted : sortedDecisions (ds ++ [d]) = d :: sortedDecisions ds).
    { symmetry.
      apply newest_first_determined.
      - constructor; [ apply sortedDecisions_newest_first | ].
        apply Forall_forall. intros x Hx.
        assert (Hin : x ∈ ds).
        { pose proof (sortedDecisions_same_order ds (Decision.timestamp x)) as H.
          assert (Hf : x ∈ filter (λ y, Decision.timestamp y = Decision.timestamp x)
                             (sortedDecisions ds)).
          { apply list_elem_of_filter. split; [ reflexivity | exact Hx ]. }
          rewrite H in Hf. apply list_elem_of_filter in Hf. tauto. }
        rewrite Forall_forall in Hnewer. specialize (Hnewer x Hin). lia.
      - apply sortedDecisions_newest_first.
      - intros t. rewrite (sortedDecisions_same_order (ds ++ [d]) t).
        rewrite filter_app, !filter_cons, filter_nil.
        rewrite (sortedDecisions_same_order ds t).
        destruct (decide (Decision.timestamp d = t)) as [Ht | Ht];
          [ | rewrite app_nil_r; reflexivity ].
        rewrite filter_none; [ reflexivity | ].
        eapply Forall_impl; [ exact Hnewer | ]. cbn. intros x Hx. lia. }
    destruct ds as [ | d0 ds ].
    + cbn [app]. destruct (rows_of_rows [d]) as [Hrows _].
      unfold rebuiltChildren, rows. rewrite List.filter_app.
      rewrite (filter_none_then (λ child, isDecisionRow (childName child))).
      reflexivity.
    + unfold rebuiltChildren, rows. rewrite <- app_comm_cons.
      rewrite List.filter_app.
      rewrite (filter_none_then (λ child, isDecisionRow (childName child))).
      rewrite app_comm_cons, Hsorted. cbn [app fmap list_fmap List.filter].
      rewrite row_is_decision_row. reflexivity.
Qed.

End Canvas.

Lemma added_row_is_last_and_rebuilt_row_is_first_witness :
  Forall (λ x, Decision.timestamp x < 18)
    [a_decision "16" "Spacing" "Bob" 16;
     a_decision "17" "Use dark mode default" "Ada" 17] /\
  Table.rows
    (Table.withRowAdded epoch_locale (a_decision "18" "Icons" "Bob" 18)
       (Table.rebuiltChildren epoch_locale
          [a_decision "16" "Spacing" "Bob" 16;
           a_decision "17" "Use dark mode default" "Ada" 17]
          [Table.textChild "Design Decisions Log";
           Table.frameChild Table.createDecisionTableHeader]))
  = Table.decisionRow epoch_locale
      <$> [a_decision "17" "Use dark mode default" "Ada" 17;
           a_decision "16" "Spacing" "Bob" 16;
           a_decision "18" "Icons" "Bob" 18] /\
  head (Table.rows
          (Table.rebuiltChildren epoch_locale
             ([a_decision "16" "Spacing" "Bob" 16;
               a_decision "17" "Use dark mode default" "Ada" 17]
              ++ [a_decision "18" "Icons" "Bob" 18])
             [Table.textChild "Design Decisions Log";
              Table.frameChild Table.createDecisionTableHeader]))
  = Some (Table.decisionRow epoch_locale (a_decision "18" "Icons" "Bob" 18)).
Proof.
  assert (Hnewer : Forall (λ x, Decision.timestamp x < 18)
                     [a_decision "16" "Spacing" "Bob" 16;
                      a_decision "17" "Use dark mode default" "Ada" 17]).
  { repeat constructor. }
  split; [ exact Hnewer | ].
  split; [ reflexivity | ].
  exact (proj2 (added_row_is_last_and_rebuilt_row_is_first epoch_locale
                  (a_decision "18" "Icons" "Bob" 18)
                  [a_decision "16" "Spacing" "Bob" 16;
                   a_decision "17" "Use dark mode default" "Ada" 17]
                  [Table.textChild "Design Decisions Log";
                   Table.frameChild Table.createDecisionTableHeader]
                  Hnewer)).
Defined.

(* ===================================================================== *)
(** * Creation: what a new record always has *)
(* ===================================================================== *)

Section Creation.

Lemma toString_nonempty z : toString z ≠ ""%string.
Proof.
  unfold toString. destruct (print_int_head z) as (c & r & -> & _). discriminate.
Qed.

Lemma authorName_nonempty f : authorName f ≠ ""%string.
Proof.
  unfold authorName, or_else.
  destruct (Figma.name <$> Figma.currentUser f) as [s | ]; [ | discriminate ].
  unfold truthy. destruct (String.eqb_spec s ""); [ discriminate | assumption ].
Qed.

(** X26. A create appends one record at the end of its collection and
    leaves the earlier records as they are, whether or not the save
    succeeds. The new record is never short of an id or an author (with
    no user, or a user without a name, the author is [Unknown]); the id
    is the text of the first clock reading and the timestamp the second;
    sequences that the message leaves out are empty rather than absent;
    and a decision sent without a status is proposed. *)
Theorem created_record_is_complete b env w :
  (forall title rationale context links pros cons_ tags nodeId nodeName pageName status,
     exists d,
       decisions (fst (handle b env
                         (create_decision title rationale context links pros cons_ tags
                            nodeId nodeName pageName status) w))
       = decisions w ++ [d] /\
       Decision.id d = toString (Date_now env) /\
       Decision.id d ≠ ""%string /\
       Decision.timestamp d = Date_now' env /\
       Decision.author d ≠ ""%string /\
       (Figma.currentUser (figma w) = None -> Decision.author d = "Unknown"%string) /\
       Decision.links d = default [] links /\
       Decision.pros d = Some (default [] pros) /\
       Decision.cons d = Some (default [] cons_) /\
       Decision.tags d = Some (default [] tags) /\
       Decision.status d = default Status.proposed status /\
       Decision.title d = title /\ Decision.rationale d = rationale /\
       Decision.context d = context /\ Decision.nodeId d = nodeId /\
       Decision.nodeName d = nodeName /\ Decision.pageName d = pageName) /\
  (forall title description url category tags,
     exists r,
       resources (fst (handle b env
                         (create_resource title description url category tags) w))
       = resources w ++ [r] /\
       Resource.id r = toString (Date_now env) /\
       Resource.id r ≠ ""%string /\
       Resource.timestamp r = Date_now' env /\
       Resource.author r ≠ ""%string /\
       (Figma.currentUser (figma w) = None -> Resource.author r = "Unknown"%string) /\
       Resource.tags r = Some (default [] tags) /\
       Resource.title r = title /\ Resource.description r = description /\
       Resource.url r = url /\ Resource.category r = category).
Proof.
  split; intros; eexists; cbn [handle];
    unfold saveDecisionsToDocument, saveResourcesToDocument, save;
    (split;
     [ destruct (write_ok env);
       cbn [fst snd with_decisions with_resources with_figma decisions resources];
       reflexivity
     | cbn; split_and!; try reflexivity;
       try apply toString_nonempty; try apply authorName_nonempty;
       intros Hnone; unfold authorName; rewrite Hnone; reflexivity ]).
Qed.

End Creation.

(* ===================================================================== *)
(** * Selection changes *)
(* ===================================================================== *)

Section Selection.

(** X27. A selection change never saves: the plugin data of the document
    are as before and [setSharedPluginData] is not called; and when the
    detector does not fire, the selection message is all the listener
    does. *)
Theorem selection_change_never_saves b w :
  Figma.sharedPluginData (figma (fst (onselectionchange b w)))
  = Figma.sharedPluginData (figma w) /\
  save_calls (snd (onselectionchange b w)) = 0%nat /\
  (documentChanged b w = false ->
   onselectionchange b w = (w, sendSelectionInfo (figma w))).
Proof.
  unfold onselectionchange.
  pose proof (checkForDocumentChange_figma b w) as Hf.
  pose proof (checkForDocumentChange_quiet b w) as [_ Hq].
  split_and!.
  - destruct (checkForDocumentChange b w) as [w1 out1]. cbn [fst] in *.
    rewrite Hf. reflexivity.
  - destruct (checkForDocumentChange b w) as [w1 out1]. cbn [fst snd] in *.
    rewrite save_calls_app, Hq.
    destruct (sendSelectionInfo_shape (figma w1)) as (i & n & p & ->). reflexivity.
  - intros Hsame. unfold checkForDocumentChange. rewrite Hsame. reflexivity.
Qed.

End Selection.
